(** * gitbook_rag: the documentation ingestion pipeline

    A shallow embedding of [data_ingestion/models.py], [scrapper.py],
    [chunker.py], [utils.py] and [crawler.py], of [populate_store.py],
    of [ChromaStore.build] and of the request validation of [app.py],
    and the properties of the pipeline (discovery, reconciliation,
    fetching, cleaning, chunking, indexing) checked against it.

    Conventions.
    - A Python string is the sequence of its characters. The characters
      of the model are the code points U+0000 to U+00FF: an [ascii] is
      the character with that code point.
    - A Python exception is a value of [Py.Exn]; code that may raise
      returns a [Py.Result].
    - [Page] objects are mutated in place and shared by reference: they
      live in a store [gmap nat Page] and a page list is a list of
      addresses.
    - Third-party libraries (requests, ElementTree, dateutil,
      BeautifulSoup, the langchain splitters) are parameters of the
      sections that use them; small executable stand-ins, used only to
      run the code on concrete inputs, are defined in [StandIns]. *)

From Stdlib Require Import ZArith Ascii String List Lia.
From stdpp Require Import base option list strings gmap pretty.

(* ================================================================== *)
(** * Python values, exceptions, strings *)
(* ================================================================== *)

Module Py.

(** Exceptions raised by the code and the libraries it calls. Every
    one of them is a subclass of [Exception]. *)
Inductive Exn :=
| ConnectionError
| Timeout
| HTTPError (status : Z)
| ParseError
| AttributeError
| ValueError
| Exception (msg : string).

Inductive Result (A : Type) :=
| Ok (a : A)
| Raise (e : Exn).
Arguments Ok {A} a.
Arguments Raise {A} e.

#[global] Instance result_ret : MRet Result := fun A a => Ok a.
#[global] Instance result_bind : MBind Result :=
  fun A B f m => match m with Ok a => f a | Raise e => Raise e end.

Definition raised {A} (r : Result A) : bool :=
  match r with Ok _ => false | Raise _ => true end.

Definition str_exn (e : Exn) : string :=
  match e with
  | ConnectionError => "ConnectionError"
  | Timeout => "Timeout"
  | HTTPError status => "HTTPError " +:+ pretty status
  | ParseError => "ParseError"
  | AttributeError => "AttributeError"
  | ValueError => "ValueError"
  | Exception msg => msg
  end.

(** The primitive values stored in a metadata dict. *)
Inductive Val (float : Type) :=
| VNone
| VStr (s : string)
| VInt (n : Z)
| VBool (b : bool)
| VFloat (f : float).
Arguments VNone {float}.
Arguments VStr {float} s.
Arguments VInt {float} n.
Arguments VBool {float} b.
Arguments VFloat {float} f.

(** [logging]: one record per call, in emission order. *)
Inductive Level := DEBUG | INFO | WARNING.
Record LogRecord := mkLog { levelname : Level; message : string }.

(** [bool(s)] for a [str]. *)
Definition truthy_str (s : string) : bool :=
  match s with EmptyString => false | String _ _ => true end.

(** [bool(o)] for an [Optional[str]]. *)
Definition truthy_opt_str (o : option string) : bool :=
  match o with Some s => truthy_str s | None => false end.

(** [limit and i >= limit] for an [Optional[int]] limit: [None] and [0]
    are falsy, every other integer is truthy. *)
Definition limit_and_ge (limit : option Z) (i : nat) : bool :=
  match limit with
  | None => false
  | Some n => negb (n =? 0)%Z && (n <=? Z.of_nat i)%Z
  end.

(** [c.isspace()] on the characters up to U+00FF: tab, LF, VT, FF, CR,
    the four separators U+001C to U+001F, the space, NEL (U+0085) and
    the no-break space (U+00A0). [str.strip] and the regex class [\s]
    use the same set. *)
Definition is_space (c : ascii) : bool :=
  let n := nat_of_ascii c in
  ((9 <=? n) && (n <=? 13)) || ((28 <=? n) && (n <=? 32))
  || (n =? 133) || (n =? 160).

Fixpoint lstrip (s : string) : string :=
  match s with
  | EmptyString => EmptyString
  | String c s' => if is_space c then lstrip s' else s
  end.

Fixpoint rstrip (s : string) : string :=
  match s with
  | EmptyString => EmptyString
  | String c s' =>
      match rstrip s' with
      | EmptyString => if is_space c then EmptyString else String c EmptyString
      | r => String c r
      end
  end.

(** [s.strip()] *)
Definition strip (s : string) : string := rstrip (lstrip s).

(** [sep.join(parts)] *)
Fixpoint join (sep : string) (parts : list string) : string :=
  match parts with
  | [] => ""
  | [p] => p
  | p :: rest => p +:+ sep +:+ join sep rest
  end.

(** [c in s] for a one-character [c]. *)
Fixpoint contains_char (c : ascii) (s : string) : bool :=
  match s with
  | EmptyString => false
  | String a s' => if Ascii.eqb a c then true else contains_char c s'
  end.

(** [s.find(c)] for a one-character [c]: the first index, or [-1]. *)
Fixpoint find_char (c : ascii) (s : string) : Z :=
  match s with
  | EmptyString => (-1)%Z
  | String a s' =>
      if Ascii.eqb a c then 0%Z
      else match find_char c s' with
           | Z.neg _ => (-1)%Z
           | k => (k + 1)%Z
           end
  end.

(** Slice bounds as Python clamps them: a negative bound counts from
    the end. *)
Definition slice_bound (len k : Z) : nat :=
  Z.to_nat (Z.min len (if (k <? 0)%Z then Z.max 0 (len + k) else k)).

(** [s[i:j]] *)
Definition slice (s : string) (i j : Z) : string :=
  let len := Z.of_nat (String.length s) in
  let a := slice_bound len i in
  let b := slice_bound len j in
  String.substring a (b - a) s.

End Py.

Import Py.

(* ================================================================== *)
(** * models.py *)
(* ================================================================== *)

Module Models.

(** [requests.Response], as far as the code reads it. *)
Record Response := mkResponse { status_code : Z; text : string }.

Section Page.
Context {datetime float : Type}.

(** [datetime.isoformat] *)
Variable isoformat : datetime -> string.
(** [Response.raise_for_status]: raises [HTTPError] for an error
    status, returns [None] otherwise. *)
Variable raise_for_status : Response -> Result unit.

Record Page := mkPage {
  url : string;
  md_url : string;
  title : option string;
  md : option string;
  lastmod : option datetime;
  priority : option float;
  section : option string;
  source : string;
  loaded : bool;
  scraped_at : option datetime
}.

(** The defaults of the model's fields, as discovery creates pages. *)
Definition new_Page (url md_url : string) (title section : option string) : Page :=
  {| url := url; md_url := md_url; title := title; md := None;
     lastmod := None; priority := None; section := section;
     source := "llms.txt"; loaded := false; scraped_at := None |}.

(** The invariant of the Page entity in the words of the
    specification: [loaded = True] implies a non-empty markdown body
    and a fetch timestamp, [loaded = False] implies no markdown body. *)
Definition page_invariant (p : Page) : Prop :=
  (loaded p = true ->
     (exists body, md p = Some body /\ body <> "") /\ is_Some (scraped_at p))
  /\ (loaded p = false -> md p = None).

(** Attribute assignments [self.f = v]. *)
Definition set_md (v : option string) (p : Page) : Page :=
  {| url := url p; md_url := md_url p; title := title p; md := v;
     lastmod := lastmod p; priority := priority p; section := section p;
     source := source p; loaded := loaded p; scraped_at := scraped_at p |}.

Definition set_loaded (v : bool) (p : Page) : Page :=
  {| url := url p; md_url := md_url p; title := title p; md := md p;
     lastmod := lastmod p; priority := priority p; section := section p;
     source := source p; loaded := v; scraped_at := scraped_at p |}.

Definition set_scraped_at (v : option datetime) (p : Page) : Page :=
  {| url := url p; md_url := md_url p; title := title p; md := md p;
     lastmod := lastmod p; priority := priority p; section := section p;
     source := source p; loaded := loaded p; scraped_at := v |}.

Definition set_lastmod (v : option datetime) (p : Page) : Page :=
  {| url := url p; md_url := md_url p; title := title p; md := md p;
     lastmod := v; priority := priority p; section := section p;
     source := source p; loaded := loaded p; scraped_at := scraped_at p |}.

Definition set_priority (v : option float) (p : Page) : Page :=
  {| url := url p; md_url := md_url p; title := title p; md := md p;
     lastmod := lastmod p; priority := v; section := section p;
     source := source p; loaded := loaded p; scraped_at := scraped_at p |}.

(** The body of the [try] block of [Page.load] up to the first
    assignment: [got] is what [session.get(str(self.md_url),
    timeout=timeout)] did, an exception or a response. *)
Definition fetch_content (got : Result Response)
    (clean_fn : option (string -> Result string)) : Result string :=
  r ← got;
  _ ← raise_for_status r;
  let content := text r in
  match clean_fn with
  | Some f => f content
  | None => Ok content
  end.

(** [Page.load]: the page after the call, the returned flag and the
    log. [now] is [datetime.now(timezone.utc)]. *)
Definition load (self : Page) (got : Result Response)
    (clean_fn : option (string -> Result string)) (now : datetime)
    : Page * bool * list LogRecord :=
  match fetch_content got clean_fn with
  | Ok content =>
      let self := set_md (Some content) self in
      let self := set_loaded true self in
      let self := set_scraped_at (Some now) self in
      (self, true, [mkLog DEBUG ("Loaded markdown for " +:+ url self)])
  | Raise e =>
      let self := set_loaded false self in
      (self, false,
       [mkLog WARNING ("Failed to load " +:+ url self +:+ ": " +:+ str_exn e)])
  end.

Definition opt_val {A} (f : A -> Val float) (o : option A) : Val float :=
  match o with Some a => f a | None => VNone end.

(** [Page.to_metadata] *)
Definition to_metadata (self : Page) : gmap string (Val float) :=
  <["url" := VStr (url self)]>
  (<["md_url" := VStr (md_url self)]>
  (<["title" := opt_val VStr (title self)]>
  (<["section" := opt_val VStr (section self)]>
  (<["source" := VStr (source self)]>
  (<["priority" := opt_val VFloat (priority self)]>
  (<["lastmod" := opt_val (fun d => VStr (isoformat d)) (lastmod self)]>
  (<["scraped_at" := opt_val (fun d => VStr (isoformat d)) (scraped_at self)]>
  (<["loaded" := VBool (loaded self)]> ∅)))))))).

End Page.

Arguments Page : clear implicits.

End Models.

Import Models.

(* ================================================================== *)
(** * scrapper.py *)
(* ================================================================== *)

Module Scrapper.
Section DocScraper.
Context {datetime float : Type}.
Variable raise_for_status : Response -> Result unit.
(** [self.clean_fn] *)
Variable clean_fn : option (string -> Result string).
(** What the [i]-th call of [session.get] does, and the time read
    by the [i]-th call of [datetime.now]. *)
Variable session_get : nat -> Result Response.
Variable clock : nat -> datetime.

(** [page.load(...)] on the object at address [a]. *)
Definition load_at (store : gmap nat (Page datetime float)) (a i : nat)
    : gmap nat (Page datetime float) * list LogRecord :=
  match store !! a with
  | Some page =>
      let '(page', _, log) := load raise_for_status page (session_get i) clean_fn (clock i) in
      (<[a := page']> store, log)
  | None => (store, [])
  end.

(** The [for i, page in enumerate(pages)] loop, from index [i]. *)
Fixpoint scrape_loop (limit : option Z) (i : nat) (pages : list nat)
    (store : gmap nat (Page datetime float))
    : gmap nat (Page datetime float) * list LogRecord :=
  match pages with
  | [] => (store, [])
  | a :: rest =>
      if limit_and_ge limit i then (store, [])
      else
        let '(store1, log1) := load_at store a i in
        let '(store2, log2) := scrape_loop limit (S i) rest store1 in
        (store2, log1 ++ log2)
  end.

(** [sum(p.loaded for p in pages)] *)
Definition count_loaded (store : gmap nat (Page datetime float)) (pages : list nat) : nat :=
  length (filter (fun a => (loaded <$> store !! a) = Some true) pages).

(** [DocScraper.scrape]: the returned list, the store after the call
    and the log. *)
Definition scrape (pages : list nat) (limit : option Z)
    (store : gmap nat (Page datetime float))
    : list nat * gmap nat (Page datetime float) * list LogRecord :=
  let '(store', log) := scrape_loop limit 0 pages store in
  (pages, store',
   log ++ [mkLog INFO ("Scraped " +:+ pretty (count_loaded store' pages) +:+ " / "
                       +:+ pretty (length pages) +:+ " pages")]).

End DocScraper.
End Scrapper.

Import Scrapper.


(* ================================================================== *)
(** * chunker.py *)
(* ================================================================== *)

Module Chunker.

(** [langchain.schema.Document] *)
Record Document (float : Type) := mkDocument {
  page_content : string;
  metadata : gmap string (Val float)
}.
Arguments mkDocument {float} page_content metadata.
Arguments page_content {float} d.
Arguments metadata {float} d.

Section MarkdownChunker.
Context {datetime float : Type}.
Variable isoformat : datetime -> string.
(** [self.header_splitter.split_text] and
    [self.recursive_splitter.split_documents]: the two langchain
    splitters the constructor builds. Both return fresh documents. *)
Variable header_split_text : string -> list (Document float).
Variable recursive_split_documents : list (Document float) -> list (Document float).

(** [chunk.metadata.update(metadata or {})]: the keys of the page
    metadata overwrite the chunk's own. *)
Definition metadata_update (chunk : Document float)
    (metadata : option (gmap string (Val float))) : Document float :=
  mkDocument (page_content chunk) (default ∅ metadata ∪ Chunker.metadata chunk).

(** [chunk.metadata["chunk_index"] = i] *)
Definition set_chunk_index (i : nat) (chunk : Document float) : Document float :=
  mkDocument (page_content chunk)
             (<["chunk_index" := VInt (Z.of_nat i)]> (Chunker.metadata chunk)).

(** The inner loop, [for i, chunk in enumerate(sub_chunks)]. *)
Definition index_sub_chunks (metadata : option (gmap string (Val float)))
    (sub_chunks : list (Document float)) : list (Document float) :=
  imap (fun i chunk => set_chunk_index i (metadata_update chunk metadata)) sub_chunks.

(** The outer loop, [for doc in header_docs], appending to [docs]. *)
Fixpoint chunk_loop (metadata : option (gmap string (Val float)))
    (header_docs : list (Document float)) : list (Document float) :=
  match header_docs with
  | [] => []
  | doc :: rest =>
      index_sub_chunks metadata (recursive_split_documents [doc])
        ++ chunk_loop metadata rest
  end.

(** [MarkdownChunker.chunk] *)
Definition chunk (text : string) (metadata : option (gmap string (Val float)))
    : list (Document float) * list LogRecord :=
  if negb (truthy_str text) then
    ([], [mkLog WARNING "Empty document provided to chunker."])
  else
    let header_docs := header_split_text text in
    let docs := chunk_loop metadata header_docs in
    (docs, [mkLog INFO ("Created " +:+ pretty (length docs) +:+ " chunks.")]).

(** The loop of [chunk_pages], from index [i]: the chunks appended to
    [all_docs] and the log. *)
Fixpoint chunk_pages_loop (limit : option Z) (i : nat)
    (pages : list (Page datetime float)) : list (Document float) * list LogRecord :=
  match pages with
  | [] => ([], [])
  | page :: rest =>
      if limit_and_ge limit i then ([], [])
      else if negb (truthy_opt_str (md page)) then
        let '(all_docs, log) := chunk_pages_loop limit (S i) rest in
        (all_docs, mkLog WARNING ("Page has no markdown: " +:+ url page) :: log)
      else
        let metadata := to_metadata isoformat page in
        let '(docs, log1) := chunk (default "" (md page)) (Some metadata) in
        let '(all_docs, log2) := chunk_pages_loop limit (S i) rest in
        (docs ++ all_docs,
         log1 ++ mkLog INFO (default "None" (title page) +:+ ": "
                             +:+ pretty (length docs) +:+ " chunks") :: log2)
  end.

(** [MarkdownChunker.chunk_pages]. The pages are only read, so the
    argument is the list of the objects' current values. *)
Definition chunk_pages (pages : list (Page datetime float)) (limit : option Z)
    : list (Document float) * list LogRecord :=
  let '(all_docs, log) := chunk_pages_loop limit 0 pages in
  (all_docs,
   log ++ [mkLog INFO ("Total " +:+ pretty (length all_docs) +:+ " document chunks.")]).

(** What one iteration of the loop of [chunk_pages] appends for [page]. *)
Definition page_chunks (page : Page datetime float) : list (Document float) :=
  if truthy_opt_str (md page)
  then (chunk (default "" (md page)) (Some (to_metadata isoformat page))).1
  else [].

(** The [chunk_index] entries of a chunk sequence, in order. *)
Definition chunk_indices (docs : list (Document float)) : list (option (Val float)) :=
  map (fun d => Chunker.metadata d !! "chunk_index") docs.

(** The indices [0..n-1], as entries of metadata dicts. *)
Definition index_range (n : nat) : list (option (Val float)) :=
  map (fun i => Some (VInt (Z.of_nat i))) (seq 0 n).

(** The heading segments of [text] for which the size-bounded splitter
    returns at least one window. *)
Definition windowed_segments (text : string) : list (Document float) :=
  filter (fun doc => recursive_split_documents [doc] <> []) (header_split_text text).

End MarkdownChunker.
End Chunker.

Import Chunker.


(* ================================================================== *)
(** * The [re] patterns the code uses *)
(* ================================================================== *)

Module Re.

(** A pattern is a sequence of items; the only repetitions the code's
    pattern has are stars over a character class, greedy or lazy. *)
Inductive Item :=
| Bol                                   (* ^ under re.MULTILINE *)
| Eol                                   (* $ under re.MULTILINE *)
| Lit (c : ascii)
| StarGreedy (cls : ascii -> bool)      (* cls* *)
| StarLazy (cls : ascii -> bool).       (* cls*? *)

Definition newline : ascii := "010"%char.

(** [^]: at the start of the string or just after a newline. *)
Definition at_bol (prev : option ascii) : bool :=
  match prev with None => true | Some c => Ascii.eqb c newline end.

(** [$]: at the end of the string or just before a newline. *)
Definition at_eol (s : string) : bool :=
  match s with EmptyString => true | String c _ => Ascii.eqb c newline end.

(** Backtracking match of [items] at a position: [prev] is the character
    before it, [s] the text from it on. The result is the text left
    after the first match in the engine's priority order (a greedy star
    tries the longest run first, a lazy star the shortest). *)
Fixpoint match_items (items : list Item) (prev : option ascii) (s : string)
    : option string :=
  match items with
  | [] => Some s
  | Bol :: k => if at_bol prev then match_items k prev s else None
  | Eol :: k => if at_eol s then match_items k prev s else None
  | Lit c :: k =>
      match s with
      | String a s' => if Ascii.eqb a c then match_items k (Some a) s' else None
      | EmptyString => None
      end
  | StarGreedy cls :: k =>
      (fix star (prev : option ascii) (s : string) : option string :=
         match s with
         | String a s' =>
             if cls a then
               match star (Some a) s' with
               | Some r => Some r
               | None => match_items k prev s
               end
             else match_items k prev s
         | EmptyString => match_items k prev s
         end) prev s
  | StarLazy cls :: k =>
      (fix star (prev : option ascii) (s : string) : option string :=
         match match_items k prev s with
         | Some r => Some r
         | None =>
             match s with
             | String a s' => if cls a then star (Some a) s' else None
             | EmptyString => None
             end
         end) prev s
  end.

(** [re.sub(pattern, "", s, flags=re.MULTILINE)], scanning left to
    right: [skip] counts the characters of the current match still to
    drop. An empty match deletes nothing. *)
Fixpoint sub_scan (items : list Item) (prev : option ascii) (s : string)
    (skip : nat) : string :=
  match s with
  | EmptyString => EmptyString
  | String a s' =>
      match skip with
      | S n => sub_scan items (Some a) s' n
      | O =>
          match match_items items prev s with
          | Some r =>
              match String.length s - String.length r with
              | S n => sub_scan items (Some a) s' n
              | O => String a (sub_scan items (Some a) s' 0)
              end
          | None => String a (sub_scan items (Some a) s' 0)
          end
      end
  end.

Definition sub_empty (items : list Item) (s : string) : string :=
  sub_scan items None s 0.

(** [.] without re.DOTALL *)
Definition dot (c : ascii) : bool := negb (Ascii.eqb c newline).

End Re.

(* ================================================================== *)
(** * The [bs4] tree and the operations the code calls on it *)
(* ================================================================== *)

Module Bs4.

(** A parsed document: text nodes and tags. The [BeautifulSoup] object
    itself is the tag named [[document]]. *)
#[local] Unset Elimination Schemes.
Inductive Node :=
| NavigableString (s : string)
| Tag (name : string) (attrs : string) (contents : list Node).
#[local] Set Elimination Schemes.

Definition is_tag (name : string) (n : Node) : bool :=
  match n with
  | Tag nm _ _ => bool_decide (nm = name)
  | NavigableString _ => false
  end.

(** The matches among the children [cs], numbered from [i], and below
    them, in document order; [rec] finds the matches below one child. A
    match is returned with its position, the child indices from the
    node searched. *)
Fixpoint find_all_children (rec : Node -> list (list nat * Node))
    (name : string) (i : nat) (cs : list Node) : list (list nat * Node) :=
  match cs with
  | [] => []
  | c :: rest =>
      (if is_tag name c then [([i], c)] else [])
        ++ map (fun m => (i :: m.1, m.2)) (rec c)
        ++ find_all_children rec name (S i) rest
  end.

(** [n.find_all(name)]: the descendants of [n] that are tags named
    [name], in document order. *)
Fixpoint find_all (name : string) (n : Node) : list (list nat * Node) :=
  match n with
  | NavigableString _ => []
  | Tag _ _ cs => find_all_children (find_all name) name 0 cs
  end.

(** The text nodes at and below [n], in document order. *)
Fixpoint strings (n : Node) : list string :=
  match n with
  | NavigableString s => [s]
  | Tag _ _ cs => flat_map strings cs
  end.

(** [n.get_text(separator, strip=True)]: every string stripped, the
    empty ones dropped, the rest joined by [separator]. *)
Definition get_text (separator : string) (n : Node) : string :=
  join separator (filter (fun s => truthy_str s = true) (map strip (strings n))).

(** [EntitySubstitution.substitute_xml], which the printer applies to
    text: the ampersand and the angle brackets become character
    references. *)
Fixpoint substitute_xml (s : string) : string :=
  match s with
  | EmptyString => EmptyString
  | String c r =>
      (if Ascii.eqb c "&" then "&amp;"
       else if Ascii.eqb c "<" then "&lt;"
       else if Ascii.eqb c ">" then "&gt;"
       else String c "") +:+ substitute_xml r
  end.

(** [old.replace_with(new)] seen from the root [n], for the element
    [old] found at position [path]. When an ancestor of [old] has been
    replaced before, [old] is no longer below [n] (the path runs into
    the text that replaced the ancestor) and [n] does not change. *)
Fixpoint replace_in (path : list nat) (new : Node) (n : Node) : Node :=
  match path with
  | [] => new
  | i :: p =>
      match n with
      | Tag nm a cs => Tag nm a (alter (replace_in p new) i cs)
      | NavigableString _ => n
      end
  end.

(** The node at position [path] below [n]. *)
Fixpoint node_at (path : list nat) (n : Node) : option Node :=
  match path with
  | [] => Some n
  | i :: p =>
      match n with
      | Tag _ _ cs => match cs !! i with Some c => node_at p c | None => None end
      | NavigableString _ => None
      end
  end.

End Bs4.

(* ================================================================== *)
(** * The [xml.etree.ElementTree] elements *)
(* ================================================================== *)

Module ET.

#[local] Unset Elimination Schemes.
Inductive Element :=
| mkElement (tag : string) (text : option string) (children : list Element).
#[local] Set Elimination Schemes.

Definition tag (e : Element) : string := let 'mkElement t _ _ := e in t.
Definition text (e : Element) : option string := let 'mkElement _ t _ := e in t.
Definition children (e : Element) : list Element := let 'mkElement _ _ c := e in c.

(** A path [ns:name] under the prefix map [{'ns': uri}] names the tag
    [{uri}name]; with no map, [name] itself. *)
Definition qualified (ns : option string) (name : string) : string :=
  match ns with
  | Some uri => "{" +:+ uri +:+ "}" +:+ name
  | None => name
  end.

(** [e.findall(path, ns)] for a one-step path: the children so named. *)
Definition findall (ns : option string) (name : string) (e : Element) : list Element :=
  filter (fun c => tag c = qualified ns name) (children e).

(** [e.find(path, ns)]: the first of them, or [None]. *)
Definition find (ns : option string) (name : string) (e : Element) : option Element :=
  head (findall ns name e).

End ET.


(* ================================================================== *)
(** * utils.py *)
(* ================================================================== *)

Module Utils.

(** The dict [{"lastmod": ..., "priority": ...}] stored per URL, read
    with [.get]: an absent key and a [None] value both read [None]. *)
Record SitemapEntry (datetime float : Type) := mkEntry {
  entry_lastmod : option datetime;
  entry_priority : option float
}.
Arguments mkEntry {datetime float} entry_lastmod entry_priority.
Arguments entry_lastmod {datetime float} s.
Arguments entry_priority {datetime float} s.

Section Sitemap.
Context {datetime float : Type}.
Variable raise_for_status : Response -> Result unit.
(** [ET.fromstring]: raises [ParseError] on a document that is not
    well-formed XML. *)
Variable ET_fromstring : string -> Result ET.Element.
(** [dateutil.parser.parse] and [float] on a string. *)
Variable date_parser_parse : string -> Result datetime.
Variable float_of_str : string -> Result float.

(** [safe_request]: [got] is what [make_session().get(url, timeout)]
    did. Every exception is caught and turned into [None]. *)
Definition safe_request (got : Result Response) : option string :=
  match (resp ← got; _ ← raise_for_status resp; mret (Models.text resp)) with
  | Ok body => Some body
  | Raise _ => None
  end.

(** [{'ns': root.tag[root.tag.find("{")+1 : root.tag.find("}")]} if "{"
    in root.tag else {}]: [Some uri] is the one-entry map, [None] the
    empty one, which is falsy. *)
Definition namespace_of (root_tag : string) : option string :=
  if contains_char "{" root_tag
  then Some (slice root_tag (find_char "{" root_tag + 1) (find_char "}" root_tag))
  else None.

(** The [lastmod] of one entry: every exception of the parser is
    swallowed ([except Exception: pass]). *)
Definition parse_lastmod (ns : option string) (url_tag : ET.Element) : option datetime :=
  match ET.find ns "lastmod" url_tag with
  | Some lastmod_elem =>
      if truthy_opt_str (ET.text lastmod_elem) then
        match date_parser_parse (strip (default "" (ET.text lastmod_elem))) with
        | Ok d => Some d
        | Raise _ => None
        end
      else None
  | None => None
  end.

(** The [priority] of one entry: only [ValueError] is swallowed
    ([except ValueError: pass]). *)
Definition parse_priority (ns : option string) (url_tag : ET.Element)
    : Result (option float) :=
  match ET.find ns "priority" url_tag with
  | Some priority_elem =>
      if truthy_opt_str (ET.text priority_elem) then
        match float_of_str (strip (default "" (ET.text priority_elem))) with
        | Ok f => Ok (Some f)
        | Raise ValueError => Ok None
        | Raise e => Raise e
        end
      else Ok None
  | None => Ok None
  end.

(** The loop over [root.findall(...)], updating [meta]. *)
Fixpoint sitemap_loop (ns : option string) (url_tags : list ET.Element)
    (meta : gmap string (SitemapEntry datetime float))
    : Result (gmap string (SitemapEntry datetime float)) :=
  match url_tags with
  | [] => Ok meta
  | url_tag :: rest =>
      match ET.find ns "loc" url_tag with
      | None => Raise AttributeError          (* [loc_elem.text] on [None] *)
      | Some loc_elem =>
          if negb (truthy_opt_str (ET.text loc_elem)) then sitemap_loop ns rest meta
          else
            let loc := strip (default "" (ET.text loc_elem)) in
            let lastmod := parse_lastmod ns url_tag in
            priority ← parse_priority ns url_tag;
            sitemap_loop ns rest (<[loc := mkEntry lastmod priority]> meta)
      end
  end.

(** [extract_metadata_from_sitemap]; [got] is what the request for the
    sitemap did. *)
Definition extract_metadata_from_sitemap (got : Result Response)
    : Result (gmap string (SitemapEntry datetime float)) :=
  match safe_request got with
  | None => Ok ∅
  | Some text =>
      if negb (truthy_str text) then Ok ∅
      else
        root ← ET_fromstring text;
        let ns := namespace_of (ET.tag root) in
        sitemap_loop ns (ET.findall ns "url" root) ∅
  end.

(** One iteration of the loop of [merge_pages_with_sitemap], on the
    page object at address [a]. *)
Definition merge_at (meta : gmap string (SitemapEntry datetime float))
    (store : gmap nat (Page datetime float)) (a : nat)
    : gmap nat (Page datetime float) :=
  match store !! a with
  | Some p =>
      match meta !! url p with
      | Some entry =>
          <[a := set_priority (entry_priority entry) (set_lastmod (entry_lastmod entry) p)]> store
      | None => store
      end
  | None => store
  end.

(** What the loop body makes of a page whose URL is a key of [meta]. *)
Definition merged (entry : SitemapEntry datetime float) (p : Page datetime float)
    : Page datetime float :=
  set_priority (entry_priority entry) (set_lastmod (entry_lastmod entry) p).

(** [p'] is [p], or [p] with the two fields read from its entry. *)
Definition merge_result (meta : gmap string (SitemapEntry datetime float))
    (p p' : Page datetime float) : Prop :=
  p' = p \/ exists entry, meta !! url p = Some entry /\ p' = merged entry p.

(** [merge_pages_with_sitemap]: the returned list and the store after
    the call. *)
Definition merge_pages_with_sitemap (pages : list nat)
    (meta : gmap string (SitemapEntry datetime float))
    (store : gmap nat (Page datetime float))
    : list nat * gmap nat (Page datetime float) :=
  (pages, foldl (merge_at meta) store pages).

End Sitemap.

(** The pattern [^\s*\{%\s*.*?\s*%\}\s*$] of [clean_markdown_content]. *)
Definition GITBOOK_TAG_LINE : list Re.Item :=
  [ Re.Bol; Re.StarGreedy is_space; Re.Lit "{"; Re.Lit "%";
    Re.StarGreedy is_space; Re.StarLazy Re.dot; Re.StarGreedy is_space;
    Re.Lit "%"; Re.Lit "}"; Re.StarGreedy is_space; Re.Eol ].

Section Clean.
(** [BeautifulSoup(md, "html.parser")], which raises on markup the
    parser rejects, and [str(soup)]. *)
Variable BeautifulSoup : string -> Result Bs4.Node.
Variable soup_str : Bs4.Node -> string.

(** [headers] and [rows] as the loop body collects them for one
    [<table>] element: the text of every [<th>] below it, and for every
    [<tr>] below it the texts of the [<td>] cells below that row, rows
    without cells dropped. *)
Definition table_headers (table : Bs4.Node) : list string :=
  map (fun h => Bs4.get_text "" h.2) (Bs4.find_all "th" table).

Definition table_rows (table : Bs4.Node) : list (list string) :=
  filter (fun cells => cells ≠ [])
    (map (fun tr => map (fun c => Bs4.get_text " " c.2) (Bs4.find_all "td" tr.2))
         (Bs4.find_all "tr" table)).

(** The Markdown text built for one [<table>] element. *)
Definition table_md (table : Bs4.Node) : string :=
  let headers := table_headers table in
  let rows := table_rows table in
  let table_lines :=
    ["**Table:**"]
      ++ (match headers with
          | [] => []
          | _ => [join " | " headers; join " | " (replicate (length headers) "---")]
          end)
      ++ map (join " | ") rows in
  join (String Re.newline "") table_lines.

(** The text built for a table with the two header cells [h1], [h2]
    and the two rows [r1], [r2], the cell texts written by [e]. *)
Definition table_block (e : string -> string) (h1 h2 : string) (r1 r2 : list string)
    : string :=
  "**Table:**" +:+ String Re.newline ""
  +:+ (e h1 +:+ " | " +:+ e h2) +:+ String Re.newline ""
  +:+ "--- | ---" +:+ String Re.newline ""
  +:+ join " | " (map e r1) +:+ String Re.newline ""
  +:+ join " | " (map e r2).

(** The text node [table.replace_with] puts in place of the table. *)
Definition table_replacement (table : Bs4.Node) : Bs4.Node :=
  Bs4.NavigableString (String Re.newline "" +:+ table_md table +:+ String Re.newline "").

(** The loop [for table in soup.find_all("table")]. The list is built
    before the first replacement; a table is read when its turn comes,
    and by then only tables before it in document order were replaced,
    none of them below it, so it is read as it was found. *)
Definition convert_tables (soup : Bs4.Node) : Bs4.Node :=
  fold_left (fun soup m => Bs4.replace_in m.1 (table_replacement m.2) soup)
            (Bs4.find_all "table" soup) soup.

(** The same conversion by recursion on the tree: a table is replaced
    by its text, any other tag is converted below. [convert_tables] is
    proved equal to it. *)
Fixpoint converted (n : Bs4.Node) : Bs4.Node :=
  match n with
  | Bs4.NavigableString _ => n
  | Bs4.Tag nm a cs =>
      Bs4.Tag nm a
        (map (fun c => if Bs4.is_tag "table" c then table_replacement c else converted c) cs)
  end.

(** The table at position [path] below [n], when no tag on the way to
    it is itself a table. *)
Fixpoint top_table_at (path : list nat) (n : Bs4.Node) : option Bs4.Node :=
  match path, n with
  | i :: p, Bs4.Tag _ _ cs =>
      match cs !! i with
      | Some c =>
          if Bs4.is_tag "table" c
          then match p with [] => Some c | _ => None end
          else top_table_at p c
      | None => None
      end
  | _, _ => None
  end.

Definition convert_html_tables_to_markdown (md : string) : Result string :=
  soup ← BeautifulSoup md;
  Ok (soup_str (convert_tables soup)).

Definition clean_markdown_content (md : string) : Result string :=
  let md := Re.sub_empty GITBOOK_TAG_LINE md in
  md ← convert_html_tables_to_markdown md;
  Ok (strip md).

End Clean.
End Utils.

Import Utils.


(* ================================================================== *)
(** * Executable stand-ins for the third-party libraries

    Small models of what the libraries do on simple inputs. The general
    theorems below do not depend on them: they hold for every behaviour
    of the libraries. The stand-ins only serve to run the code on
    concrete inputs. *)
(* ================================================================== *)

Module StandIns.

(** [raise_for_status] of requests: [HTTPError] for a 4xx or 5xx
    status. *)
Definition raise_for_status (r : Response) : Result unit :=
  if ((400 <=? status_code r) && (status_code r <? 600))%Z
  then Raise (HTTPError (status_code r))
  else Ok ().

Definition is_digit (c : ascii) : bool :=
  let n := nat_of_ascii c in (48 <=? n) && (n <=? 57).

Fixpoint all_chars (p : ascii -> bool) (s : string) : bool :=
  match s with
  | EmptyString => true
  | String c s' => p c && all_chars p s'
  end.

(** Dates and floats are kept as their validated text: a date is a
    non-empty run of digits and dashes, a float a non-empty run of
    digits and dots. Anything else is rejected with [ValueError]. *)
Definition date_parser_parse (s : string) : Result string :=
  if truthy_str s && all_chars (fun c => is_digit c || Ascii.eqb c "-") s
  then Ok s else Raise ValueError.

Definition float_of_str (s : string) : Result string :=
  if truthy_str s && all_chars (fun c => is_digit c || Ascii.eqb c ".") s
  then Ok s else Raise ValueError.

Definition isoformat (d : string) : string := d.

(** ** Markup tokens, shared by the HTML and the XML stand-in *)

Inductive Token :=
| TText (s : string)
| TStart (name attrs : string)
| TEnd (name : string).

Definition snoc_char (s : string) (c : ascii) : string := s +:+ String c "".

Definition is_letter (c : ascii) : bool :=
  let n := nat_of_ascii c in
  ((65 <=? n) && (n <=? 90)) || ((97 <=? n) && (n <=? 122)).

(** The name of a tag (up to the first space or slash) and the rest. *)
Fixpoint split_name (s : string) : string * string :=
  match s with
  | EmptyString => ("", "")
  | String c s' =>
      if is_space c || Ascii.eqb c "/" then ("", s)
      else let '(n, r) := split_name s' in (String c n, r)
  end.

Definition tag_token (inside : string) : Token :=
  match inside with
  | String "/" rest => TEnd (strip rest)
  | _ => let '(n, r) := split_name inside in TStart n (rstrip r)
  end.

Definition text_token (acc : string) : list Token :=
  if truthy_str acc then [TText acc] else [].

(** One pass over the characters: [in_tag] tells whether the scan is
    between a [<] and its [>], [acc] holds the text or the inside of the
    tag read so far. A [<] that no letter or slash follows is text. *)
Fixpoint tokenize (s : string) (in_tag : bool) (acc : string) : list Token :=
  match s with
  | EmptyString => if in_tag then [TText ("<" +:+ acc)] else text_token acc
  | String c s' =>
      if in_tag then
        if Ascii.eqb c ">" then tag_token acc :: tokenize s' false ""
        else tokenize s' true (snoc_char acc c)
      else if Ascii.eqb c "<"
              && match s' with
                 | String d _ => is_letter d || Ascii.eqb d "/"
                 | EmptyString => false
                 end
      then text_token acc ++ tokenize s' true ""
      else tokenize s' false (snoc_char acc c)
  end.

(** The three character references the serializer produces. *)
Fixpoint unescape (s : string) : string :=
  match s with
  | EmptyString => EmptyString
  | String c r =>
      if Ascii.eqb c "&" then
        match r with
        | String "a" (String "m" (String "p" (String ";" r'))) => String "&" (unescape r')
        | String "l" (String "t" (String ";" r')) => String "<" (unescape r')
        | String "g" (String "t" (String ";" r')) => String ">" (unescape r')
        | _ => String c (unescape r)
        end
      else String c (unescape r)
  end.

Fixpoint escape (s : string) : string :=
  match s with
  | EmptyString => EmptyString
  | String c r =>
      (if Ascii.eqb c "&" then "&amp;"
       else if Ascii.eqb c "<" then "&lt;"
       else if Ascii.eqb c ">" then "&gt;"
       else String c "") +:+ escape r
  end.

(** ** HTML: a lenient tree builder and a serializer *)

(** An open tag: its name, its attributes and the children read so far,
    last first. *)
Definition Frame : Type := string * string * list Bs4.Node.

Definition frame_node (f : Frame) : Bs4.Node :=
  Bs4.Tag f.1.1 f.1.2 (rev f.2).

Definition add_child (n : Bs4.Node) (f : Frame) : Frame :=
  (f.1, n :: f.2).

Definition is_open (name : string) (f : Frame) : bool :=
  bool_decide (f.1.1 = name).

(** Closes the open tags down to the innermost one named [name]. *)
Fixpoint close_until (name : string) (top : Frame) (stack : list Frame)
    : Frame * list Frame :=
  match stack with
  | [] => (top, [])
  | parent :: rest =>
      if is_open name top then (add_child (frame_node top) parent, rest)
      else close_until name (add_child (frame_node top) parent) rest
  end.

Fixpoint close_all (top : Frame) (stack : list Frame) : Frame :=
  match stack with
  | [] => top
  | parent :: rest => close_all (add_child (frame_node top) parent) rest
  end.

(** An end tag with no matching open tag is dropped; tags left open at
    the end of input are closed there. *)
Fixpoint build (tokens : list Token) (top : Frame) (stack : list Frame) : Bs4.Node :=
  match tokens with
  | [] => frame_node (close_all top stack)
  | TText s :: rest => build rest (add_child (Bs4.NavigableString (unescape s)) top) stack
  | TStart n a :: rest => build rest (n, a, []) (top :: stack)
  | TEnd n :: rest =>
      if existsb (is_open n) (removelast (top :: stack)) then
        let '(top', stack') := close_until n top stack in build rest top' stack'
      else build rest top stack
  end.

Definition BeautifulSoup (md : string) : Bs4.Node :=
  build (tokenize md false "") ("[document]", "", []) [].

Fixpoint node_str (n : Bs4.Node) : string :=
  match n with
  | Bs4.NavigableString s => escape s
  | Bs4.Tag name attrs cs =>
      "<" +:+ name +:+ attrs +:+ ">" +:+ join "" (map node_str cs) +:+ "</" +:+ name +:+ ">"
  end.

Definition soup_str (soup : Bs4.Node) : string :=
  match soup with
  | Bs4.NavigableString s => escape s
  | Bs4.Tag _ _ cs => join "" (map node_str cs)
  end.

(** ** XML: a strict tree builder (no attributes, no namespaces) *)

Definition XFrame : Type := string * option string * list ET.Element.

Definition xframe_element (f : XFrame) : ET.Element :=
  ET.mkElement f.1.1 f.1.2 (rev f.2).

(** Text before the first child is the element's [text]; text after a
    child (its tail) is not kept. *)
Definition add_text (s : string) (f : XFrame) : XFrame :=
  match f.2, f.1.2 with
  | [], None => (f.1.1, Some s, f.2)
  | _, _ => f
  end.

Fixpoint xbuild (tokens : list Token) (stack : list XFrame) (root : option ET.Element)
    : Result ET.Element :=
  match tokens with
  | [] =>
      match stack, root with
      | [], Some e => Ok e
      | _, _ => Raise ParseError
      end
  | TText s :: rest =>
      match stack with
      | top :: below => xbuild rest (add_text (unescape s) top :: below) root
      | [] => if truthy_str (strip s) then Raise ParseError else xbuild rest [] root
      end
  | TStart n _ :: rest =>
      match stack, root with
      | [], Some _ => Raise ParseError
      | _, _ => xbuild rest ((n, None, []) :: stack) root
      end
  | TEnd n :: rest =>
      match stack with
      | top :: below =>
          if bool_decide (top.1.1 = n) then
            match below with
            | parent :: below' =>
                xbuild rest ((parent.1, xframe_element top :: parent.2) :: below') root
            | [] => xbuild rest [] (Some (xframe_element top))
            end
          else Raise ParseError
      | [] => Raise ParseError
      end
  end.

Definition ET_fromstring (text : string) : Result ET.Element :=
  xbuild (tokenize text false "") [] None.

(** ** The splitters *)

(** [s.split("\n")] *)
Fixpoint split_lines (s : string) (acc : string) : list string :=
  match s with
  | EmptyString => [acc]
  | String c s' =>
      if Ascii.eqb c Re.newline then acc :: split_lines s' ""
      else split_lines s' (snoc_char acc c)
  end.

(** The level (1 to 3) and the title of a heading line. *)
Definition heading (line : string) : option (nat * string) :=
  match line with
  | String "#" (String " " t) => Some (1, strip t)
  | String "#" (String "#" (String " " t)) => Some (2, strip t)
  | String "#" (String "#" (String "#" (String " " t))) => Some (3, strip t)
  | _ => None
  end.

Definition header_metadata {float} (stack : list (nat * string)) : gmap string (Val float) :=
  list_to_map (map (fun h => ("Header_" +:+ pretty h.1, VStr h.2)) stack).

Definition flush {float} (lines : list string) (stack : list (nat * string))
    : list (Document float) :=
  match lines with
  | [] => []
  | _ => [mkDocument (join (String Re.newline "") (rev lines)) (header_metadata stack)]
  end.

(** Heading segments: a heading line of level 1 to 3 closes the segment
    before it and opens one that starts with the heading itself; the
    metadata of a segment is the path of headings above it. *)
Fixpoint header_segments {float} (lines : list string) (current : list string)
    (stack : list (nat * string)) : list (Document float) :=
  match lines with
  | [] => flush current stack
  | line :: rest =>
      match heading line with
      | Some (k, t) =>
          flush current stack
            ++ header_segments rest [line]
                 ((k, t) :: filter (fun h => h.1 <? k) stack)
      | None => header_segments rest (line :: current) stack
      end
  end.

Definition header_split_text {float} (text : string) : list (Document float) :=
  header_segments (split_lines text "") [] [].

(** Windows of at most [size] characters, each starting [size - overlap]
    characters after the one before. *)
Fixpoint windows (fuel size step : nat) (s : string) : list string :=
  match fuel with
  | O => []
  | S fuel' =>
      if String.length s <=? size then (if truthy_str s then [s] else [])
      else String.substring 0 size s
             :: windows fuel' size step
                  (String.substring step (String.length s - step) s)
  end.

Definition recursive_split_documents {float} (chunk_size chunk_overlap : nat)
    (docs : list (Document float)) : list (Document float) :=
  flat_map (fun d =>
     map (fun t => mkDocument t (Chunker.metadata d))
         (windows (String.length (page_content d)) chunk_size
                  (Nat.max 1 (chunk_size - chunk_overlap)) (page_content d)))
    docs.

End StandIns.


(* ================================================================== *)
(** * Sample data *)
(* ================================================================== *)

Module Samples.

Definition nl : string := String Re.newline "".

(** Dates and floats are the stand-ins' validated text. *)
Definition fresh_page (name : string) : Page string string :=
  new_Page ("https://docs.example/" +:+ name)
           ("https://docs.example/" +:+ name +:+ ".md") (Some name) (Some "guide").

(** A page fetched before. *)
Definition fetched_page : Page string string :=
  {| url := "https://docs.example/intro"; md_url := "https://docs.example/intro.md";
     title := Some "Intro"; md := Some "# Intro"; lastmod := None; priority := None;
     section := Some "guide"; source := "llms.txt"; loaded := true;
     scraped_at := Some "2024-01-01" |}.

(** A page that was never fetched. *)
Definition unloaded_page : Page string string :=
  {| url := "https://docs.example/draft"; md_url := "https://docs.example/draft.md";
     title := Some "Draft"; md := None; lastmod := None; priority := None;
     section := Some "guide"; source := "llms.txt"; loaded := false;
     scraped_at := None |}.

Definition three_pages : gmap nat (Page string string) :=
  <[1 := fresh_page "a"]> (<[2 := fresh_page "b"]> (<[3 := fresh_page "c"]> ∅)).

(** The second of the requests fails, the others succeed. *)
Definition second_fails (i : nat) : Result Response :=
  match i with
  | 1 => Raise ConnectionError
  | _ => Ok (mkResponse 200 "# Title")
  end.

Definition clock (i : nat) : string := "2024-02-0" +:+ pretty (S i).

Definition two_sections : string :=
  "# A" +:+ nl +:+ "alpha beta gamma" +:+ nl +:+ "# B" +:+ nl +:+ "beta".

Definition no_heading : string := "alpha beta gamma delta".

(** A directive that spans three lines with a directive line inside. *)
Definition nested_directive : string :=
  "{% foo" +:+ nl +:+ "{% a %}" +:+ nl +:+ "%}".

Definition hint_then_text : string :=
  "{% hint %}" +:+ nl +:+ "Some text." +:+ nl.

Definition two_by_two_table : string :=
  "Intro" +:+ nl
  +:+ "<table><tr><th>Name</th><th>Type</th></tr>"
  +:+ "<tr><td>id</td><td>int</td></tr><tr><td>tag</td><td>str</td></tr></table>"
  +:+ nl +:+ "After".

Definition table_with_directive : string :=
  "<table><tr><td>{% x %}</td></tr></table>".

(** The table of [two_by_two_table] as the text of one directive. *)
Definition table_in_directive : string :=
  "{% <table><tr><th>Name</th><th>Type</th></tr>"
  +:+ "<tr><td>id</td><td>int</td></tr><tr><td>tag</td><td>str</td></tr></table> %}".

(** A header cell and a data cell of two text nodes each. *)
Definition table_with_markup_in_cells : string :=
  "<table><tr><th>First <b>Name</b></th><th>Type</th></tr>"
  +:+ "<tr><td>an <b>id</b></td><td>int</td></tr><tr><td>tag</td><td>str</td></tr></table>".

Definition sitemap_two_entries : string :=
  "<urlset>"
  +:+ "<url><loc>https://docs.example/a</loc>"
  +:+ "<lastmod>2024-01-02</lastmod><priority>0.8</priority></url>"
  +:+ "<url><loc>https://docs.example/b</loc>"
  +:+ "<lastmod>yesterday</lastmod><priority>high</priority></url>"
  +:+ "</urlset>".

Definition broken_sitemap : string := "<urlset><url></urlset>".

Definition sitemap_meta : gmap string (SitemapEntry string string) :=
  {[ "https://docs.example/a" := mkEntry (Some "2024-01-02") (Some "0.8") ]}.

End Samples.


(* ================================================================== *)
(** * Relations used to state what the pipeline leaves alone *)
(* ================================================================== *)

Module Frames.
Section Frames.
Context {datetime float : Type}.

(** The fields discovery and reconciliation set: fetching never
    assigns them. *)
Definition same_discovery_fields (p p' : Page datetime float) : Prop :=
  url p' = url p /\ md_url p' = md_url p /\ title p' = title p
  /\ section p' = section p /\ source p' = source p
  /\ lastmod p' = lastmod p /\ priority p' = priority p.

(** The fields fetching sets: reconciliation never assigns them. *)
Definition same_fetch_fields (p p' : Page datetime float) : Prop :=
  md p' = md p /\ loaded p' = loaded p /\ scraped_at p' = scraped_at p.

(** What reconciliation makes of one page: the two fields are read
    from the page's entry when its URL is a key of [meta]. *)
Definition merge_page (meta : gmap string (SitemapEntry datetime float))
    (p : Page datetime float) : Page datetime float :=
  match meta !! url p with
  | Some entry => merged entry p
  | None => p
  end.

End Frames.

(** The key under which the loop of [extract_metadata_from_sitemap]
    stores a url entry: the stripped text of its [loc] child, when the
    child is there and its text is not empty. *)
Definition entry_key (ns : option string) (url_tag : ET.Element) : option string :=
  match ET.find ns "loc" url_tag with
  | Some loc_elem =>
      if truthy_opt_str (ET.text loc_elem)
      then Some (strip (default "" (ET.text loc_elem)))
      else None
  | None => None
  end.

(** The node at position [path] below [n], when no tag on the way to
    it, nor the node itself, is a table. *)
Fixpoint outside_tables (path : list nat) (n : Bs4.Node) : option Bs4.Node :=
  match path with
  | [] => Some n
  | i :: p =>
      match n with
      | Bs4.Tag _ _ cs =>
          match cs !! i with
          | Some c => if Bs4.is_tag "table" c then None else outside_tables p c
          | None => None
          end
      | Bs4.NavigableString _ => None
      end
  end.

(** [s] neither starts nor ends with a whitespace character. *)
Definition trimmed (s : string) : Prop := lstrip s = s /\ rstrip s = s.

End Frames.

Import Frames.

(* ================================================================== *)
(** * app.py: request validation and metadata conversion *)
(* ================================================================== *)

Module App.

(** [QueryRequest.validate_question]: the validated question, or the
    message of the [ValueError] raised. [len] counts the characters of
    the string (its bytes here). *)
Definition validate_question (v : string) : string + string :=
  let v := strip v in
  if negb (truthy_str v) then inl "Question cannot be empty."
  else if String.length v <? 5 then inl "Question must be at least 5 characters long."
  else if 500 <? String.length v then inl "Question too long (max 500 characters)."
  else inr v.

(** [known_fields] of [DocumentMetadata.from_raw]. *)
Definition known_fields : gset string :=
  {[ "url"; "section"; "chunk_index"; "lastmod"; "source" ]}.

(** A value of the [base] dict: a value of the raw metadata, or the
    [datetime] a [lastmod] string was parsed to. *)
Inductive BaseVal (datetime float : Type) :=
| Raw (v : Val float)
| Parsed (d : datetime).
Arguments Raw {datetime float} v.
Arguments Parsed {datetime float} d.

Section FromRaw.
Context {datetime float : Type}.
(** [datetime.fromisoformat] *)
Variable fromisoformat : string -> Result datetime.

(** [{k: metadata.get(k) for k in known_fields if k in metadata}] *)
Definition base_of (metadata : gmap string (Val float))
    : gmap string (BaseVal datetime float) :=
  Raw <$> filter (fun kv => kv.1 ∈ known_fields) metadata.

(** The [lastmod] normalization: a string is parsed, and replaced by
    [None] when the parser raises [ValueError]; another exception of the
    parser is not caught. *)
Definition normalize_lastmod (base : gmap string (BaseVal datetime float))
    : Result (gmap string (BaseVal datetime float)) :=
  match base !! "lastmod" with
  | Some (Raw (VStr s)) =>
      match fromisoformat s with
      | Ok d => Ok (<["lastmod" := Parsed d]> base)
      | Raise ValueError => Ok (<["lastmod" := Raw VNone]> base)
      | Raise e => Raise e
      end
  | _ => Ok base
  end.

(** [{k: v for k, v in metadata.items() if k not in known_fields}] *)
Definition extra_of (metadata : gmap string (Val float)) : gmap string (Val float) :=
  filter (fun kv => kv.1 ∉ known_fields) metadata.

(** [DocumentMetadata.from_raw], up to the call of [cls]: the keyword
    arguments [base] and [extra] the model is built from. *)
Definition from_raw (metadata : gmap string (Val float))
    : Result (gmap string (BaseVal datetime float) * gmap string (Val float)) :=
  base ← normalize_lastmod (base_of metadata);
  let extra := extra_of metadata in
  Ok (base, extra).

End FromRaw.
End App.
Import App.

(* ================================================================== *)
(** * vector_store/chroma_store.py *)
(* ================================================================== *)

Module ChromaStore.

(** [range(i, stop, step)] for a positive [step]; [fuel] bounds the
    number of elements. *)
Fixpoint range_from (fuel i stop step : nat) : list nat :=
  match fuel with
  | O => []
  | S fuel' => if i <? stop then i :: range_from fuel' (i + step) stop step else []
  end.

(** [range(0, total, batch_size)]: [ValueError] for a zero step, empty
    for a negative one. *)
Definition range0 (total : nat) (batch_size : Z) : Result (list nat) :=
  if (batch_size =? 0)%Z then Raise ValueError
  else if (batch_size <? 0)%Z then Ok []
  else Ok (range_from total 0 total (Z.to_nat batch_size)).

Section Build.
Context {float : Type}.
(** The Chroma collection, [Chroma.from_documents] and
    [store.add_documents] (the store after the call, or the exception
    the embedding service or the database raised). *)
Variable Store : Type.
Variable from_documents : list (Document float) -> Result Store.
Variable add_documents : Store -> list (Document float) -> Result Store.

(** [docs[i:i + batch_size]] *)
Definition batch_at (docs : list (Document float)) (batch_size : Z) (i : nat)
    : list (Document float) :=
  take (Z.to_nat batch_size) (drop i docs).

(** The loop of [build] over the batch starts, from the store built
    so far. *)
Fixpoint build_loop (docs : list (Document float)) (batch_size : Z)
    (starts : list nat) (store : option Store) : Result (option Store) :=
  match starts with
  | [] => Ok store
  | i :: rest =>
      let batch := batch_at docs batch_size i in
      store' ← match store with
               | None => from_documents batch
               | Some st => add_documents st batch
               end;
      build_loop docs batch_size rest (Some store')
  end.

(** [ChromaStore.build] *)
Definition build (docs : list (Document float)) (batch_size : Z)
    : Result (option Store) :=
  match docs with
  | [] => Ok None
  | _ =>
      starts ← range0 (length docs) batch_size;
      build_loop docs batch_size starts None
  end.

(** The batches the loop hands to the store, in order. *)
Definition batches (docs : list (Document float)) (batch_size : Z)
    : list (list (Document float)) :=
  match range0 (length docs) batch_size with
  | Ok starts => map (batch_at docs batch_size) starts
  | Raise _ => []
  end.

End Build.
End ChromaStore.
Import ChromaStore.

(* ================================================================== *)
(** * Patterns with groups, and the string methods of discovery *)
(* ================================================================== *)

Module ReGroups.

(** The items of the link pattern: literals, [cls+] (greedy) and the
    parentheses of groups, which are not nested. *)
Inductive GItem :=
| GLit (c : ascii)
| GPlus (cls : ascii -> bool)
| GOpen
| GClose.

(** The text of the groups being read (innermost first) and of the
    groups read, in order. *)
Definition GState : Type := list string * list string.

Definition feed (a : ascii) (st : GState) : GState :=
  (map (fun acc => acc +:+ String a "") st.1, st.2).

(** The loop of [cls+] after its first character: the longest run is
    tried first, and a character is given back each time the rest of
    the pattern, [k], fails. *)
Fixpoint plus_loop (cls : ascii -> bool)
    (k : GState -> string -> option (string * list string))
    (st : GState) (s : string) : option (string * list string) :=
  match s with
  | String b s' =>
      if cls b then
        match plus_loop cls k (feed b st) s' with
        | Some r => Some r
        | None => k st s
        end
      else k st s
  | EmptyString => k st s
  end.

(** Backtracking match at a position: the text left after the match and
    the groups. *)
Fixpoint match_groups (items : list GItem) (st : GState) (s : string)
    : option (string * list string) :=
  match items with
  | [] => Some (s, st.2)
  | GLit c :: k =>
      match s with
      | String a s' => if Ascii.eqb a c then match_groups k (feed a st) s' else None
      | EmptyString => None
      end
  | GOpen :: k => match_groups k ("" :: st.1, st.2) s
  | GClose :: k =>
      match st.1 with
      | acc :: opened => match_groups k (opened, st.2 ++ [acc]) s
      | [] => None
      end
  | GPlus cls :: k =>
      match s with
      | String a s' => if cls a then plus_loop cls (match_groups k) (feed a st) s' else None
      | EmptyString => None
      end
  end.

(** [pattern.findall(s)]: the groups of the matches, found from left to
    right, a match starting where the one before it ended; [skip] counts
    the characters of the current match still to pass. *)
Fixpoint findall_scan (items : list GItem) (s : string) (skip : nat)
    : list (list string) :=
  match s with
  | EmptyString => []
  | String _ s' =>
      match skip with
      | S n => findall_scan items s' n
      | O =>
          match match_groups items ([], []) s with
          | Some (r, groups) =>
              groups :: findall_scan items s' (String.length s - String.length r - 1)
          | None => findall_scan items s' 0
          end
      end
  end.

Definition findall (items : list GItem) (s : string) : list (list string) :=
  findall_scan items s 0.

End ReGroups.

Module PyStr.

(** [s.startswith(p)] *)
Fixpoint startswith (p s : string) : bool :=
  match p, s with
  | EmptyString, _ => true
  | String a p', String b s' => Ascii.eqb a b && startswith p' s'
  | String _ _, EmptyString => false
  end.

(** [s.replace(old, new)] for a non-empty [old]: the occurrences are
    found from left to right and do not overlap; [skip] counts the
    characters of the current occurrence still to pass. *)
Fixpoint replace_scan (old new s : string) (skip : nat) : string :=
  match s with
  | EmptyString => EmptyString
  | String c s' =>
      match skip with
      | S n => replace_scan old new s' n
      | O =>
          if startswith old s
          then new +:+ replace_scan old new s' (String.length old - 1)
          else String c (replace_scan old new s' 0)
      end
  end.

Definition replace (old new s : string) : string := replace_scan old new s 0.

(** [s.lstrip(c)], [s.rstrip(c)] and [s.strip(c)] for one character. *)
Fixpoint lstrip_char (c : ascii) (s : string) : string :=
  match s with
  | EmptyString => EmptyString
  | String a s' => if Ascii.eqb a c then lstrip_char c s' else s
  end.

Fixpoint rstrip_char (c : ascii) (s : string) : string :=
  match s with
  | EmptyString => EmptyString
  | String a s' =>
      match rstrip_char c s' with
      | EmptyString => if Ascii.eqb a c then EmptyString else String a EmptyString
      | r => String a r
      end
  end.

Definition strip_char (c : ascii) (s : string) : string :=
  rstrip_char c (lstrip_char c s).

(** [s.split(c)[0]]: the text before the first [c]. *)
Fixpoint split_first (c : ascii) (s : string) : string :=
  match s with
  | EmptyString => EmptyString
  | String a s' => if Ascii.eqb a c then EmptyString else String a (split_first c s')
  end.

End PyStr.

(* ================================================================== *)
(** * utils.py: discovery of the pages from the manifest *)
(* ================================================================== *)

Module Discovery.

Definition not_char (c a : ascii) : bool := negb (Ascii.eqb a c).

(** The pattern of [extract_pages_from_llms], a manifest link:
    a dash, a space, the title in brackets (one or more characters other
    than a closing bracket) and, in parentheses, a path that starts with
    a slash and ends in [.md], with one or more characters other than a
    closing parenthesis between them. *)
Definition LLMS_LINK : list ReGroups.GItem :=
  [ReGroups.GLit "-"; ReGroups.GLit " "; ReGroups.GLit "[";
   ReGroups.GOpen; ReGroups.GPlus (not_char "]"); ReGroups.GClose;
   ReGroups.GLit "]"; ReGroups.GLit "(";
   ReGroups.GOpen; ReGroups.GLit "/"; ReGroups.GPlus (not_char ")");
   ReGroups.GLit "."; ReGroups.GLit "m"; ReGroups.GLit "d"; ReGroups.GClose;
   ReGroups.GLit ")"]%char.

(** The text of one manifest link. *)
Definition link_text (title md_path : string) : string :=
  "- [" +:+ title +:+ "](" +:+ md_path +:+ ")".

(** A well-formed link: the title is not empty and has no closing
    bracket; the path is a slash, one or more characters other than a
    closing parenthesis, and [.md]. *)
Definition well_formed_link (title md_path : string) : Prop :=
  title <> "" /\ contains_char "]" title = false
  /\ exists mid, md_path = "/" +:+ mid +:+ ".md"
       /\ mid <> "" /\ contains_char ")" mid = false.

(** The lines of a manifest: a title, a path and the text that follows
    the link up to the next one (a description, the line break, a
    heading). *)
Record Line := mkLine { line_title : string; line_path : string; line_rest : string }.

Fixpoint manifest_text (lines : list Line) : string :=
  match lines with
  | [] => ""
  | l :: rest =>
      link_text (line_title l) (line_path l) +:+ line_rest l +:+ manifest_text rest
  end.

Definition well_formed_line (l : Line) : Prop :=
  well_formed_link (line_title l) (line_path l)
  /\ contains_char "[" (line_rest l) = false.

Section Discovery.
Context {datetime float : Type}.
Variable raise_for_status : Response -> Result unit.
(** [urllib.parse.urljoin] and [urlparse(u).path]. *)
Variable urljoin : string -> string -> string.
Variable urlparse_path : string -> string.
(** The validation of an [HttpUrl] field by the model: the string the
    field then prints as, or the exception raised for a string that is
    not an http(s) URL. *)
Variable HttpUrl : string -> Result string.

(** [md_path.replace(".md", "")] joined to the base. *)
Definition web_url_of (base_url md_path : string) : string :=
  urljoin base_url (PyStr.replace ".md" "" md_path).

(** [urlparse(web_url).path.strip("/").split("/")[0]] *)
Definition section_of (web_url : string) : string :=
  PyStr.split_first "/" (PyStr.strip_char "/" (urlparse_path web_url)).

(** [Page(url=web_url, md_url=md_url, title=title, section=section)]:
    the two URL fields are validated, the other fields take their
    defaults. *)
Definition make_Page (web_url md_url title section : string)
    : Result (Page datetime float) :=
  match HttpUrl web_url, HttpUrl md_url with
  | Ok u, Ok m => Ok (new_Page u m (Some title) (Some section))
  | Raise e, _ => Raise e
  | Ok _, Raise e => Raise e
  end.

(** The body of the loop over the matches; a match is the tuple of the
    pattern's two groups, and unpacking a tuple of another length raises
    [ValueError]. *)
Definition page_of_match (base_url : string) (m : list string)
    : Result (Page datetime float) :=
  match m with
  | [title; md_path] =>
      let web_url := web_url_of base_url md_path in
      let md_url := urljoin base_url md_path in
      let section := section_of web_url in
      make_Page web_url md_url title section
  | _ => Raise ValueError
  end.

Fixpoint pages_loop (base_url : string) (matches : list (list string))
    : Result (list (Page datetime float)) :=
  match matches with
  | [] => Ok []
  | m :: rest =>
      page ← page_of_match base_url m;
      pages ← pages_loop base_url rest;
      Ok (page :: pages)
  end.

(** [extract_pages_from_llms]; [got] is what the request for the
    manifest did. The pages are the values of the objects created, in
    the order of the list returned. *)
Definition extract_pages_from_llms (got : Result Response) (base_url : string)
    : Result (list (Page datetime float)) :=
  match safe_request raise_for_status got with
  | None => Ok []
  | Some text =>
      if negb (truthy_str text) then Ok []
      else pages_loop base_url (ReGroups.findall LLMS_LINK text)
  end.

End Discovery.
End Discovery.

(* ================================================================== *)
(** * crawler.py *)
(* ================================================================== *)

Module Crawler.
Section DocCrawler.
Context {datetime float : Type}.
Variable raise_for_status : Response -> Result unit.
Variable ET_fromstring : string -> Result ET.Element.
Variable date_parser_parse : string -> Result datetime.
Variable float_of_str : string -> Result float.
Variable urljoin : string -> string -> string.
Variable urlparse_path : string -> string.
Variable HttpUrl : string -> Result string.

(** [p.section in include_sections] *)
Definition in_sections (include_sections : list string) (p : Page datetime float)
    : bool :=
  match section p with
  | Some s => bool_decide (s ∈ include_sections)
  | None => false
  end.

(** [[p for p in pages if p.section in include_sections]] on a list of
    page objects. *)
Definition keep_sections (include_sections : list string)
    (store : gmap nat (Page datetime float)) (pages : list nat) : list nat :=
  filter (fun a => (in_sections include_sections <$> store !! a) = Some true) pages.

(** [DocCrawler.crawl]: the returned list and the store of the page
    objects the call created. [got_llms] and [got_sitemap] are what the
    requests for [urljoin(base_url, llms_path)] and
    [urljoin(base_url, sitemap_path)] did; the manifest is read first. *)
Definition crawl (base_url : string) (got_llms got_sitemap : Result Response)
    (include_sections : option (list string))
    : Result (list nat * gmap nat (Page datetime float)) :=
  llms_pages ← Discovery.extract_pages_from_llms raise_for_status urljoin
                  urlparse_path HttpUrl got_llms base_url;
  sitemap_meta ← extract_metadata_from_sitemap raise_for_status ET_fromstring
                    date_parser_parse float_of_str got_sitemap;
  let '(pages, store) :=
    merge_pages_with_sitemap (seq 0 (length llms_pages)) sitemap_meta
      (map_seq 0 llms_pages) in
  let pages :=
    match include_sections with
    | Some (s :: secs) => keep_sections (s :: secs) store pages
    | _ => pages
    end in
  Ok (pages, store).

End DocCrawler.
End Crawler.

(* ================================================================== *)
(** * populate_store.py *)
(* ================================================================== *)

Module PopulateStore.

(** The sections [bootstrap_chroma] asks the crawler for. *)
Definition SECTIONS : list string := ["proxies"; "advanced-proxy-solutions"].

(** What a call of [bootstrap_chroma] did: it found an index, or went
    through the pipeline and got [store] from [ChromaStore.build]. *)
Inductive Outcome (Store : Type) :=
| Skipped
| Built (store : option Store).
Arguments Skipped {Store}.
Arguments Built {Store} store.

Section Bootstrap.
Context {datetime float : Type}.
Variable isoformat : datetime -> string.
Variable raise_for_status : Response -> Result unit.
Variable ET_fromstring : string -> Result ET.Element.
Variable date_parser_parse : string -> Result datetime.
Variable float_of_str : string -> Result float.
Variable urljoin : string -> string -> string.
Variable urlparse_path : string -> string.
Variable HttpUrl : string -> Result string.
Variable BeautifulSoup : string -> Result Bs4.Node.
Variable soup_str : Bs4.Node -> string.
Variable header_split_text : string -> list (Document float).
Variable recursive_split_documents : list (Document float) -> list (Document float).
Variable Store : Type.
Variable from_documents : list (Document float) -> Result Store.
Variable add_documents : Store -> list (Document float) -> Result Store.
(** The constructor of [ChromaStore], which creates the directory and
    the embedding client. *)
Variable new_ChromaStore : Result unit.

(** [[p for p in scraped_pages if p.loaded]] *)
Definition keep_loaded (store : gmap nat (Page datetime float)) (pages : list nat)
    : list nat :=
  filter (fun a => (loaded <$> store !! a) = Some true) pages.

(** The pipeline up to the chunks handed to [ChromaStore.build]:
    crawl, scrape with [clean_markdown_content], keep the loaded pages,
    chunk them. [session_get] and [clock] are as in [DocScraper]. *)
Definition bootstrap_chunks (base_url : string)
    (got_llms got_sitemap : Result Response)
    (session_get : nat -> Result Response) (clock : nat -> datetime)
    : Result (list (Document float)) :=
  '(pages, store) ← Crawler.crawl raise_for_status ET_fromstring date_parser_parse
                       float_of_str urljoin urlparse_path HttpUrl base_url
                       got_llms got_sitemap (Some SECTIONS);
  let clean_fn := Some (clean_markdown_content BeautifulSoup soup_str) in
  let '(scraped_pages, store, _) :=
    scrape raise_for_status clean_fn session_get clock pages None store in
  let loaded := keep_loaded store scraped_pages in
  let '(chunks, _) :=
    chunk_pages isoformat header_split_text recursive_split_documents
      (omap (fun a => store !! a) loaded) None in
  Ok chunks.

(** [bootstrap_chroma]; [index_found] is
    [os.path.exists(persist_dir) and any(os.scandir(persist_dir))]. *)
Definition bootstrap_chroma (index_found : bool) (base_url : string)
    (got_llms got_sitemap : Result Response)
    (session_get : nat -> Result Response) (clock : nat -> datetime)
    : Result (Outcome Store) :=
  if index_found then Ok Skipped
  else
    chunks ← bootstrap_chunks base_url got_llms got_sitemap session_get clock;
    _ ← new_ChromaStore;
    store ← ChromaStore.build Store from_documents add_documents chunks 100;
    Ok (Built store).

End Bootstrap.
End PopulateStore.

(* ================================================================== *)
(** * Stand-ins and sample data for discovery and the vector store *)
(* ================================================================== *)

Module SiteStandIns.

(** [urljoin] for a base made of scheme and host and an absolute path. *)
Definition urljoin (base path : string) : string := base +:+ path.

(** The text after the first double slash. *)
Fixpoint after_slashes (s : string) : string :=
  match s with
  | EmptyString => EmptyString
  | String a r =>
      match r with
      | String b r' => if Ascii.eqb a "/" && Ascii.eqb b "/" then r' else after_slashes r
      | EmptyString => EmptyString
      end
  end.

(** The text from the first slash on. *)
Fixpoint path_from (s : string) : string :=
  match s with
  | EmptyString => EmptyString
  | String c r => if Ascii.eqb c "/" then s else path_from r
  end.

(** [urlparse(u).path] for a URL of scheme, host and path. *)
Definition urlparse_path (u : string) : string := path_from (after_slashes u).

(** The URL validation: an http or https URL is kept as it is. *)
Definition HttpUrl (u : string) : Result string :=
  if PyStr.startswith "http://" u || PyStr.startswith "https://" u
  then Ok u else Raise (Exception "ValidationError").

(** A collection is the list of the documents it holds. *)
Definition from_documents {float} (batch : list (Document float))
    : Result (list (Document float)) := Ok batch.

Definition add_documents {float} (st batch : list (Document float))
    : Result (list (Document float)) := Ok (st ++ batch).

End SiteStandIns.

Module SiteSamples.
Import Samples.

Definition base_url : string := "https://docs.example".

(** A manifest of three links under a heading. *)
Definition llms_lines : list Discovery.Line :=
  [Discovery.mkLine "Intro" "/proxies/intro.md" (": start here" +:+ nl);
   Discovery.mkLine "Plans" "/billing/plans.md" nl;
   Discovery.mkLine "ISP" "/proxies/isp.md" nl].

Definition llms_txt : string :=
  ("# Docs" +:+ nl +:+ nl) +:+ Discovery.manifest_text llms_lines.

(** The pages of the manifest, as discovery makes them. *)
Definition discovered_pages : list (Page string string) :=
  [new_Page "https://docs.example/proxies/intro"
     "https://docs.example/proxies/intro.md" (Some "Intro") (Some "proxies");
   new_Page "https://docs.example/billing/plans"
     "https://docs.example/billing/plans.md" (Some "Plans") (Some "billing");
   new_Page "https://docs.example/proxies/isp"
     "https://docs.example/proxies/isp.md" (Some "ISP") (Some "proxies")].

(** A sitemap that covers the first page. *)
Definition site_sitemap : string :=
  "<urlset>"
  +:+ "<url><loc>https://docs.example/proxies/intro</loc>"
  +:+ "<lastmod>2024-01-02</lastmod></url>"
  +:+ "</urlset>".

Definition site_meta : gmap string (SitemapEntry string string) :=
  {[ "https://docs.example/proxies/intro" := mkEntry (Some "2024-01-02") None ]}.

(** A sitemap entry without a [loc]. *)
Definition sitemap_without_loc : string :=
  "<urlset><url><lastmod>2024-01-02</lastmod></url></urlset>".

(** The first page request succeeds, the others time out. *)
Definition first_succeeds (i : nat) : Result Response :=
  match i with
  | 0 => Ok (mkResponse 200 ("# Intro" +:+ nl +:+ "alpha beta"))
  | _ => Raise Timeout
  end.

Definition all_time_out (i : nat) : Result Response := Raise Timeout.

(** Metadata as a vector store returns it. *)
Definition raw_metadata : gmap string (Val string) :=
  <["url" := VStr "https://docs.example/a"]>
  (<["lastmod" := VStr "2024-01-02"]>
  (<["title" := VStr "A"]> ∅)).

Definition doc (s : string) : Document string := mkDocument s ∅.

Definition five_docs : list (Document string) :=
  [doc "a"; doc "b"; doc "c"; doc "d"; doc "e"].

End SiteSamples.


(* ================================================================== *)
(** * Properties of [Page.load] *)
(* ================================================================== *)

Section LoadFacts.
Context {datetime float : Type}.
Variable raise_for_status : Response -> Result unit.
Implicit Types (self : Page datetime float) (got : Result Response)
  (clean_fn : option (string -> Result string)) (now : datetime).

Lemma load_raised self got clean_fn now e :
  fetch_content raise_for_status got clean_fn = Raise e ->
  (load raise_for_status self got clean_fn now).1 = (set_loaded false self, false).
Proof. intros H. unfold load. rewrite H. reflexivity. Qed.

Lemma load_ok self got clean_fn now content :
  fetch_content raise_for_status got clean_fn = Ok content ->
  (load raise_for_status self got clean_fn now).1
  = (set_scraped_at (Some now) (set_loaded true (set_md (Some content) self)), true).
Proof. intros H. unfold load. rewrite H. reflexivity. Qed.

Lemma load_loaded_raised self got clean_fn now :
  loaded (load raise_for_status self got clean_fn now).1.1
  = negb (raised (fetch_content raise_for_status got clean_fn)).
Proof. unfold load. destruct (fetch_content _ _ _); reflexivity. Qed.

Lemma load_url self got clean_fn now :
  url (load raise_for_status self got clean_fn now).1.1 = url self.
Proof. unfold load. destruct (fetch_content _ _ _); reflexivity. Qed.

(** C10. When [Page.load] fails (the [try] block raises, whatever the
    exception), it returns [False] and the page after the call is the
    page before it with [loaded] set to [False]: every other field, in
    particular [md] and [scraped_at], keeps the value it had. *)
Theorem load_failure_changes_only_loaded self got clean_fn now e :
  fetch_content raise_for_status got clean_fn = Raise e ->
  let r := load raise_for_status self got clean_fn now in
  r.1.2 = false
  /\ r.1.1 = set_loaded false self
  /\ loaded r.1.1 = false
  /\ md r.1.1 = md self
  /\ scraped_at r.1.1 = scraped_at self
  /\ url r.1.1 = url self /\ md_url r.1.1 = md_url self
  /\ title r.1.1 = title self /\ section r.1.1 = section self
  /\ source r.1.1 = source self
  /\ lastmod r.1.1 = lastmod self /\ priority r.1.1 = priority self.
Proof.
  intros H r. subst r. rewrite (surjective_pairing (load _ _ _ _ _).1).
  pose proof (load_raised self got clean_fn now e H) as E.
  rewrite E. simpl. repeat split; reflexivity.
Qed.

(** C2, as the code has it. After [Page.load], [loaded = True] implies
    that [md] is present (it is the fetched, cleaned body, which may be
    the empty string) and that [scraped_at] is the time of the call;
    [loaded = False] implies that [md] and [scraped_at] are what they
    were before the call, so [md] is absent when it was absent before. *)
Theorem load_postcondition self got clean_fn now :
  let self' := (load raise_for_status self got clean_fn now).1.1 in
  (loaded self' = true ->
     (exists content, fetch_content raise_for_status got clean_fn = Ok content
                      /\ md self' = Some content)
     /\ scraped_at self' = Some now)
  /\ (loaded self' = false ->
        md self' = md self /\ scraped_at self' = scraped_at self
        /\ (md self = None -> md self' = None)).
Proof.
  unfold load. destruct (fetch_content _ _ _) as [content|e]; simpl; split.
  - intros _. split; [exists content; split|]; reflexivity.
  - discriminate.
  - discriminate.
  - intros _. repeat split. auto.
Qed.

End LoadFacts.


(* ================================================================== *)
(** * Properties of [DocScraper.scrape] *)
(* ================================================================== *)

Section ScrapeFacts.
Context {datetime float : Type}.
Variable raise_for_status : Response -> Result unit.
Variable clean_fn : option (string -> Result string).
Variable session_get : nat -> Result Response.
Variable clock : nat -> datetime.
Implicit Types (store : gmap nat (Page datetime float)) (pages : list nat).

Local Abbreviation load_at := (load_at raise_for_status clean_fn session_get clock).
Local Abbreviation scrape_loop := (scrape_loop raise_for_status clean_fn session_get clock).
Local Abbreviation scrape := (scrape raise_for_status clean_fn session_get clock).
Local Abbreviation fetched i := (fetch_content raise_for_status (session_get i) clean_fn).
Local Abbreviation loaded_page p i :=
  (load raise_for_status p (session_get i) clean_fn (clock i)).1.1.

Lemma load_at_lookup store a i p :
  store !! a = Some p -> (load_at store a i).1 !! a = Some (loaded_page p i).
Proof.
  intros H. unfold Scrapper.load_at. rewrite H.
  destruct (load _ _ _ _ _) as [[p' b] l]. simpl. apply lookup_insert_eq.
Qed.

Lemma load_at_lookup_ne store a b i :
  a <> b -> (load_at store a i).1 !! b = store !! b.
Proof.
  intros H. unfold Scrapper.load_at. destruct (store !! a) as [p|]; [|reflexivity].
  destruct (load _ _ _ _ _) as [[p' r] l]. simpl. by apply lookup_insert_ne.
Qed.

Lemma limit_and_ge_mono limit i j :
  i <= j -> limit_and_ge limit j = false -> limit_and_ge limit i = false.
Proof.
  destruct limit as [n|]; [|reflexivity]. unfold limit_and_ge.
  intros Hij. rewrite !andb_false_iff, !Z.leb_gt. intros [H|H]; [by left|right; lia].
Qed.

Lemma scrape_loop_cons limit i a pages store :
  limit_and_ge limit i = false ->
  (scrape_loop limit i (a :: pages) store).1
  = (scrape_loop limit (S i) pages (load_at store a i).1).1.
Proof.
  intros H. simpl. rewrite H. destruct (load_at store a i) as [s1 l1]. simpl.
  destruct (scrape_loop limit (S i) pages s1) as [s2 l2]. reflexivity.
Qed.

Lemma scrape_loop_lookup_notin limit i pages store a :
  a ∉ pages -> (scrape_loop limit i pages store).1 !! a = store !! a.
Proof.
  revert i store. induction pages as [|b pages IH]; intros i store Hnotin; [reflexivity|].
  apply not_elem_of_cons in Hnotin as [Hne Hnotin].
  destruct (limit_and_ge limit i) eqn:Hl.
  - simpl. rewrite Hl. reflexivity.
  - rewrite scrape_loop_cons by done. rewrite IH by done. by apply load_at_lookup_ne.
Qed.

(** Each page within the limit is loaded with the outcome of its own
    request, whatever happened to the pages before and after it. *)
Lemma scrape_loop_lookup limit i pages store k a p :
  NoDup pages -> pages !! k = Some a -> store !! a = Some p ->
  limit_and_ge limit (i + k) = false ->
  (scrape_loop limit i pages store).1 !! a = Some (loaded_page p (i + k)).
Proof.
  revert i store k. induction pages as [|b pages IH]; intros i store k Hnd Hk Hp Hl; [done|].
  apply NoDup_cons in Hnd as [Hb Hnd].
  rewrite scrape_loop_cons by (apply (limit_and_ge_mono limit i (i + k)); [lia|done]).
  destruct k as [|k]; simpl in Hk.
  - injection Hk as ->. rewrite scrape_loop_lookup_notin by done.
    rewrite Nat.add_0_r. by apply load_at_lookup.
  - replace (i + S k) with (S i + k) in * by lia.
    apply IH; try done.
    rewrite load_at_lookup_ne; [done|]. intros ->. apply Hb.
    by eapply list_elem_of_lookup_2.
Qed.

Lemma load_at_is_Some store a b i :
  is_Some (store !! b) -> is_Some ((load_at store a i).1 !! b).
Proof.
  intros [p Hp]. destruct (decide (a = b)) as [->|Hne].
  - erewrite load_at_lookup by done. eauto.
  - rewrite load_at_lookup_ne by done. eauto.
Qed.

(** With no limit, the pages left with [loaded = False] are as many as
    the requests that failed. *)
Lemma scrape_loop_count_unloaded i pages store :
  NoDup pages -> (forall a, a ∈ pages -> is_Some (store !! a)) ->
  length (filter (fun a => (loaded <$> (scrape_loop None i pages store).1 !! a) = Some false) pages)
  = length (filter (fun j => raised (fetched j) = true) (seq i (length pages))).
Proof.
  revert i store. induction pages as [|a pages IH]; intros i store Hnd Hin; [reflexivity|].
  apply NoDup_cons in Hnd as [Ha Hnd].
  destruct (Hin a) as [p Hp]; [by left|].
  assert (Hfin : forall b, (scrape_loop None i (a :: pages) store).1 !! b
                 = (scrape_loop None (S i) pages (load_at store a i).1).1 !! b).
  { intros b. by rewrite scrape_loop_cons. }
  assert (Ha' : (scrape_loop None i (a :: pages) store).1 !! a = Some (loaded_page p i)).
  { rewrite Hfin, scrape_loop_lookup_notin by done. by apply load_at_lookup. }
  cbn [length seq]. rewrite !filter_cons.
  assert (Htail :
    length (filter (fun b => (loaded <$> (scrape_loop None i (a :: pages) store).1 !! b) = Some false) pages)
    = length (filter (fun j => raised (fetched j) = true) (seq (S i) (length pages)))).
  { rewrite <- IH with (store := (load_at store a i).1); [|done|].
    - f_equal. apply list_filter_iff. intros b. by rewrite Hfin.
    - intros b Hb. apply load_at_is_Some, Hin. by right. }
  pose proof (load_loaded_raised raise_for_status p (session_get i) clean_fn (clock i)) as Hld.
  destruct (decide _) as [Hd|Hd]; destruct (decide _) as [Hr|Hr]; cbn [length];
    rewrite ?Htail; try reflexivity; exfalso.
  - rewrite Ha' in Hd. simpl in Hd. injection Hd as Hd. rewrite Hd in Hld.
    destruct (raised _); [by apply Hr|discriminate].
  - apply Hd. rewrite Ha'. simpl. rewrite Hld, Hr. reflexivity.
Qed.


End ScrapeFacts.


(* ================================================================== *)
(** * Properties of [MarkdownChunker] *)
(* ================================================================== *)

Section ChunkerFacts.
Context {datetime float : Type}.
Variable isoformat : datetime -> string.
Variable header_split_text : string -> list (Document float).
Variable recursive_split_documents : list (Document float) -> list (Document float).
Implicit Types (metadata : option (gmap string (Val float)))
  (docs : list (Document float)) (pages : list (Page datetime float)).

Local Abbreviation chunk := (chunk header_split_text recursive_split_documents).
Local Abbreviation chunk_loop := (chunk_loop recursive_split_documents).
Local Abbreviation chunk_pages_loop :=
  (chunk_pages_loop isoformat header_split_text recursive_split_documents).
Local Abbreviation chunk_pages :=
  (chunk_pages isoformat header_split_text recursive_split_documents).

Lemma chunk_indices_app docs1 docs2 :
  chunk_indices (docs1 ++ docs2) = chunk_indices docs1 ++ chunk_indices docs2.
Proof. apply map_app. Qed.

Lemma chunk_indices_imap (f : nat -> Document float -> Document float) docs k :
  (forall i d, Chunker.metadata (f i d) !! "chunk_index" = Some (VInt (Z.of_nat (k + i)))) ->
  chunk_indices (imap f docs)
  = map (fun i => Some (VInt (Z.of_nat i))) (seq k (length docs)).
Proof.
  revert f k. induction docs as [|d docs IH]; intros f k Hf; [reflexivity|].
  cbn [imap length seq map chunk_indices]. f_equal.
  - rewrite Hf. by rewrite Nat.add_0_r.
  - apply (IH (f ∘ S) (S k)). intros i d'. unfold compose. rewrite Hf.
    by replace (k + S i) with (S k + i) by lia.
Qed.

(** Within one heading segment the indices run from 0. *)
Lemma chunk_indices_index_sub_chunks metadata sub_chunks :
  chunk_indices (index_sub_chunks metadata sub_chunks) = index_range (length sub_chunks).
Proof.
  unfold index_sub_chunks, index_range. apply chunk_indices_imap.
  intros i d. simpl. apply lookup_insert_eq.
Qed.

Lemma chunk_indices_chunk_loop metadata header_docs :
  chunk_indices (chunk_loop metadata header_docs)
  = flat_map (fun doc => index_range (length (recursive_split_documents [doc]))) header_docs.
Proof.
  induction header_docs as [|doc rest IH]; [reflexivity|].
  cbn [Chunker.chunk_loop flat_map].
  by rewrite chunk_indices_app, chunk_indices_index_sub_chunks, IH.
Qed.

Lemma chunk_nonempty text metadata :
  text <> "" ->
  (chunk text metadata).1 = chunk_loop metadata (header_split_text text).
Proof. intros H. unfold Chunker.chunk. destruct text; [done|reflexivity]. Qed.

Lemma index_range_length n : length (index_range (float := float) n) = n.
Proof. unfold index_range. by rewrite length_map, length_seq. Qed.

Lemma index_range_lookup n k :
  k < n -> index_range (float := float) n !! k = Some (Some (VInt (Z.of_nat k))).
Proof.
  intros H. unfold index_range. rewrite list_lookup_fmap, lookup_seq_lt by done.
  reflexivity.
Qed.

(** The indices of a run of segments: each segment counts from 0. *)
Local Abbreviation segment_indices header_docs :=
  (flat_map (fun doc => index_range (float := float)
                          (length (recursive_split_documents [doc]))) header_docs).

Lemma segment_indices_head header_docs :
  segment_indices header_docs = []
  \/ segment_indices header_docs !! 0 = Some (Some (VInt 0)).
Proof.
  induction header_docs as [|doc rest IH]; [by left|]. cbn [flat_map].
  destruct (recursive_split_documents [doc]) as [|w ws]; [exact IH|]. by right.
Qed.

Lemma segment_indices_nil header_docs :
  segment_indices header_docs = []
  <-> filter (fun doc => recursive_split_documents [doc] <> []) header_docs = [].
Proof.
  induction header_docs as [|doc rest IH]; [done|]. cbn [flat_map]. rewrite filter_cons.
  destruct (recursive_split_documents [doc]) as [|w ws] eqn:E.
  - rewrite decide_False by (by intros ?). exact IH.
  - rewrite decide_True by done. split; [|done]. intros [H _]%app_eq_nil. done.
Qed.

(** The indices of the segments are [0..n-1] exactly when at most one
    segment has a window. *)
Lemma segment_indices_contiguous header_docs :
  segment_indices header_docs = index_range (length (segment_indices header_docs))
  <-> length (filter (fun doc => recursive_split_documents [doc] <> []) header_docs) <= 1.
Proof.
  induction header_docs as [|doc rest IH]; [by split; [cbn; lia|]|].
  cbn [flat_map]. rewrite filter_cons.
  destruct (recursive_split_documents [doc]) as [|w ws] eqn:E.
  - rewrite decide_False by (by intros ?). exact IH.
  - rewrite decide_True by done. cbn [length].
    set (k := S (length ws)). rewrite length_app, index_range_length.
    assert (length (filter (fun doc => recursive_split_documents [doc] <> []) rest) = 0
            <-> segment_indices rest = []) as Hz.
    { rewrite segment_indices_nil. split; [apply nil_length_inv|by intros ->]. }
    split.
    + intros Heq. enough (segment_indices rest = []) as H by (apply Hz in H; lia).
      destruct (segment_indices_head rest) as [H|H]; [done|]. exfalso.
      assert (0 < length (segment_indices rest)) as Hlen
        by (by apply lookup_lt_Some in H).
      assert ((index_range k ++ segment_indices rest) !! k = Some (Some (VInt 0))) as H1.
      { rewrite lookup_app_r by (rewrite index_range_length; lia).
        by rewrite index_range_length, Nat.sub_diag. }
      rewrite Heq, index_range_lookup in H1 by lia. injection H1. subst k. lia.
    + intros Hle. assert (segment_indices rest = []) as -> by (apply Hz; lia).
      cbn [length]. by rewrite app_nil_r, Nat.add_0_r.
Qed.

(** C1, as the code has it. For a non-empty document the [chunk_index]
    values restart at 0 in every heading segment: the indices of the
    returned chunks are, segment after segment, [0..k-1] for the [k]
    windows of that segment. They are [0..n-1] over the whole page
    exactly when at most one heading segment has a window, which is the
    case when the document has a single heading segment. *)
Theorem chunk_index_restarts_per_segment text metadata :
  text <> "" ->
  chunk_indices (chunk text metadata).1
  = flat_map (fun doc => index_range (length (recursive_split_documents [doc])))
             (header_split_text text)
  /\ (chunk_indices (chunk text metadata).1
      = index_range (length (chunk text metadata).1)
      <-> length (windowed_segments header_split_text recursive_split_documents text) <= 1)
  /\ (forall doc, header_split_text text = [doc] ->
        chunk_indices (chunk text metadata).1
        = index_range (length (chunk text metadata).1)).
Proof.
  intros H. rewrite chunk_nonempty by done.
  pose proof (chunk_indices_chunk_loop metadata (header_split_text text)) as Hi.
  assert (length (chunk_loop metadata (header_split_text text))
          = length (segment_indices (header_split_text text))) as Hlen.
  { rewrite <- Hi. unfold chunk_indices. by rewrite length_map. }
  assert (chunk_indices (chunk_loop metadata (header_split_text text))
          = index_range (length (chunk_loop metadata (header_split_text text)))
          <-> length (windowed_segments header_split_text recursive_split_documents text) <= 1)
    as Hiff.
  { rewrite Hlen, Hi. apply segment_indices_contiguous. }
  split; [exact Hi|]. split; [exact Hiff|].
  intros doc Hd. apply Hiff. unfold windowed_segments. rewrite Hd, filter_cons.
  case_decide; cbn; lia.
Qed.

(** The chunks a page contributes: none when [md] is absent or empty. *)
Lemma chunk_pages_loop_docs limit i pages :
  (chunk_pages_loop limit i pages).1
  = match pages with
    | [] => []
    | page :: rest =>
        if limit_and_ge limit i then []
        else page_chunks isoformat header_split_text recursive_split_documents page
               ++ (chunk_pages_loop limit (S i) rest).1
    end.
Proof.
  destruct pages as [|page rest]; [reflexivity|]. cbn [Chunker.chunk_pages_loop].
  destruct (limit_and_ge limit i); [reflexivity|]. unfold page_chunks.
  destruct (truthy_opt_str (md page)); cbn [negb].
  - destruct (chunk _ _) as [docs l1]. destruct (chunk_pages_loop _ _ _) as [all l2]. reflexivity.
  - destruct (chunk_pages_loop _ _ _) as [all l2]. reflexivity.
Qed.

Lemma chunk_pages_docs pages limit :
  (chunk_pages pages limit).1 = (chunk_pages_loop limit 0 pages).1.
Proof. unfold Chunker.chunk_pages. destruct (chunk_pages_loop _ _ _). reflexivity. Qed.

Lemma chunk_pages_loop_no_limit i pages :
  (chunk_pages_loop None i pages).1
  = flat_map (page_chunks isoformat header_split_text recursive_split_documents) pages.
Proof.
  revert i. induction pages as [|page rest IH]; intros i; [reflexivity|].
  rewrite chunk_pages_loop_docs. cbn [limit_and_ge flat_map]. by rewrite IH.
Qed.

Lemma chunk_pages_loop_elem limit i pages d :
  d ∈ (chunk_pages_loop limit i pages).1 ->
  exists page, page ∈ pages
    /\ d ∈ page_chunks isoformat header_split_text recursive_split_documents page.
Proof.
  revert i. induction pages as [|page rest IH]; intros i; rewrite chunk_pages_loop_docs.
  - by intros ?%elem_of_nil.
  - destruct (limit_and_ge limit i); [by intros ?%elem_of_nil|].
    rewrite elem_of_app. intros [H|H].
    + exists page. split; [by left|done].
    + destruct (IH _ H) as (q & Hq & Hd). exists q. split; [by right|done].
Qed.

Lemma page_chunks_elem page d :
  d ∈ page_chunks isoformat header_split_text recursive_split_documents page ->
  exists body, md page = Some body /\ body <> ""
    /\ d ∈ (chunk body (Some (to_metadata isoformat page))).1.
Proof.
  unfold page_chunks. destruct (md page) as [[|c body]|]; cbn.
  - by intros ?%elem_of_nil.
  - intros H. exists (String c body). done.
  - by intros ?%elem_of_nil.
Qed.

(** C7, as the code has it. [chunk_pages] decides by [md] alone and
    never reads the [loaded] flag. A page whose [md] is absent or empty
    contributes nothing: the output is the output for the list without
    it. A page whose [md] is present and not empty contributes the
    chunks of that [md], whatever its [loaded] flag says. Under any
    limit, every chunk of the output is a chunk of a page of the list
    whose [md] is present and not empty. And [chunk] on the empty
    document returns no chunk, logs one warning and raises nothing. *)
Theorem chunk_pages_excludes_pages_without_md before page after :
  (md page = None \/ md page = Some "" ->
     (chunk_pages (before ++ page :: after) None).1
     = (chunk_pages (before ++ after) None).1)
  /\ (forall body, md page = Some body -> body <> "" ->
        (chunk_pages (before ++ page :: after) None).1
        = (chunk_pages before None).1
            ++ (chunk body (Some (to_metadata isoformat page))).1
            ++ (chunk_pages after None).1)
  /\ (forall pages limit d, d ∈ (chunk_pages pages limit).1 ->
        exists q body, q ∈ pages /\ md q = Some body /\ body <> ""
          /\ d ∈ (chunk body (Some (to_metadata isoformat q))).1)
  /\ (forall metadata,
        chunk "" metadata = ([], [mkLog WARNING "Empty document provided to chunker."])).
Proof.
  split; [|split; [|split]].
  - intros Hmd. rewrite !chunk_pages_docs, !chunk_pages_loop_no_limit, !flat_map_app.
    cbn [flat_map]. unfold page_chunks at 2. by destruct Hmd as [-> | ->].
  - intros body Hmd Hne.
    rewrite !chunk_pages_docs, !chunk_pages_loop_no_limit, !flat_map_app.
    cbn [flat_map]. unfold page_chunks at 2. rewrite Hmd.
    destruct body as [|c body]; [done|]. reflexivity.
  - intros pages limit d. rewrite chunk_pages_docs. intros H.
    destruct (chunk_pages_loop_elem _ _ _ _ H) as (q & Hq & Hd).
    destruct (page_chunks_elem _ _ Hd) as (body & Hb & Hne & Hd').
    by exists q, body.
  - reflexivity.
Qed.

End ChunkerFacts.


(* ================================================================== *)
(** * The [limit] guard of [scrape] and [chunk_pages] *)
(* ================================================================== *)

Section LimitFacts.
Context {datetime float : Type}.
Variable raise_for_status : Response -> Result unit.
Variable clean_fn : option (string -> Result string).
Variable session_get : nat -> Result Response.
Variable clock : nat -> datetime.
Variable isoformat : datetime -> string.
Variable header_split_text : string -> list (Document float).
Variable recursive_split_documents : list (Document float) -> list (Document float).

Implicit Types (store : gmap nat (Page datetime float)).

Local Abbreviation scrape_loop := (scrape_loop raise_for_status clean_fn session_get clock).
Local Abbreviation scrape := (scrape raise_for_status clean_fn session_get clock).
Local Abbreviation chunk_pages_loop :=
  (chunk_pages_loop isoformat header_split_text recursive_split_documents).
Local Abbreviation chunk_pages :=
  (chunk_pages isoformat header_split_text recursive_split_documents).
(** The page [p] after [load] with the request and the clock at [i]. *)
Local Abbreviation loaded_page p i :=
  (load raise_for_status p (session_get i) clean_fn (clock i)).1.1.

Lemma limit_and_ge_zero i : limit_and_ge (Some 0%Z) i = false.
Proof. reflexivity. Qed.

Lemma limit_and_ge_pos n i :
  (1 <= n)%Z -> limit_and_ge (Some n) i = bool_decide (Z.to_nat n <= i).
Proof.
  intros Hn. unfold limit_and_ge.
  replace (n =? 0)%Z with false by (symmetry; apply Z.eqb_neq; lia). cbn [negb andb].
  case_bool_decide; [apply Z.leb_le|apply Z.leb_gt]; lia.
Qed.

Lemma scrape_loop_limit_zero i pages store :
  scrape_loop (Some 0%Z) i pages store = scrape_loop None i pages store.
Proof.
  revert i store. induction pages as [|a pages IH]; intros i store; [reflexivity|].
  cbn [Scrapper.scrape_loop]. rewrite limit_and_ge_zero. cbn [limit_and_ge].
  destruct (load_at _ _ _ _ _ _ _) as [s1 l1]. by rewrite IH.
Qed.

Lemma scrape_loop_limit_pos n i pages store :
  (1 <= n)%Z ->
  scrape_loop (Some n) i pages store
  = scrape_loop None i (take (Z.to_nat n - i) pages) store.
Proof.
  intros Hn. revert i store. induction pages as [|a pages IH]; intros i store.
  - by rewrite take_nil.
  - cbn [Scrapper.scrape_loop]. rewrite limit_and_ge_pos by done.
    case_bool_decide as Hi.
    + by replace (Z.to_nat n - i) with 0 by lia.
    + replace (Z.to_nat n - i) with (S (Z.to_nat n - S i)) by lia.
      cbn [take Scrapper.scrape_loop limit_and_ge].
      destruct (load_at _ _ _ _ _ _ _) as [s1 l1]. by rewrite IH.
Qed.

Lemma chunk_pages_loop_limit_zero i pages :
  chunk_pages_loop (Some 0%Z) i pages = chunk_pages_loop None i pages.
Proof.
  revert i. induction pages as [|p pages IH]; intros i; [reflexivity|].
  cbn [Chunker.chunk_pages_loop]. rewrite limit_and_ge_zero. cbn [limit_and_ge].
  by rewrite IH.
Qed.

Lemma chunk_pages_loop_limit_pos n i pages :
  (1 <= n)%Z ->
  chunk_pages_loop (Some n) i pages = chunk_pages_loop None i (take (Z.to_nat n - i) pages).
Proof.
  intros Hn. revert i. induction pages as [|p pages IH]; intros i.
  - by rewrite take_nil.
  - cbn [Chunker.chunk_pages_loop]. rewrite limit_and_ge_pos by done.
    case_bool_decide as Hi.
    + by replace (Z.to_nat n - i) with 0 by lia.
    + replace (Z.to_nat n - i) with (S (Z.to_nat n - S i)) by lia.
      cbn [take Chunker.chunk_pages_loop limit_and_ge]. by rewrite IH.
Qed.

Lemma limit_and_ge_neg n i : (n < 0)%Z -> limit_and_ge (Some n) i = true.
Proof.
  intros Hn. unfold limit_and_ge.
  replace (n =? 0)%Z with false by (symmetry; apply Z.eqb_neq; lia).
  cbn [negb andb]. apply Z.leb_le. lia.
Qed.

Lemma scrape_store pages limit store :
  (scrape pages limit store).1.2 = (scrape_loop limit 0 pages store).1.
Proof. unfold Scrapper.scrape. by destruct (scrape_loop limit 0 pages store). Qed.

(** Without a limit every page of a list of distinct objects is loaded
    with the outcome of the request at its position. *)
Lemma scrape_no_limit_lookup pages store k a p :
  NoDup pages -> pages !! k = Some a -> store !! a = Some p ->
  (scrape pages None store).1.2 !! a = Some (loaded_page p k).
Proof.
  intros Hnd Hk Hp. rewrite scrape_store.
  by rewrite (scrape_loop_lookup raise_for_status clean_fn session_get clock
                None 0 pages store k a p Hnd Hk Hp eq_refl).
Qed.

Lemma scrape_limit_pos_lookup n pages store k a p :
  (1 <= n)%Z -> NoDup pages -> pages !! k = Some a -> store !! a = Some p ->
  (scrape pages (Some n) store).1.2 !! a
  = Some (if decide (k < Z.to_nat n) then loaded_page p k else p).
Proof.
  intros Hn Hnd Hk Hp. rewrite scrape_store, scrape_loop_limit_pos by done.
  rewrite Nat.sub_0_r. case_decide as Hlt.
  - assert (NoDup (take (Z.to_nat n) pages)) as Hnd'.
    { eapply sublist_NoDup; [exact Hnd|apply sublist_take]. }
    assert (take (Z.to_nat n) pages !! k = Some a) as Hk'
      by (by rewrite lookup_take_lt).
    by rewrite (scrape_loop_lookup raise_for_status clean_fn session_get clock
                  None 0 _ store k a p Hnd' Hk' Hp eq_refl).
  - rewrite scrape_loop_lookup_notin; [done|].
    intros Hin. apply list_elem_of_lookup in Hin as [j Hj].
    apply lookup_take_Some in Hj as [Hj Hjn].
    assert (j = k) by (eapply NoDup_lookup; eauto). lia.
Qed.

(** C9, as the code has it. The guard [limit and i >= limit] is false
    at every index when [limit] is 0, as when it is [None]: every page
    is processed, [scrape] loads each page object with the outcome of
    the request at its position and [chunk_pages] returns the chunks of
    every page. For a limit [n >= 1] the guard stops the loop at index
    [n]: the first [n] pages are processed and the others left as they
    were. A negative limit is truthy as well and no index is below it:
    the loops stop before the first page and nothing is processed.
    [pages] is a list of distinct page objects. *)
Theorem limit_zero_is_no_limit (pages : list nat) (values : list (Page datetime float))
    (store : gmap nat (Page datetime float)) (n : Z) :
  NoDup pages ->
  (forall limit, limit = Some 0%Z \/ limit = None ->
     scrape pages limit store = scrape pages None store
     /\ (forall k a p, pages !! k = Some a -> store !! a = Some p ->
           (scrape pages limit store).1.2 !! a = Some (loaded_page p k))
     /\ (chunk_pages values limit).1
        = flat_map (page_chunks isoformat header_split_text recursive_split_documents)
            values)
  /\ ((1 <= n)%Z ->
        (forall k a p, pages !! k = Some a -> store !! a = Some p ->
           (scrape pages (Some n) store).1.2 !! a
           = Some (if decide (k < Z.to_nat n) then loaded_page p k else p))
        /\ (chunk_pages values (Some n)).1
           = flat_map (page_chunks isoformat header_split_text recursive_split_documents)
               (take (Z.to_nat n) values))
  /\ ((n < 0)%Z ->
        (scrape pages (Some n) store).1.2 = store
        /\ (chunk_pages values (Some n)).1 = []).
Proof.
  intros Hnd. split; [|split].
  - intros limit Hl.
    assert (scrape pages limit store = scrape pages None store) as Hs.
    { destruct Hl as [-> | ->]; [|done]. unfold Scrapper.scrape.
      by rewrite scrape_loop_limit_zero. }
    split; [exact Hs|]. split.
    + intros k a p Hk Hp. rewrite Hs. by apply scrape_no_limit_lookup.
    + rewrite chunk_pages_docs.
      destruct Hl as [-> | ->]; [rewrite chunk_pages_loop_limit_zero|];
        apply chunk_pages_loop_no_limit.
  - intros Hn. split.
    + intros k a p Hk Hp. by apply scrape_limit_pos_lookup.
    + rewrite chunk_pages_docs, chunk_pages_loop_limit_pos by done.
      rewrite Nat.sub_0_r. apply chunk_pages_loop_no_limit.
  - intros Hn. split.
    + rewrite scrape_store. destruct pages as [|a pages]; [done|].
      cbn [Scrapper.scrape_loop]. by rewrite limit_and_ge_neg.
    + rewrite chunk_pages_docs. destruct values as [|v values]; [done|].
      cbn [Chunker.chunk_pages_loop]. by rewrite limit_and_ge_neg.
Qed.

End LimitFacts.


(* ================================================================== *)
(** * Properties of the sitemap functions of [utils.py] *)
(* ================================================================== *)

Section MergeFacts.
Context {datetime float : Type}.
Implicit Types (store : gmap nat (Page datetime float)) (pages : list nat)
  (meta : gmap string (SitemapEntry datetime float)) (p : Page datetime float).

Lemma merge_at_result meta store0 store a0 :
  (forall a p, store0 !! a = Some p -> exists p', store !! a = Some p' /\ merge_result meta p p') ->
  (forall a p, store0 !! a = Some p ->
     exists p', merge_at meta store a0 !! a = Some p' /\ merge_result meta p p').
Proof.
  intros H a p Hp. destruct (H a p Hp) as (p' & Hp' & Hr).
  unfold merge_at. destruct (store !! a0) as [q|] eqn:Hq; [|eauto].
  destruct (meta !! url q) as [entry|] eqn:He; [|eauto].
  destruct (decide (a0 = a)) as [->|Hne].
  - rewrite lookup_insert_eq. eexists. split; [reflexivity|].
    rewrite Hp' in Hq. injection Hq as Hq. subst q. right.
    destruct Hr as [Hr|(entry' & He' & Hr)]; subst p'.
    + by exists entry.
    + exists entry. split; [exact He|reflexivity].
  - rewrite lookup_insert_ne by done. eauto.
Qed.

Lemma merge_foldl_result meta store0 pages store :
  (forall a p, store0 !! a = Some p -> exists p', store !! a = Some p' /\ merge_result meta p p') ->
  (forall a p, store0 !! a = Some p ->
     exists p', foldl (merge_at meta) store pages !! a = Some p' /\ merge_result meta p p').
Proof.
  revert store. induction pages as [|a0 pages IH]; intros store H; [exact H|].
  cbn [foldl]. apply IH. by apply merge_at_result.
Qed.

Lemma merge_at_dom meta store a : dom (merge_at meta store a) = dom store.
Proof.
  unfold merge_at. destruct (store !! a) as [q|] eqn:Hq; [|done].
  destruct (meta !! url q); [|done].
  rewrite dom_insert_L. apply elem_of_dom_2 in Hq.
  apply subseteq_union_1_L. by apply singleton_subseteq_l.
Qed.

Lemma merge_foldl_dom meta pages store :
  dom (foldl (merge_at meta) store pages) = dom store.
Proof.
  revert store. induction pages as [|a pages IH]; intros store; [done|].
  cbn [foldl]. by rewrite IH, merge_at_dom.
Qed.

(** C5. [merge_pages_with_sitemap] returns the list it was given, so
    one of the same length, and creates or deletes no page object. A
    page whose URL is not a key of [meta] is left as it was; so a
    [lastmod] or [priority] that was [None] and no longer is belongs to
    a page whose URL is a key of [meta]. *)
Theorem merge_is_left_join pages meta store :
  let r := merge_pages_with_sitemap pages meta store in
  r.1 = pages /\ length r.1 = length pages /\ dom r.2 = dom store
  /\ (forall a p, store !! a = Some p ->
        exists p', r.2 !! a = Some p' /\ url p' = url p
          /\ (url p ∉ dom meta -> p' = p)
          /\ (lastmod p = None -> lastmod p' <> None -> url p ∈ dom meta)
          /\ (priority p = None -> priority p' <> None -> url p ∈ dom meta)).
Proof.
  intros r. subst r. unfold merge_pages_with_sitemap. cbn [fst snd].
  split; [done|]. split; [done|]. split; [apply merge_foldl_dom|].
  intros a p Hp.
  destruct (merge_foldl_result meta store pages store) with (a := a) (p := p)
    as (p' & Hp' & Hr);
    [intros a' q Hq; exists q; split; [done|by left]|done|].
  exists p'. split; [done|].
  destruct Hr as [->|(entry & He & ->)].
  - repeat split; done.
  - assert (url p ∈ dom meta) by (by eapply elem_of_dom_2).
    repeat split; done.
Qed.

End MergeFacts.

Section SitemapFacts.
Context {datetime float : Type}.
Variable raise_for_status : Response -> Result unit.
Variable ET_fromstring : string -> Result ET.Element.
Variable date_parser_parse : string -> Result datetime.
Variable float_of_str : string -> Result float.

Local Abbreviation extract_metadata_from_sitemap :=
  (@extract_metadata_from_sitemap datetime float raise_for_status ET_fromstring
     date_parser_parse float_of_str).

(** A failed request, or an empty body, gives the empty mapping. *)
Lemma extract_metadata_fetch_error got :
  safe_request raise_for_status got = None ->
  extract_metadata_from_sitemap got = Ok ∅.
Proof. intros H. unfold Utils.extract_metadata_from_sitemap. by rewrite H. Qed.

(** A malformed date leaves [lastmod] absent, whatever the parser
    raised; a malformed number leaves [priority] absent. *)
Lemma parse_lastmod_malformed ns url_tag elem e :
  ET.find ns "lastmod" url_tag = Some elem ->
  date_parser_parse (strip (default "" (ET.text elem))) = Raise e ->
  parse_lastmod date_parser_parse ns url_tag = None.
Proof.
  intros Hf He. unfold parse_lastmod. rewrite Hf.
  destruct (truthy_opt_str _); [by rewrite He|done].
Qed.

Lemma parse_priority_malformed ns url_tag elem :
  ET.find ns "priority" url_tag = Some elem ->
  float_of_str (strip (default "" (ET.text elem))) = Raise ValueError ->
  parse_priority float_of_str ns url_tag = Ok None.
Proof.
  intros Hf He. unfold parse_priority. rewrite Hf.
  destruct (truthy_opt_str _); [by rewrite He|done].
Qed.

(** C3, where the code departs from it. A sitemap that was fetched but
    is not well-formed XML makes [extract_metadata_from_sitemap] raise
    the parser's exception: the call of [ET.fromstring] is outside every
    [try]. *)
Theorem extract_metadata_parse_error_raises (resp : Response) (e : Exn) :
  raise_for_status resp = Ok () ->
  Models.text resp <> "" ->
  ET_fromstring (Models.text resp) = Raise e ->
  extract_metadata_from_sitemap (Ok resp) = Raise e.
Proof.
  intros Hs Ht He. unfold Utils.extract_metadata_from_sitemap, safe_request.
  cbn. rewrite Hs. cbn. destruct (Models.text resp) eqn:E; [done|].
  cbn. by rewrite He.
Qed.

End SitemapFacts.


(* ================================================================== *)
(** * Properties of the table conversion *)
(* ================================================================== *)

Section TableFacts.
Import Bs4.

Lemma Node_forall_ind (P : Node -> Prop) :
  (forall s, P (NavigableString s)) ->
  (forall nm a cs, Forall P cs -> P (Tag nm a cs)) ->
  forall n, P n.
Proof.
  intros Hs Ht. fix IH 1. intros [s|nm a cs]; [apply Hs|]. apply Ht.
  induction cs as [|c cs IHcs]; constructor; [apply IH|apply IHcs].
Qed.

(** One replacement of the loop of [convert_tables]. *)
Local Abbreviation step :=
  (fun (soup : Node) (m : list nat * Node) => replace_in m.1 (table_replacement m.2) soup).

(** The matches at and below a child, positions relative to it. *)
Local Abbreviation self_and_below c :=
  ((if is_tag "table" c then [([], c)] else []) ++ find_all "table" c).

Lemma find_all_children_cons name i c rest :
  find_all_children (find_all name) name i (c :: rest)
  = map (fun m => (i :: m.1, m.2))
        ((if is_tag name c then [([], c)] else []) ++ find_all name c)
    ++ find_all_children (find_all name) name (S i) rest.
Proof.
  cbn [find_all_children]. rewrite map_app, <- app_assoc.
  destruct (is_tag name c); reflexivity.
Qed.

Lemma find_all_children_paths name i cs :
  Forall (fun m => m.1 <> []) (find_all_children (find_all name) name i cs).
Proof.
  revert i. induction cs as [|c cs IH]; intros i; [constructor|].
  rewrite find_all_children_cons. apply Forall_app. split; [|apply IH].
  apply Forall_map. apply Forall_true. done.
Qed.

Lemma find_all_paths name n : Forall (fun m => m.1 <> []) (find_all name n).
Proof. destruct n; [constructor|apply find_all_children_paths]. Qed.

(** A replacement below an element that has become text changes
    nothing. *)
Lemma fold_step_string ops s :
  Forall (fun m => m.1 <> []) ops ->
  fold_left step ops (NavigableString s) = NavigableString s.
Proof.
  induction 1 as [|[p t] ops Hp _ IH]; [reflexivity|].
  cbn [fold_left]. destruct p; [done|]. exact IH.
Qed.

(** Replacements below the child [i] of a tag only change that child. *)
Lemma fold_step_under nm a i ops cs :
  fold_left step (map (fun m => (i :: m.1, m.2)) ops) (Tag nm a cs)
  = Tag nm a (alter (fun c => fold_left step ops c) i cs).
Proof.
  revert cs. induction ops as [|o ops IH]; intros cs.
  - cbn. by rewrite list_alter_id.
  - cbn [map fold_left fst snd replace_in]. rewrite IH. f_equal.
    rewrite list_alter_alter_eq. reflexivity.
Qed.

Lemma fold_step_child c :
  fold_left step (find_all "table" c) c = converted c ->
  fold_left step (self_and_below c) c
  = if is_tag "table" c then table_replacement c else converted c.
Proof.
  intros IH. destruct (is_tag "table" c); [|exact IH].
  cbn [app fold_left fst snd replace_in]. apply fold_step_string, find_all_paths.
Qed.

Lemma fold_step_children nm a pre cs :
  Forall (fun c => fold_left step (find_all "table" c) c = converted c) cs ->
  fold_left step (find_all_children (find_all "table") "table" (length pre) cs)
            (Tag nm a (pre ++ cs))
  = Tag nm a (pre ++ map (fun c => if is_tag "table" c then table_replacement c
                                   else converted c) cs).
Proof.
  intros H. revert pre. induction H as [|c cs Hc _ IH]; intros pre; [reflexivity|].
  rewrite find_all_children_cons, fold_left_app, fold_step_under.
  rewrite alter_app_r_alt by done. rewrite Nat.sub_diag. cbn [alter list_alter].
  rewrite (fold_step_child c Hc).
  specialize (IH (pre ++ [if is_tag "table" c then table_replacement c else converted c])).
  rewrite length_app in IH. cbn [length] in IH. rewrite Nat.add_1_r in IH.
  rewrite <- !app_assoc in IH. exact IH.
Qed.

(** The loop computes the structural conversion. *)
Lemma convert_tables_converted soup : convert_tables soup = converted soup.
Proof.
  unfold convert_tables. induction soup as [s|nm a cs IH] using Node_forall_ind; [reflexivity|].
  exact (fold_step_children nm a [] cs IH).
Qed.

Lemma converted_is_tag name c : is_tag name (converted c) = is_tag name c.
Proof. destruct c; reflexivity. Qed.

Lemma find_all_converted soup : find_all "table" (converted soup) = [].
Proof.
  induction soup as [s|nm a cs IH] using Node_forall_ind; [reflexivity|].
  cbn [converted find_all]. generalize 0.
  induction IH as [|c cs Hc _ IHcs]; intros i; [reflexivity|].
  cbn [map]. rewrite find_all_children_cons, IHcs, app_nil_r.
  destruct (is_tag "table" c) eqn:E; [reflexivity|].
  by rewrite converted_is_tag, E, Hc.
Qed.

(** No [<table>] element is left in the tree [convert_tables] returns,
    and converting again changes nothing. *)
Lemma convert_tables_no_table soup : find_all "table" (convert_tables soup) = [].
Proof. rewrite convert_tables_converted. apply find_all_converted. Qed.

Lemma convert_tables_idempotent soup :
  convert_tables (convert_tables soup) = convert_tables soup.
Proof. unfold convert_tables at 1. by rewrite convert_tables_no_table. Qed.

(** A table that is not inside another one is replaced where it stands. *)
Lemma converted_top_table path soup table :
  top_table_at path soup = Some table ->
  node_at path (converted soup) = Some (table_replacement table).
Proof.
  revert soup. induction path as [|i p IH]; intros [s|nm a cs]; try done.
  cbn [top_table_at node_at converted]. rewrite list_lookup_fmap.
  destruct (cs !! i) as [c|]; [|done]. cbn [fmap option_fmap option_map].
  destruct (is_tag "table" c) eqn:E.
  - destruct p; [|done]. by intros [= ->].
  - apply IH.
Qed.

Lemma join_two sep a b : join sep [a; b] = a +:+ sep +:+ b.
Proof. reflexivity. Qed.

End TableFacts.


(* ================================================================== *)
(** * Properties of [clean_markdown_content] *)
(* ================================================================== *)

Section StripFacts.

Lemma append_empty_r s : s +:+ "" = s.
Proof.
  induction s as [|c s IH]; [reflexivity|].
  change (String c (s +:+ "") = String c s). by rewrite IH.
Qed.

Lemma append_snoc_cons acc c s : (acc +:+ String c "") +:+ s = acc +:+ String c s.
Proof.
  induction acc as [|a acc IH]; [reflexivity|].
  change (String a ((acc +:+ String c "") +:+ s) = String a (acc +:+ String c s)).
  by rewrite IH.
Qed.

Lemma string_append_assoc (a b c : string) : (a +:+ b) +:+ c = a +:+ (b +:+ c).
Proof.
  induction a as [|x a IH]; [reflexivity|].
  change (String x ((a +:+ b) +:+ c) = String x (a +:+ (b +:+ c))). by rewrite IH.
Qed.

Lemma lstrip_head s :
  lstrip s = "" \/ exists c r, lstrip s = String c r /\ is_space c = false.
Proof.
  induction s as [|c s IH]; [by left|]. cbn [lstrip].
  destruct (is_space c) eqn:E; [exact IH|]. right. by exists c, s.
Qed.

Lemma rstrip_cons c s :
  is_space c = false -> rstrip (String c s) = String c (rstrip s).
Proof. intros H. cbn [rstrip]. rewrite H. by destruct (rstrip s). Qed.

Lemma rstrip_idempotent s : rstrip (rstrip s) = rstrip s.
Proof.
  induction s as [|c s IH]; [reflexivity|]. cbn [rstrip].
  destruct (rstrip s) as [|d r] eqn:E.
  - destruct (is_space c) eqn:Ec; [reflexivity|]. cbn [rstrip]. by rewrite Ec.
  - cbn [rstrip] in *. by rewrite IH.
Qed.

Lemma strip_idempotent s : strip (strip s) = strip s.
Proof.
  unfold strip. destruct (lstrip_head s) as [->|(c & r & -> & Hc)]; [reflexivity|].
  rewrite rstrip_cons by done. cbn [lstrip]. rewrite Hc.
  rewrite <- rstrip_cons by done. apply rstrip_idempotent.
Qed.

Lemma contains_char_lstrip c s :
  contains_char c s = false -> contains_char c (lstrip s) = false.
Proof.
  induction s as [|a s IH]; [done|]. cbn [lstrip contains_char].
  destruct (Ascii.eqb a c) eqn:E; [done|]. intros H.
  destruct (is_space a); [by apply IH|]. cbn [contains_char]. by rewrite E.
Qed.

Lemma contains_char_rstrip c s :
  contains_char c s = false -> contains_char c (rstrip s) = false.
Proof.
  induction s as [|a s IH]; [done|]. cbn [rstrip contains_char].
  destruct (Ascii.eqb a c) eqn:E; [done|]. intros H. specialize (IH H).
  destruct (rstrip s) as [|d r].
  - destruct (is_space a); [done|]. cbn [contains_char]. by rewrite E.
  - cbn [contains_char] in *. by rewrite E.
Qed.

Lemma contains_char_strip c s :
  contains_char c s = false -> contains_char c (strip s) = false.
Proof. intros H. by apply contains_char_rstrip, contains_char_lstrip. Qed.

(** [lstrip] removes a prefix of the text before a character that is
    not whitespace. *)
Lemma lstrip_app_l a c r :
  is_space c = false -> exists a', lstrip (a +:+ String c r) = a' +:+ String c r.
Proof.
  intros Hc. induction a as [|x a IH].
  - exists "". change (lstrip (String c r) = String c r). cbn [lstrip]. by rewrite Hc.
  - change (String x a +:+ String c r) with (String x (a +:+ String c r)).
    cbn [lstrip]. destruct (is_space x); [exact IH|]. by exists (String x a).
Qed.

Lemma rstrip_split t : exists w, t = rstrip t +:+ w.
Proof.
  induction t as [|c t [w IH]]; [by exists ""|]. cbn [rstrip].
  destruct (rstrip t) as [|d r] eqn:E.
  - destruct (is_space c).
    + by exists (String c t).
    + exists w. change (String c t = String c ("" +:+ w)). by rewrite <- IH.
  - exists w. change (String c t = String c (String d r +:+ w)). by rewrite <- IH.
Qed.

Lemma rstrip_app_r a b : rstrip b <> "" -> rstrip (a +:+ b) = a +:+ rstrip b.
Proof.
  intros Hb. induction a as [|x a IH]; [reflexivity|].
  change (String x a +:+ b) with (String x (a +:+ b)).
  change (String x a +:+ rstrip b) with (String x (a +:+ rstrip b)).
  cbn [rstrip]. rewrite IH.
  destruct (a +:+ rstrip b) eqn:E; [|reflexivity].
  destruct a; [|discriminate E]. by destruct (rstrip b).
Qed.

Lemma rstrip_nonempty_cons c t :
  rstrip t <> "" -> rstrip (String c t) = String c (rstrip t).
Proof. intros H. cbn [rstrip]. by destruct (rstrip t). Qed.

Lemma rstrip_fixed_tail c u :
  u <> "" -> rstrip (String c u) = String c u -> rstrip u = u.
Proof.
  intros Hu H. cbn [rstrip] in H. destruct (rstrip u) as [|e r].
  - destruct (is_space c); [discriminate H|]. injection H as <-. done.
  - by injection H.
Qed.

(** [rstrip] keeps a text that ends with a character that is not
    whitespace, whatever follows it. *)
Lemma rstrip_app_keeps u v :
  u <> "" -> rstrip u = u -> exists v', rstrip (u +:+ v) = u +:+ v'.
Proof.
  induction u as [|c u IH]; [done|]. intros _ Hu.
  change (String c u +:+ v) with (String c (u +:+ v)).
  destruct (decide (u = "")) as [->|Hne].
  - change ("" +:+ v) with v. exists (rstrip v).
    apply rstrip_cons. cbn [rstrip] in Hu. by destruct (is_space c).
  - destruct (IH Hne (rstrip_fixed_tail c u Hne Hu)) as [v' Hv']. exists v'.
    rewrite rstrip_nonempty_cons; [by rewrite Hv'|].
    rewrite Hv'. by destruct u.
Qed.

(** [strip] keeps what stands between the two ends: a text that starts
    with a character that is not whitespace is kept up to its own
    trailing whitespace, wherever it stands. *)
Lemma strip_middle a c r b :
  is_space c = false ->
  exists pre post, strip (a +:+ String c r +:+ b) = pre +:+ rstrip (String c r) +:+ post.
Proof.
  intros Hc. change (String c r +:+ b) with (String c (r +:+ b)).
  destruct (lstrip_app_l a c (r +:+ b) Hc) as [a' Ha].
  unfold strip. rewrite Ha. change (String c (r +:+ b)) with (String c r +:+ b).
  set (t := String c r).
  destruct (rstrip_split t) as [w Hw].
  assert (rstrip t <> "") as Hne.
  { unfold t. rewrite rstrip_cons by done. done. }
  destruct (rstrip_app_keeps (rstrip t) (w +:+ b) Hne (rstrip_idempotent t)) as [v' Hv'].
  assert (rstrip (t +:+ b) = rstrip t +:+ v') as Ht.
  { rewrite Hw at 1. by rewrite string_append_assoc. }
  exists a', v'. rewrite rstrip_app_r; [by rewrite Ht|].
  rewrite Ht. by destruct (rstrip t).
Qed.

End StripFacts.

Section DirectiveFacts.

(** Without an opening brace there is no directive to match. *)
Lemma match_star_lit_none cls c k prev s :
  contains_char c s = false ->
  Re.match_items (Re.StarGreedy cls :: Re.Lit c :: k) prev s = None.
Proof.
  revert prev. induction s as [|a s IH]; intros prev H; [reflexivity|].
  cbn [contains_char] in H. destruct (Ascii.eqb a c) eqn:E; [done|].
  specialize (IH (Some a) H). cbn [Re.match_items] in *.
  rewrite IH, E. by destruct (cls a).
Qed.

Lemma gitbook_tag_line_no_brace prev s :
  contains_char "{" s = false -> Re.match_items GITBOOK_TAG_LINE prev s = None.
Proof.
  intros H. unfold GITBOOK_TAG_LINE.
  change (Re.match_items (Re.Bol :: ?k) prev s)
    with (if Re.at_bol prev then Re.match_items k prev s else None).
  rewrite match_star_lit_none by done. by destruct (Re.at_bol prev).
Qed.

Lemma sub_scan_no_brace prev s :
  contains_char "{" s = false -> Re.sub_scan GITBOOK_TAG_LINE prev s 0 = s.
Proof.
  revert prev. induction s as [|a s IH]; intros prev H; [reflexivity|].
  cbn [Re.sub_scan]. rewrite gitbook_tag_line_no_brace by done.
  f_equal. apply IH. cbn [contains_char] in H. by destruct (Ascii.eqb a "{").
Qed.

End DirectiveFacts.

Section CleanFacts.
Variable BeautifulSoup : string -> Result Bs4.Node.
Variable soup_str : Bs4.Node -> string.

Local Abbreviation clean := (clean_markdown_content BeautifulSoup soup_str).
Local Abbreviation remove_tag_lines := (Re.sub_empty GITBOOK_TAG_LINE).

(** A run of [clean] that returns: the parser returned a tree, and the
    result is the trimmed text of that tree with its tables converted. *)
Lemma clean_returns x y :
  clean x = Ok y <->
  exists soup, BeautifulSoup (remove_tag_lines x) = Ok soup
    /\ y = strip (soup_str (convert_tables soup)).
Proof.
  unfold clean_markdown_content, convert_html_tables_to_markdown.
  destruct (BeautifulSoup (remove_tag_lines x)) as [soup|e]; cbn; split.
  - intros [= <-]. by exists soup.
  - by intros (soup' & [= <-] & ->).
  - done.
  - by intros (soup' & [=] & _).
Qed.

(** An exception of the parser leaves [clean] as it is. *)
Lemma clean_raises x e :
  BeautifulSoup (remove_tag_lines x) = Raise e -> clean x = Raise e.
Proof.
  intros H. unfold clean_markdown_content, convert_html_tables_to_markdown.
  by rewrite H.
Qed.

Lemma convert_tables_table_free soup :
  Bs4.find_all "table" soup = [] -> convert_tables soup = soup.
Proof. intros H. unfold convert_tables. by rewrite H. Qed.


End CleanFacts.

Section CleanTableFacts.
Variable BeautifulSoup : string -> Result Bs4.Node.
Variable soup_str : Bs4.Node -> string.

Local Abbreviation nl := (String Re.newline "").
Local Abbreviation clean := (clean_markdown_content BeautifulSoup soup_str).

(** What is assumed of the printer: the text of a text node stands in
    the printed document, as it is or with its markup characters
    replaced by character references. *)
Hypothesis printed_text : forall soup path s,
  Bs4.node_at path soup = Some (Bs4.NavigableString s) ->
  exists pre post s',
    (s' = s \/ s' = Bs4.substitute_xml s) /\ soup_str soup = pre +:+ s' +:+ post.

Lemma substitute_xml_app a b :
  Bs4.substitute_xml (a +:+ b) = Bs4.substitute_xml a +:+ Bs4.substitute_xml b.
Proof.
  induction a as [|c a IH]; [reflexivity|].
  change (String c a +:+ b) with (String c (a +:+ b)). cbn [Bs4.substitute_xml].
  by rewrite IH, string_append_assoc.
Qed.

Lemma substitute_xml_join sep parts :
  Bs4.substitute_xml sep = sep ->
  Bs4.substitute_xml (join sep parts) = join sep (map Bs4.substitute_xml parts).
Proof.
  intros Hsep. induction parts as [|p rest IH]; [reflexivity|].
  destruct rest as [|q rest]; [reflexivity|].
  change (join sep (p :: q :: rest)) with (p +:+ sep +:+ join sep (q :: rest)).
  change (join sep (map Bs4.substitute_xml (p :: q :: rest)))
    with (Bs4.substitute_xml p +:+ sep
          +:+ join sep (map Bs4.substitute_xml (q :: rest))).
  by rewrite !substitute_xml_app, Hsep, IH.
Qed.

Lemma map_id_ext (e : string -> string) (l : list string) :
  (forall s, e s = s) -> map e l = l.
Proof. intros H. induction l as [|x l IH]; [done|]. cbn. by rewrite H, IH. Qed.

(** The trimmed, non-empty texts of the text nodes at and below a
    node, which [get_text(sep, strip=True)] joins by [sep]. *)
Local Abbreviation cell_texts n :=
  (filter (fun s => truthy_str s = true) (map strip (Bs4.strings n))).


End CleanTableFacts.


(* ================================================================== *)
(** * The stand-in printer *)
(* ================================================================== *)

Section StandInFacts.

Lemma escape_substitute_xml s : StandIns.escape s = Bs4.substitute_xml s.
Proof.
  induction s as [|c s IH]; [done|].
  cbn [StandIns.escape Bs4.substitute_xml]. by rewrite IH.
Qed.

Lemma join_empty_cons p rest : join "" (p :: rest) = p +:+ join "" rest.
Proof. destruct rest; [cbn [join]; by rewrite append_empty_r | reflexivity]. Qed.

Lemma join_empty_lookup (f : Bs4.Node -> string) cs i c :
  cs !! i = Some c -> exists pre post, join "" (map f cs) = pre +:+ f c +:+ post.
Proof.
  revert i. induction cs as [|d cs IH]; intros [|i] H; try done.
  - injection H as ->. exists "", (join "" (map f cs)).
    cbn [map]. by rewrite join_empty_cons.
  - destruct (IH i H) as (pre & post & E). exists (f d +:+ pre), post.
    cbn [map]. by rewrite join_empty_cons, E, string_append_assoc.
Qed.

Lemma node_str_text path n s :
  Bs4.node_at path n = Some (Bs4.NavigableString s) ->
  exists pre post, StandIns.node_str n = pre +:+ StandIns.escape s +:+ post.
Proof.
  revert n. induction path as [|i p IH]; intros n H.
  - injection H as ->. exists "", "". cbn [StandIns.node_str].
    by rewrite append_empty_r.
  - destruct n as [t|nm a cs]; [done|]. cbn [Bs4.node_at] in H.
    destruct (cs !! i) as [c|] eqn:Hc; [|done].
    destruct (IH c H) as (pre & post & E).
    destruct (join_empty_lookup StandIns.node_str cs i c Hc) as (pre' & post' & E').
    exists ("<" +:+ nm +:+ a +:+ ">" +:+ pre' +:+ pre),
           (post +:+ post' +:+ "</" +:+ nm +:+ ">").
    cbn [StandIns.node_str]. rewrite E', E. by rewrite !string_append_assoc.
Qed.

(** The stand-in prints every text node with its markup characters
    replaced by character references. *)
Lemma standin_printed_text soup path s :
  Bs4.node_at path soup = Some (Bs4.NavigableString s) ->
  exists pre post s',
    (s' = s \/ s' = Bs4.substitute_xml s)
    /\ StandIns.soup_str soup = pre +:+ s' +:+ post.
Proof.
  intros H. destruct path as [|i p].
  - injection H as ->. exists "", "", (Bs4.substitute_xml s). split; [by right|].
    cbn [StandIns.soup_str]. by rewrite append_empty_r, escape_substitute_xml.
  - destruct soup as [t|nm a cs]; [done|]. cbn [Bs4.node_at] in H.
    destruct (cs !! i) as [c|] eqn:Hc; [|done].
    destruct (node_str_text p c s H) as (pre & post & E).
    destruct (join_empty_lookup StandIns.node_str cs i c Hc) as (pre' & post' & E').
    exists (pre' +:+ pre), (post +:+ post'), (Bs4.substitute_xml s).
    split; [by right|]. cbn [StandIns.soup_str].
    rewrite E', E, escape_substitute_xml. by rewrite !string_append_assoc.
Qed.

End StandInFacts.


(* ================================================================== *)
(** * The theorems at concrete inputs *)
(* ================================================================== *)

Section Instances.
Import Samples.

Local Abbreviation rfs := StandIns.raise_for_status.
Local Abbreviation hs := (@StandIns.header_split_text string).
Local Abbreviation rs := (@StandIns.recursive_split_documents string 10 2).

(** A re-fetch of a loaded page times out: only [loaded] changes. *)
Lemma load_failure_changes_only_loaded_witness :
  let r := load rfs fetched_page (Raise Timeout) None "2024-02-02" in
  r.1.2 = false /\ loaded r.1.1 = false
  /\ md r.1.1 = Some "# Intro" /\ scraped_at r.1.1 = Some "2024-01-01".
Proof.
  destruct (load_failure_changes_only_loaded rfs fetched_page (Raise Timeout) None
              "2024-02-02" Timeout eq_refl) as (H1 & _ & H3 & H4 & H5 & _).
  split; [exact H1|]. split; [exact H3|]. split; [exact H4 | exact H5].
Defined.

(** A response with an error status is a failure like any other. *)
Example load_http_error :
  (load rfs (fresh_page "a") (Ok (mkResponse 404 "Not Found")) None "2024-02-02").1
  = (fresh_page "a", false).
Proof. reflexivity. Qed.

(** C2 fails on the code. After a re-fetch that times out the page has
    [loaded = False] and still its old body; after a successful fetch
    of an empty body it has [loaded = True] and the empty string as
    body. Neither state satisfies the invariant. *)
Lemma load_breaks_page_invariant :
  ~ page_invariant (load rfs fetched_page (Raise Timeout) None "2024-02-02").1.1
  /\ ~ page_invariant
         (load rfs (fresh_page "a") (Ok (mkResponse 200 "")) None "2024-02-02").1.1.
Proof.
  split; intros [Ht Hf].
  - specialize (Hf eq_refl). discriminate Hf.
  - destruct (Ht eq_refl) as [(body & Hb & Hne) _]. cbn in Hb. congruence.
Qed.

Lemma load_postcondition_witness :
  let self' := (load rfs (fresh_page "a") (Ok (mkResponse 200 "# Title")) None
                     "2024-02-02").1.1 in
  loaded self' = true /\ md self' = Some "# Title" /\ scraped_at self' = Some "2024-02-02".
Proof.
  destruct (load_postcondition rfs (fresh_page "a") (Ok (mkResponse 200 "# Title")) None
              "2024-02-02") as [H _].
  destruct (H eq_refl) as [(content & Hc & Hmd) Hs].
  vm_compute in Hc. injection Hc as <-.
  split; [reflexivity|]. split; [exact Hmd | exact Hs].
Defined.

Lemma three_pages_NoDup : NoDup [1; 2; 3].
Proof. apply (bool_decide_unpack _). vm_compute. exact I. Qed.

Lemma three_pages_in_store a : a ∈ [1; 2; 3] -> is_Some (three_pages !! a).
Proof.
  intros H. repeat (apply elem_of_cons in H as [->|H]); try (eexists; reflexivity).
  by apply elem_of_nil in H.
Qed.


(** C9 at three pages: with limit 0 the third page is loaded, with
    limit 2 it is left as it was, with limit -1 no page is touched. *)
Lemma limit_zero_is_no_limit_witness :
  scrape rfs None second_fails clock [1; 2; 3] (Some 0%Z) three_pages
  = scrape rfs None second_fails clock [1; 2; 3] None three_pages
  /\ (loaded <$> (scrape rfs None second_fails clock [1; 2; 3] (Some 0%Z) three_pages).1.2 !! 3)
     = Some true
  /\ (scrape rfs None second_fails clock [1; 2; 3] (Some 2%Z) three_pages).1.2 !! 3
     = Some (fresh_page "c")
  /\ (loaded <$> (scrape rfs None second_fails clock [1; 2; 3] (Some 2%Z) three_pages).1.2 !! 1)
     = Some true
  /\ (scrape rfs None second_fails clock [1; 2; 3] (Some (-1)%Z) three_pages).1.2
     = three_pages
  /\ (chunk_pages StandIns.isoformat hs rs [fetched_page] (Some (-1)%Z)).1 = [].
Proof.
  destruct (limit_zero_is_no_limit rfs None second_fails clock StandIns.isoformat hs rs
              [1; 2; 3] [fetched_page] three_pages 2%Z three_pages_NoDup)
    as (H0 & H2 & _).
  destruct (limit_zero_is_no_limit rfs None second_fails clock StandIns.isoformat hs rs
              [1; 2; 3] [fetched_page] three_pages (-1)%Z three_pages_NoDup)
    as (_ & _ & Hneg).
  destruct (H0 (Some 0%Z) (or_introl eq_refl)) as (E0 & L0 & _).
  destruct (H2 ltac:(lia)) as (L2 & _).
  destruct (Hneg ltac:(lia)) as (N1 & N2).
  split; [exact E0|].
  split; [rewrite (L0 2 3 (fresh_page "c") eq_refl eq_refl); reflexivity|].
  split; [rewrite (L2 2 3 (fresh_page "c") eq_refl eq_refl); reflexivity|].
  split; [rewrite (L2 0 1 (fresh_page "a") eq_refl eq_refl); reflexivity|].
  split; [exact N1 | exact N2].
Defined.

(** C9 fails on the code for a negative limit: it is no limit of one or
    more, and it caps the processing, at no page at all. With limit -1
    [scrape] loads none of three pages and [chunk_pages] returns no
    chunk of a page that has one chunk without limit. *)
Lemma negative_limit_processes_nothing :
  (scrape rfs None second_fails clock [1; 2; 3] (Some (-1)%Z) three_pages).1.2 = three_pages
  /\ (loaded <$> (scrape rfs None second_fails clock [1; 2; 3] None three_pages).1.2 !! 1)
     = Some true
  /\ (loaded <$> (scrape rfs None second_fails clock [1; 2; 3] (Some (-1)%Z) three_pages).1.2 !! 1)
     = Some false
  /\ length (chunk_pages StandIns.isoformat hs rs [fetched_page] None).1 = 1
  /\ (chunk_pages StandIns.isoformat hs rs [fetched_page] (Some (-1)%Z)).1 = [].
Proof. repeat split; by vm_compute. Qed.

Local Abbreviation chunk10 := (chunk hs rs).

(** The splitters with the sizes the constructor passes by default. *)
Local Abbreviation chunk1000 :=
  (chunk hs (@StandIns.recursive_split_documents string 1000 100)).

(** C1 fails on the code: a document with two short heading segments
    gives two chunks, both with index 0; with windows of ten characters
    the first segment gives three, and the indices are 0, 1, 2, 0. *)
Lemma chunk_index_not_contiguous :
  two_sections <> ""
  /\ length (chunk1000 two_sections None).1 = 2
  /\ chunk_indices (chunk1000 two_sections None).1 = [Some (VInt 0); Some (VInt 0)]
  /\ chunk_indices (chunk1000 two_sections None).1
     <> index_range (length (chunk1000 two_sections None).1)
  /\ chunk_indices (chunk10 two_sections None).1
     = [Some (VInt 0); Some (VInt 1); Some (VInt 2); Some (VInt 0)].
Proof.
  split; [done|]. split; [by vm_compute|]. split; [by vm_compute|].
  split; [vm_compute; discriminate | by vm_compute].
Qed.

(** Two heading segments with windows: the indices restart and are not
    those of the page. *)
Lemma chunk_index_restarts_per_segment_witness :
  chunk_indices (chunk10 two_sections None).1 = index_range 3 ++ index_range 1
  /\ chunk_indices (chunk10 two_sections None).1
     <> index_range (length (chunk10 two_sections None).1).
Proof.
  destruct (chunk_index_restarts_per_segment hs rs two_sections None
              ltac:(discriminate)) as (H & Hiff & _).
  split; [rewrite H; vm_compute; reflexivity|].
  intros E. apply Hiff in E. vm_compute in E. lia.
Defined.

(** One heading segment: the indices are those of the page. *)
Example chunk_index_single_segment :
  chunk_indices (chunk10 no_heading None).1
  = index_range (length (chunk10 no_heading None).1)
  /\ length (chunk10 no_heading None).1 = 3.
Proof. split; by vm_compute. Qed.

(** A page that was never fetched adds nothing, a fetched page adds the
    chunks of its body. *)
Lemma chunk_pages_excludes_pages_without_md_witness :
  (chunk_pages StandIns.isoformat hs rs [fetched_page; unloaded_page] None).1
  = (chunk_pages StandIns.isoformat hs rs [fetched_page] None).1
  /\ (chunk_pages StandIns.isoformat hs rs [unloaded_page; fetched_page] None).1
     = (chunk hs rs "# Intro" (Some (to_metadata StandIns.isoformat fetched_page))).1.
Proof.
  destruct (chunk_pages_excludes_pages_without_md StandIns.isoformat hs rs
              [fetched_page] unloaded_page []) as (H & _).
  destruct (chunk_pages_excludes_pages_without_md StandIns.isoformat hs rs
              [unloaded_page] fetched_page []) as (_ & H' & _).
  split; [exact (H (or_introl eq_refl))|].
  etrans; [exact (H' "# Intro" eq_refl ltac:(discriminate))|]. by vm_compute.
Defined.

(** C7 fails on the code for a page with [loaded = False] that holds a
    body: the page a failed re-fetch leaves is chunked, and its chunk
    is in the output. *)
Lemma chunk_pages_chunks_unloaded_page_with_md :
  let page := (load rfs fetched_page (Raise Timeout) None "2024-02-02").1.1 in
  loaded page = false
  /\ md page = Some "# Intro"
  /\ length (chunk_pages StandIns.isoformat hs rs [page] None).1 = 1
  /\ (chunk_pages StandIns.isoformat hs rs [fetched_page; page] None).1
     <> (chunk_pages StandIns.isoformat hs rs [fetched_page] None).1.
Proof.
  cbv zeta. split; [reflexivity|]. split; [reflexivity|].
  split; [by vm_compute|]. vm_compute. discriminate.
Qed.

(** A manifest of two pages and a sitemap that covers one: two pages
    come back, one of them with a [lastmod]. *)
Lemma merge_is_left_join_witness :
  let store := <[1 := fresh_page "a"]> (<[2 := fresh_page "b"]> ∅) in
  let r := merge_pages_with_sitemap [1; 2] sitemap_meta store in
  length r.1 = 2
  /\ (lastmod <$> r.2 !! 1) = Some (Some "2024-01-02")
  /\ r.2 !! 2 = Some (fresh_page "b").
Proof.
  intros store r. subst r.
  destruct (merge_is_left_join [1; 2] sitemap_meta store) as (_ & H2 & _ & H4).
  split; [exact H2|]. split; [reflexivity|].
  destruct (H4 2 (fresh_page "b") eq_refl) as (p' & Hp' & _ & Hkeep & _).
  rewrite Hp'. f_equal. apply Hkeep. apply not_elem_of_dom. reflexivity.
Defined.

(** The parts of C3 the code does: an unreachable sitemap gives the
    empty mapping, and an entry with a malformed date and a malformed
    priority is kept with both fields absent. *)
Example extract_metadata_tolerates_fields :
  @extract_metadata_from_sitemap string string rfs StandIns.ET_fromstring
     StandIns.date_parser_parse StandIns.float_of_str (Raise ConnectionError) = Ok ∅
  /\ @extract_metadata_from_sitemap string string rfs StandIns.ET_fromstring
       StandIns.date_parser_parse StandIns.float_of_str
       (Ok (mkResponse 200 sitemap_two_entries))
     = Ok (<["https://docs.example/a" := mkEntry (Some "2024-01-02") (Some "0.8")]>
           (<["https://docs.example/b" := mkEntry None None]> ∅)).
Proof. split; [reflexivity|]. vm_compute. reflexivity. Qed.

(** C3: a sitemap whose tags do not nest is fetched and then makes the
    function raise [ParseError]. *)
Lemma extract_metadata_parse_error_raises_witness :
  @extract_metadata_from_sitemap string string rfs StandIns.ET_fromstring
     StandIns.date_parser_parse StandIns.float_of_str
     (Ok (mkResponse 200 broken_sitemap))
  = Raise ParseError.
Proof.
  apply (extract_metadata_parse_error_raises rfs StandIns.ET_fromstring
           StandIns.date_parser_parse StandIns.float_of_str
           (mkResponse 200 broken_sitemap) ParseError); [reflexivity|discriminate|reflexivity].
Defined.

(** The stand-in parser, which rejects no input. *)
Local Abbreviation parse := (fun md : string => Ok (StandIns.BeautifulSoup md)).
Local Abbreviation clean := (clean_markdown_content parse StandIns.soup_str).





End Instances.


(* ================================================================== *)
(** * More on [DocScraper.scrape] *)
(* ================================================================== *)

Section ScrapeFrame.
Context {datetime float : Type}.
Variable raise_for_status : Response -> Result unit.
Variable clean_fn : option (string -> Result string).
Variable session_get : nat -> Result Response.
Variable clock : nat -> datetime.
Implicit Types (store : gmap nat (Page datetime float)) (pages : list nat)
  (p : Page datetime float).

Local Abbreviation load_at := (load_at raise_for_status clean_fn session_get clock).
Local Abbreviation scrape_loop := (scrape_loop raise_for_status clean_fn session_get clock).
Local Abbreviation scrape := (scrape raise_for_status clean_fn session_get clock).

Lemma same_discovery_fields_refl p : same_discovery_fields p p.
Proof. repeat split. Qed.

Lemma same_discovery_fields_trans p1 p2 p3 :
  same_discovery_fields p1 p2 -> same_discovery_fields p2 p3 ->
  same_discovery_fields p1 p3.
Proof.
  intros (A1 & A2 & A3 & A4 & A5 & A6 & A7) (B1 & B2 & B3 & B4 & B5 & B6 & B7).
  repeat split; congruence.
Qed.

Lemma load_same_discovery_fields p got now :
  same_discovery_fields p (load raise_for_status p got clean_fn now).1.1.
Proof. unfold load. destruct (fetch_content _ _ _); repeat split. Qed.

Lemma load_at_frame store a i b p :
  store !! b = Some p ->
  exists p', (load_at store a i).1 !! b = Some p' /\ same_discovery_fields p p'.
Proof.
  intros Hb. destruct (decide (a = b)) as [->|Hne].
  - rewrite (load_at_lookup _ _ _ _ _ _ _ p) by done.
    eexists. split; [reflexivity|]. apply load_same_discovery_fields.
  - rewrite load_at_lookup_ne by done. eauto using same_discovery_fields_refl.
Qed.

Lemma load_at_dom store a i : dom (load_at store a i).1 = dom store.
Proof.
  unfold Scrapper.load_at. destruct (store !! a) as [p|] eqn:Hp; [|done].
  destruct (load _ _ _ _ _) as [[p' b] l]. cbn [fst]. rewrite dom_insert_L.
  apply elem_of_dom_2 in Hp. apply subseteq_union_1_L. by apply singleton_subseteq_l.
Qed.

Lemma scrape_loop_step limit i a pages store :
  (scrape_loop limit i (a :: pages) store).1
  = if limit_and_ge limit i then store
    else (scrape_loop limit (S i) pages (load_at store a i).1).1.
Proof.
  destruct (limit_and_ge limit i) eqn:Hl; [|by apply scrape_loop_cons].
  cbn [Scrapper.scrape_loop]. by rewrite Hl.
Qed.

Lemma scrape_loop_frame limit i pages store b p :
  store !! b = Some p ->
  exists p', (scrape_loop limit i pages store).1 !! b = Some p'
             /\ same_discovery_fields p p'.
Proof.
  revert i store p. induction pages as [|a pages IH]; intros i store p Hb.
  - exists p. split; [done|apply same_discovery_fields_refl].
  - rewrite scrape_loop_step. destruct (limit_and_ge limit i).
    + exists p. split; [done|apply same_discovery_fields_refl].
    + destruct (load_at_frame store a i b p Hb) as (p1 & H1 & S1).
      destruct (IH (S i) _ p1 H1) as (p2 & H2 & S2).
      exists p2. split; [done|]. by eapply same_discovery_fields_trans.
Qed.

Lemma scrape_loop_dom limit i pages store :
  dom (scrape_loop limit i pages store).1 = dom store.
Proof.
  revert i store. induction pages as [|a pages IH]; intros i store; [done|].
  rewrite scrape_loop_step. destruct (limit_and_ge limit i); [done|].
  by rewrite IH, load_at_dom.
Qed.

(** X1. Whatever the requests do and whatever the list names (one
    object twice, objects of other lists), [scrape] creates and deletes
    no page object and leaves the fields that discovery set ([url],
    [md_url], [title], [section], [source], [lastmod], [priority]) of
    every page object as they were. *)
Theorem scrape_keeps_discovery_fields pages limit store :
  dom (scrape pages limit store).1.2 = dom store
  /\ forall a p, store !! a = Some p ->
       exists p', (scrape pages limit store).1.2 !! a = Some p'
                  /\ same_discovery_fields p p'.
Proof.
  rewrite scrape_store. split; [apply scrape_loop_dom|].
  intros a p Hp. by apply scrape_loop_frame.
Qed.

End ScrapeFrame.

(* ================================================================== *)
(** * More on [MarkdownChunker] *)
(* ================================================================== *)

Section ChunkContent.
Context {datetime float : Type}.
Variable isoformat : datetime -> string.
Variable header_split_text : string -> list (Document float).
Variable recursive_split_documents : list (Document float) -> list (Document float).
Implicit Types (metadata : gmap string (Val float)) (d sub : Document float)
  (o : option (gmap string (Val float)))
  (sub_chunks header_docs : list (Document float))
  (pages : list (Page datetime float)).

Local Abbreviation chunk := (chunk header_split_text recursive_split_documents).
Local Abbreviation chunk_loop := (chunk_loop recursive_split_documents).
Local Abbreviation chunk_pages :=
  (chunk_pages isoformat header_split_text recursive_split_documents).
Local Abbreviation page_chunks :=
  (page_chunks isoformat header_split_text recursive_split_documents).
(** The windows of all segments, as the two splitters return them. *)
Local Abbreviation windows_of text :=
  (flat_map (fun doc => recursive_split_documents [doc]) (header_split_text text)).

Lemma imap_contents (f : nat -> Document float -> Document float) sub_chunks :
  (forall i c, page_content (f i c) = page_content c) ->
  map page_content (imap f sub_chunks) = map page_content sub_chunks.
Proof.
  revert f. induction sub_chunks as [|c cs IH]; intros f Hf; [reflexivity|].
  cbn [imap map]. rewrite Hf. f_equal. apply IH. intros i c'. apply Hf.
Qed.

Lemma index_sub_chunks_contents o sub_chunks :
  map page_content (index_sub_chunks o sub_chunks) = map page_content sub_chunks.
Proof. unfold index_sub_chunks. by apply imap_contents. Qed.

Lemma chunk_loop_contents o header_docs :
  map page_content (chunk_loop o header_docs)
  = map page_content (flat_map (fun doc => recursive_split_documents [doc]) header_docs).
Proof.
  induction header_docs as [|doc rest IH]; [reflexivity|].
  cbn [Chunker.chunk_loop flat_map]. by rewrite !map_app, index_sub_chunks_contents, IH.
Qed.

(** X2. [chunk] neither edits, drops nor reorders text: for a non-empty
    document the texts of the returned chunks are, in order, the texts
    of the windows the size-bounded splitter returns for each heading
    segment, segment after segment. *)
Theorem chunk_keeps_window_texts text o :
  text <> "" ->
  map page_content (chunk text o).1 = map page_content (windows_of text)
  /\ length (chunk text o).1 = length (windows_of text).
Proof.
  intros H. rewrite chunk_nonempty by done.
  pose proof (chunk_loop_contents o (header_split_text text)) as E.
  split; [exact E|]. by rewrite <- (length_map page_content), E, length_map.
Qed.

Lemma elem_of_index_sub_chunks o sub_chunks d :
  d ∈ index_sub_chunks o sub_chunks ->
  exists i sub, sub_chunks !! i = Some sub
    /\ d = set_chunk_index i (metadata_update sub o).
Proof.
  unfold index_sub_chunks. intros H. apply list_elem_of_lookup in H as [i Hi].
  rewrite list_lookup_imap in Hi. destruct (sub_chunks !! i) as [sub|] eqn:Hs; [|done].
  cbn in Hi. injection Hi as <-. by exists i, sub.
Qed.

Lemma elem_of_chunk_loop o header_docs d :
  d ∈ chunk_loop o header_docs ->
  exists doc i sub, doc ∈ header_docs /\ recursive_split_documents [doc] !! i = Some sub
    /\ d = set_chunk_index i (metadata_update sub o).
Proof.
  induction header_docs as [|doc rest IH]; [by intros ?%elem_of_nil|].
  cbn [Chunker.chunk_loop]. rewrite elem_of_app. intros [H|H].
  - destruct (elem_of_index_sub_chunks _ _ _ H) as (i & sub & Hs & ->).
    exists doc, i, sub. split; [by left|done].
  - destruct (IH H) as (doc' & i & sub & Hd & Hs & ->).
    exists doc', i, sub. split; [by right|done].
Qed.

(** X3. Every chunk [chunk] returns is a window of one heading segment
    with its text unchanged and its metadata extended: it carries every
    entry of the page metadata (an entry of the window under the same
    key is overwritten), the window's own entries under all other keys,
    and under [chunk_index] the position of the window in its segment,
    whatever was stored under that key before. *)
Theorem chunk_metadata_inherits_page text metadata d :
  d ∈ (chunk text (Some metadata)).1 ->
  exists doc i sub,
    doc ∈ header_split_text text
    /\ recursive_split_documents [doc] !! i = Some sub
    /\ page_content d = page_content sub
    /\ Chunker.metadata d !! "chunk_index" = Some (VInt (Z.of_nat i))
    /\ (forall k v, k <> "chunk_index" -> metadata !! k = Some v ->
          Chunker.metadata d !! k = Some v)
    /\ (forall k, k <> "chunk_index" -> metadata !! k = None ->
          Chunker.metadata d !! k = Chunker.metadata sub !! k).
Proof.
  intros H. destruct text as [|c text]; [by apply elem_of_nil in H|].
  cbn [Chunker.chunk truthy_str negb fst] in H.
  destruct (elem_of_chunk_loop _ _ _ H) as (doc & i & sub & Hd & Hs & ->).
  exists doc, i, sub. split; [done|]. split; [done|]. split; [reflexivity|].
  cbn [set_chunk_index metadata_update Chunker.metadata default].
  split; [apply lookup_insert_eq|]. split.
  - intros k v Hk Hm. rewrite lookup_insert_ne by done.
    by apply lookup_union_Some_l.
  - intros k Hk Hm. rewrite lookup_insert_ne by done.
    by apply lookup_union_r.
Qed.

(** X4. Without a limit [chunk_pages] works page by page: the chunks of
    a concatenation of two page lists are the chunks of the first list
    followed by the chunks of the second. *)
Theorem chunk_pages_app pages1 pages2 :
  (chunk_pages (pages1 ++ pages2) None).1
  = (chunk_pages pages1 None).1 ++ (chunk_pages pages2 None).1.
Proof. by rewrite !chunk_pages_docs, !chunk_pages_loop_no_limit, flat_map_app. Qed.

(** X5. Every chunk [chunk_pages] returns can be traced to its page: it
    belongs to a page of the list whose [md] is present and non-empty,
    and its metadata holds that page's [url], [md_url], [source] and
    [loaded] flag, next to an integer [chunk_index]. *)
Theorem chunk_pages_chunk_names_its_page pages limit d :
  d ∈ (chunk_pages pages limit).1 ->
  exists page body,
    page ∈ pages /\ md page = Some body /\ body <> ""
    /\ Chunker.metadata d !! "url" = Some (VStr (url page))
    /\ Chunker.metadata d !! "md_url" = Some (VStr (md_url page))
    /\ Chunker.metadata d !! "source" = Some (VStr (source page))
    /\ Chunker.metadata d !! "loaded" = Some (VBool (loaded page))
    /\ exists i : nat, Chunker.metadata d !! "chunk_index" = Some (VInt (Z.of_nat i)).
Proof.
  rewrite chunk_pages_docs. intros H.
  destruct (chunk_pages_loop_elem _ _ _ _ _ _ _ H) as (page & Hp & Hd).
  destruct (page_chunks_elem _ _ _ _ _ Hd) as (body & Hb & Hne & Hd').
  destruct body as [|c body]; [done|].
  cbn [Chunker.chunk truthy_str negb fst] in Hd'.
  destruct (elem_of_chunk_loop _ _ _ Hd') as (doc & i & sub & _ & _ & ->).
  exists page, (String c body). split; [done|]. split; [done|]. split; [done|].
  cbn [set_chunk_index metadata_update Chunker.metadata default].
  repeat split; try (rewrite lookup_insert_ne by done; by apply lookup_union_Some_l).
  exists i. apply lookup_insert_eq.
Qed.

End ChunkContent.

(* ================================================================== *)
(** * More on the sitemap functions *)
(* ================================================================== *)

Section MergeExact.
Context {datetime float : Type}.
Implicit Types (store : gmap nat (Page datetime float)) (pages : list nat)
  (meta : gmap string (SitemapEntry datetime float)) (p : Page datetime float).

Lemma merge_page_idempotent meta p : merge_page meta (merge_page meta p) = merge_page meta p.
Proof.
  unfold merge_page. destruct (meta !! url p) as [e|] eqn:E.
  - cbn [merged set_priority set_lastmod url]. by rewrite E.
  - by rewrite E.
Qed.

Lemma merge_at_lookup meta store a0 a :
  merge_at meta store a0 !! a
  = if decide (a = a0) then merge_page meta <$> store !! a else store !! a.
Proof.
  unfold merge_at, merge_page. case_decide as Ha.
  - subst a0. destruct (store !! a) as [q|] eqn:Hq; [|by rewrite Hq].
    destruct (meta !! url q) as [e|] eqn:He.
    + rewrite lookup_insert_eq. cbn. by rewrite He.
    + rewrite Hq. cbn. by rewrite He.
  - destruct (store !! a0) as [q|]; [|done].
    destruct (meta !! url q); [|done]. by rewrite lookup_insert_ne.
Qed.

Lemma merge_foldl_lookup meta pages store a :
  foldl (merge_at meta) store pages !! a
  = if decide (a ∈ pages) then merge_page meta <$> store !! a else store !! a.
Proof.
  revert store. induction pages as [|a0 pages IH]; intros store.
  - cbn [foldl]. by rewrite decide_False by apply not_elem_of_nil.
  - cbn [foldl]. rewrite IH, merge_at_lookup.
    destruct (decide (a = a0)) as [->|Hne].
    + rewrite (decide_True (P := a0 ∈ a0 :: pages)) by (by left).
      case_decide; [|done]. destruct (store !! a0) as [q|]; [|done].
      cbn. by rewrite merge_page_idempotent.
    + destruct (decide (a ∈ pages)) as [Hin|Hnin].
      * by rewrite decide_True by (by right).
      * rewrite decide_False; [done|]. by intros [?|?]%elem_of_cons.
Qed.

(** X6. [merge_pages_with_sitemap] does to every page object named in
    the list, however often, exactly this: when the page's URL is a key
    of [meta], [lastmod] and [priority] are overwritten with the
    entry's values, also when the entry holds [None] for a field the
    page had; otherwise the page is left alone. Page objects the list
    does not name are never touched, and [md], [loaded] and
    [scraped_at] of no page change. *)
Theorem merge_overwrites_from_entry pages meta store a p :
  store !! a = Some p ->
  let store' := (merge_pages_with_sitemap pages meta store).2 in
  (a ∉ pages -> store' !! a = Some p)
  /\ (a ∈ pages -> store' !! a = Some (merge_page meta p))
  /\ (forall entry, a ∈ pages -> meta !! url p = Some entry ->
        exists p', store' !! a = Some p'
          /\ lastmod p' = entry_lastmod entry /\ priority p' = entry_priority entry)
  /\ (exists p', store' !! a = Some p' /\ same_fetch_fields p p'
        /\ url p' = url p /\ md_url p' = md_url p /\ title p' = title p
        /\ section p' = section p /\ source p' = source p).
Proof.
  intros Hp store'. subst store'. unfold merge_pages_with_sitemap. cbn [snd].
  rewrite merge_foldl_lookup, Hp. split; [|split; [|split]].
  - intros Hn. by rewrite decide_False.
  - intros Hin. by rewrite decide_True.
  - intros entry Hin He. rewrite decide_True by done. eexists. split; [reflexivity|].
    unfold merge_page. rewrite He. split; reflexivity.
  - destruct (decide (a ∈ pages)); cbn; eexists; (split; [reflexivity|]).
    + unfold merge_page. destruct (meta !! url p); repeat split.
    + repeat split.
Qed.

(** X7. Reconciling twice with the same mapping is reconciling once. *)
Theorem merge_pages_with_sitemap_idempotent pages meta store :
  merge_pages_with_sitemap pages meta (merge_pages_with_sitemap pages meta store).2
  = merge_pages_with_sitemap pages meta store.
Proof.
  unfold merge_pages_with_sitemap. cbn [snd]. f_equal. apply map_eq. intros a.
  rewrite !merge_foldl_lookup. case_decide; [|done].
  destruct (store !! a) as [q|]; [|done]. cbn. by rewrite merge_page_idempotent.
Qed.

End MergeExact.

Section SitemapKeys.
Context {datetime float : Type}.
Variable raise_for_status : Response -> Result unit.
Variable ET_fromstring : string -> Result ET.Element.
Variable date_parser_parse : string -> Result datetime.
Variable float_of_str : string -> Result float.
Implicit Types (meta : gmap string (SitemapEntry datetime float))
  (url_tags : list ET.Element) (ns : option string).

Local Abbreviation sitemap_loop := (sitemap_loop date_parser_parse float_of_str).
Local Abbreviation extract_metadata_from_sitemap :=
  (@extract_metadata_from_sitemap datetime float raise_for_status ET_fromstring
     date_parser_parse float_of_str).

Lemma sitemap_loop_dom ns url_tags meta meta' :
  sitemap_loop ns url_tags meta = Ok meta' ->
  forall key, key ∈ dom meta'
    <-> key ∈ dom meta \/ exists url_tag, url_tag ∈ url_tags /\ entry_key ns url_tag = Some key.
Proof.
  revert meta. induction url_tags as [|t rest IH]; intros meta H key.
  - injection H as <-. split; [by left|]. intros [?|(t & Ht & _)]; [done|].
    by apply elem_of_nil in Ht.
  - cbn [Utils.sitemap_loop] in H. unfold entry_key in *.
    destruct (ET.find ns "loc" t) as [loc_elem|] eqn:Hf; [|done].
    destruct (truthy_opt_str (ET.text loc_elem)) eqn:Ht; cbn [negb] in H.
    + destruct (parse_priority float_of_str ns t) as [pr|e]; [|done]. cbn in H.
      rewrite (IH _ H key), dom_insert, elem_of_union, elem_of_singleton.
      split.
      * intros [[->|?]|(t' & Hin & Hk)]; [right|by left|right].
        -- exists t. split; [by left|]. by rewrite Hf, Ht.
        -- exists t'. split; [by right|done].
      * intros [?|(t' & Hin & Hk)]; [by left; right|].
        apply elem_of_cons in Hin as [->|Hin].
        -- rewrite Hf, Ht in Hk. injection Hk as <-. by left; left.
        -- right. by exists t'.
    + rewrite (IH _ H key). split.
      * intros [?|(t' & Hin & Hk)]; [by left|]. right. exists t'. split; [by right|done].
      * intros [?|(t' & Hin & Hk)]; [by left|].
        apply elem_of_cons in Hin as [->|Hin]; [by rewrite Hf, Ht in Hk|].
        right. by exists t'.
Qed.

(** X8. When [extract_metadata_from_sitemap] returns, the keys of the
    mapping are exactly the stripped [loc] texts of the url entries of
    the parsed document whose [loc] text is not empty: an entry with an
    empty [loc] is skipped, an entry with a malformed date or priority
    is kept. A failed request or an empty body gives no key. *)
Theorem extract_metadata_keys got meta' :
  extract_metadata_from_sitemap got = Ok meta' ->
  forall key, key ∈ dom meta'
    <-> exists body root url_tag,
          safe_request raise_for_status got = Some body /\ body <> ""
          /\ ET_fromstring body = Ok root
          /\ url_tag ∈ ET.findall (namespace_of (ET.tag root)) "url" root
          /\ entry_key (namespace_of (ET.tag root)) url_tag = Some key.
Proof.
  unfold Utils.extract_metadata_from_sitemap. intros H key.
  destruct (safe_request raise_for_status got) as [body|].
  - destruct body as [|c body]; cbn [truthy_str negb] in H.
    + injection H as <-. split; [done|]. by intros (b & r & t & [= <-] & Hne & _).
    + destruct (ET_fromstring (String c body)) as [root|e] eqn:Hr; [|done]. cbn in H.
      rewrite (sitemap_loop_dom _ _ _ _ H key). split.
      * intros [?|(t & Hin & Hk)]; [done|]. by exists (String c body), root, t.
      * intros (b & r & t & [= <-] & _ & Hr' & Hin & Hk). rewrite Hr in Hr'.
        injection Hr' as <-. right. by exists t.
  - injection H as <-. split; [done|]. by intros (b & r & t & [=] & _).
Qed.

Hypothesis float_raises_ValueError :
  forall s e, float_of_str s = Raise e -> e = ValueError.

Lemma parse_priority_returns ns url_tag :
  exists pr, parse_priority float_of_str ns url_tag = Ok pr.
Proof.
  unfold parse_priority. destruct (ET.find ns "priority" url_tag) as [el|]; [|eauto].
  destruct (truthy_opt_str _); [|eauto].
  destruct (float_of_str _) as [f|e] eqn:E; [eauto|].
  rewrite (float_raises_ValueError _ _ E). eauto.
Qed.

Lemma sitemap_loop_raises ns url_tags meta :
  (Exists (fun t => ET.find ns "loc" t = None) url_tags ->
     sitemap_loop ns url_tags meta = Raise AttributeError)
  /\ (Forall (fun t => ET.find ns "loc" t <> None) url_tags ->
        exists meta', sitemap_loop ns url_tags meta = Ok meta').
Proof.
  revert meta. induction url_tags as [|t rest IH]; intros meta.
  - split; [by intros ?%Exists_nil|]. intros _. by exists meta.
  - cbn [Utils.sitemap_loop]. destruct (ET.find ns "loc" t) as [loc_elem|] eqn:Hf.
    + destruct (parse_priority_returns ns t) as [pr Hpr]. rewrite Hpr. cbn.
      destruct (truthy_opt_str (ET.text loc_elem)); cbn [negb]; split.
      * intros [?|?]%Exists_cons; [congruence|]. by apply IH.
      * intros [_ ?]%Forall_cons. by apply IH.
      * intros [?|?]%Exists_cons; [congruence|]. by apply IH.
      * intros [_ ?]%Forall_cons. by apply IH.
    + split; [done|]. intros [? _]%Forall_cons. done.
Qed.

(** X9. Once the sitemap is fetched and parsed, the function raises
    exactly when some url entry has no [loc] child, and what it raises
    then is [AttributeError] ([loc_elem.text] on [None]); otherwise it
    returns a mapping. ([float] raises nothing but [ValueError].) *)
Theorem extract_metadata_raises_on_missing_loc resp root :
  raise_for_status resp = Ok () ->
  Models.text resp <> "" ->
  ET_fromstring (Models.text resp) = Ok root ->
  let url_tags := ET.findall (namespace_of (ET.tag root)) "url" root in
  (Exists (fun t => ET.find (namespace_of (ET.tag root)) "loc" t = None) url_tags ->
     extract_metadata_from_sitemap (Ok resp) = Raise AttributeError)
  /\ (Forall (fun t => ET.find (namespace_of (ET.tag root)) "loc" t <> None) url_tags ->
        exists meta', extract_metadata_from_sitemap (Ok resp) = Ok meta').
Proof.
  intros Hs Ht Hr url_tags. unfold Utils.extract_metadata_from_sitemap, safe_request.
  cbn. rewrite Hs. cbn. destruct (Models.text resp) eqn:E; [done|].
  cbn. rewrite Hr. cbn. apply sitemap_loop_raises.
Qed.

End SitemapKeys.

Section NamespaceFacts.

Lemma string_length_append u r :
  String.length (u +:+ r) = String.length u + String.length r.
Proof.
  induction u as [|c u IH]; [reflexivity|].
  change (S (String.length (u +:+ r)) = S (String.length u + String.length r)).
  by rewrite IH.
Qed.

Lemma substring_prefix u r : String.substring 0 (String.length u) (u +:+ r) = u.
Proof.
  induction u as [|c u IH]; [by destruct r|].
  change (String c (String.substring 0 (String.length u) (u +:+ r)) = String c u).
  by rewrite IH.
Qed.

Lemma find_char_first c u r :
  contains_char c u = false ->
  find_char c (u +:+ String c r) = Z.of_nat (String.length u).
Proof.
  induction u as [|a u IH]; intros H.
  - change (find_char c (String c r) = 0%Z). cbn [find_char]. by rewrite Ascii.eqb_refl.
  - cbn [contains_char] in H. destruct (Ascii.eqb a c) eqn:E; [done|].
    change (find_char c (String a (u +:+ String c r)) = Z.of_nat (S (String.length u))).
    cbn [find_char]. rewrite E, IH by done.
    destruct (Z.of_nat (String.length u)) eqn:En; lia.
Qed.

Lemma slice_inner s (a b : Z) :
  (0 <= a <= b)%Z /\ (b <= Z.of_nat (String.length s))%Z ->
  slice s a b = String.substring (Z.to_nat a) (Z.to_nat b - Z.to_nat a) s.
Proof.
  intros [[Ha Hab] Hb]. unfold slice, slice_bound.
  replace (a <? 0)%Z with false by (symmetry; apply Z.ltb_ge; lia).
  replace (b <? 0)%Z with false by (symmetry; apply Z.ltb_ge; lia).
  by rewrite !Z.min_r by lia.
Qed.

(** X10. The sitemap may or may not declare a namespace, and both are
    handled: from the root tag [{uri}name] the prefix map is [uri], so
    that the paths [ns:url], [ns:loc], ... name the tags [{uri}url],
    [{uri}loc], ... of the same namespace; from a root tag without a
    brace the map is empty and the paths are the bare names. *)
Theorem namespace_of_root_tag (uri name child tag : string) :
  contains_char "{" uri = false -> contains_char "}" uri = false ->
  contains_char "{" tag = false ->
  namespace_of (ET.qualified (Some uri) name) = Some uri
  /\ ET.qualified (namespace_of (ET.qualified (Some uri) name)) child
     = "{" +:+ uri +:+ "}" +:+ child
  /\ namespace_of tag = None
  /\ ET.qualified (namespace_of tag) child = child.
Proof.
  intros Ho Hc Ht.
  assert (E : namespace_of (ET.qualified (Some uri) name) = Some uri).
  { unfold namespace_of, ET.qualified.
    change ("{" +:+ uri +:+ "}" +:+ name) with (String "{" (uri +:+ String "}" name)).
    cbn [contains_char]. change (Ascii.eqb "{" "{") with true. cbn iota. f_equal.
    assert (F1 : find_char "{" (String "{" (uri +:+ String "}" name)) = 0%Z) by reflexivity.
    assert (F2 : find_char "}" (String "{" (uri +:+ String "}" name))
                 = (Z.of_nat (String.length uri) + 1)%Z).
    { cbn [find_char]. change (Ascii.eqb "{" "}") with false. cbn iota.
      rewrite find_char_first by done.
      destruct (Z.of_nat (String.length uri)) eqn:En; lia. }
    rewrite F1, F2. rewrite slice_inner.
    - replace (Z.to_nat (0 + 1)) with 1 by lia.
      replace (Z.to_nat (Z.of_nat (String.length uri) + 1) - 1) with (String.length uri) by lia.
      apply (substring_prefix uri (String "}" name)).
    - cbn [String.length]. rewrite string_length_append. cbn [String.length]. lia. }
  split; [exact E|]. split; [by rewrite E|].
  assert (E' : namespace_of tag = None) by (unfold namespace_of; by rewrite Ht).
  split; [exact E'|]. by rewrite E'.
Qed.

End NamespaceFacts.

(* ================================================================== *)
(** * More on [clean_markdown_content] *)
(* ================================================================== *)

Section CleanMore.
Variable BeautifulSoup : string -> Result Bs4.Node.
Variable soup_str : Bs4.Node -> string.

Lemma lstrip_rstrip_lstrip s : lstrip (rstrip (lstrip s)) = rstrip (lstrip s).
Proof.
  destruct (lstrip_head s) as [->|(c & r & -> & Hc)]; [reflexivity|].
  rewrite rstrip_cons by done. cbn [lstrip]. by rewrite Hc.
Qed.

Lemma strip_trimmed s : trimmed (strip s).
Proof.
  unfold trimmed, strip. split; [apply lstrip_rstrip_lstrip|apply rstrip_idempotent].
Qed.

(** X11. The text [clean_markdown_content] returns never starts or
    ends with whitespace, whatever the input and whatever BeautifulSoup
    prints; so the [md] a successful [Page.load] stores when it is
    given this function as [clean_fn] is trimmed. *)
Theorem clean_output_is_trimmed {datetime float : Type}
    (raise_for_status : Response -> Result unit)
    (self : Page datetime float) (got : Result Response) (now : datetime) (x : string) :
  let clean := clean_markdown_content BeautifulSoup soup_str in
  (forall y, clean x = Ok y -> trimmed y)
  /\ forall body,
       md (load raise_for_status self got (Some clean) now).1.1 = Some body ->
       loaded (load raise_for_status self got (Some clean) now).1.1 = true ->
       trimmed body.
Proof.
  intros clean.
  assert (forall x y, clean x = Ok y -> trimmed y) as Hc.
  { intros x' y. unfold clean, clean_markdown_content.
    destruct (convert_html_tables_to_markdown _ _ _) as [t|e]; cbn; [|done].
    intros [= <-]. apply strip_trimmed. }
  split; [apply Hc|].
  unfold load. destruct (fetch_content _ _ _) as [content|e] eqn:E; [|discriminate].
  cbn. intros body [= <-] _. unfold fetch_content in E.
  destruct got as [r|e]; [|discriminate]. cbn in E.
  destruct (raise_for_status r); [|discriminate]. cbn in E.
  by apply (Hc (text r)).
Qed.

Lemma sub_scan_sublist items prev s skip :
  sublist (list_ascii_of_string (Re.sub_scan items prev s skip)) (list_ascii_of_string s).
Proof.
  revert prev skip. induction s as [|a s IH]; intros prev skip; [constructor|].
  cbn [Re.sub_scan list_ascii_of_string]. destruct skip as [|n].
  - destruct (Re.match_items items prev (String a s)) as [r|].
    + destruct (String.length (String a s) - String.length r) as [|n].
      * cbn [list_ascii_of_string]. apply sublist_skip, IH.
      * apply sublist_cons, IH.
    + cbn [list_ascii_of_string]. apply sublist_skip, IH.
  - apply sublist_cons, IH.
Qed.

(** X12. The first step of [clean_markdown_content], the removal of
    the directive lines, only deletes characters: its result is a
    subsequence of its input, so it is never longer, and it is the
    input itself when the input has no opening brace. *)
Theorem directive_removal_only_deletes (x : string) :
  let y := Re.sub_empty GITBOOK_TAG_LINE x in
  sublist (list_ascii_of_string y) (list_ascii_of_string x)
  /\ String.length y <= String.length x
  /\ (contains_char "{" x = false -> y = x).
Proof.
  intros y. subst y. unfold Re.sub_empty.
  pose proof (sub_scan_sublist GITBOOK_TAG_LINE None x 0) as H.
  split; [exact H|]. split; [|apply sub_scan_no_brace].
  apply sublist_length in H.
  assert (L : forall s, length (list_ascii_of_string s) = String.length s).
  { induction s as [|c s IHs]; [reflexivity|]. cbn. by rewrite IHs. }
  by rewrite !L in H.
Qed.

End CleanMore.

Section ConvertFrame.
Import Bs4.

Lemma converted_outside path soup n :
  outside_tables path soup = Some n ->
  node_at path (converted soup) = Some (converted n).
Proof.
  revert soup. induction path as [|i p IH]; intros soup.
  - cbn. by intros [= ->].
  - destruct soup as [s|nm a cs]; [done|].
    cbn [outside_tables node_at converted]. rewrite list_lookup_fmap.
    destruct (cs !! i) as [c|]; [|done]. cbn [fmap option_fmap option_map].
    destruct (is_tag "table" c); [done|]. apply IH.
Qed.

(** X13. The table conversion preserves the document around the
    tables: a text node that is not inside a table is, at the same
    position, the same text after the conversion, and a tag that is not
    a table and not inside one keeps its position, its name, its
    attributes and the number of its children. *)
Theorem convert_tables_preserves_outside path soup :
  (forall s, outside_tables path soup = Some (NavigableString s) ->
     node_at path (convert_tables soup) = Some (NavigableString s))
  /\ (forall nm a cs, outside_tables path soup = Some (Tag nm a cs) ->
        exists cs', node_at path (convert_tables soup) = Some (Tag nm a cs')
                    /\ length cs' = length cs).
Proof.
  rewrite convert_tables_converted. split.
  - intros s H. by rewrite (converted_outside path soup _ H).
  - intros nm a cs H. rewrite (converted_outside path soup _ H).
    cbn [converted]. eexists. split; [reflexivity|]. by rewrite length_map.
Qed.

End ConvertFrame.

(* ================================================================== *)
(** * Properties of the request validation and the metadata conversion *)
(* ================================================================== *)

Section AppFacts.

Lemma validate_question_iff (v w : string) :
  validate_question v = inr w
  <-> w = strip v /\ 5 <= String.length (strip v) <= 500.
Proof.
  unfold validate_question. destruct (strip v) as [|c s] eqn:Es.
  - cbn. split; [done|]. intros [_ [H _]]. cbn in H. lia.
  - cbn [truthy_str negb]. destruct (Nat.ltb_spec (String.length (String c s)) 5).
    + split; [done|]. intros [_ ?]. lia.
    + destruct (Nat.ltb_spec 500 (String.length (String c s))).
      * split; [done|]. intros [_ ?]. lia.
      * split; [intros [= <-]; split; [done|lia]|]. by intros [-> _].
Qed.

(** X14. [validate_question] accepts a question exactly when its
    stripped text has between 5 and 500 characters, and then returns
    the stripped text; what it returns is trimmed and is accepted
    unchanged when validated again. A question of whitespace only is
    rejected as empty, not as too short. *)
Theorem validate_question_accepts (v w : string) :
  (validate_question v = inr w
   <-> w = strip v /\ 5 <= String.length (strip v) <= 500)
  /\ (validate_question v = inr w -> trimmed w /\ validate_question w = inr w)
  /\ (strip v = "" -> validate_question v = inl "Question cannot be empty.").
Proof.
  split; [apply validate_question_iff|]. split.
  - intros H. apply validate_question_iff in H as [-> Hlen]. split; [apply strip_trimmed|].
    apply validate_question_iff. by rewrite strip_idempotent.
  - intros H. unfold validate_question. by rewrite H.
Qed.

End AppFacts.

Section FromRawFacts.
Context {datetime float : Type}.
Variable fromisoformat : string -> Result datetime.
Implicit Types (metadata : gmap string (Val float)).

Local Abbreviation from_raw := (@from_raw datetime float fromisoformat).

Lemma base_of_lookup metadata k :
  @base_of datetime float metadata !! k
  = if decide (k ∈ known_fields) then Raw <$> metadata !! k else None.
Proof.
  unfold base_of. rewrite lookup_fmap. case_decide as Hk.
  - destruct (metadata !! k) as [v|] eqn:Hv.
    + by rewrite (map_lookup_filter_Some_2 _ _ k v).
    + rewrite map_lookup_filter_None_2; [done|]. by left.
  - rewrite map_lookup_filter_None_2; [done|]. right. intros v _. exact Hk.
Qed.

Lemma extra_of_lookup metadata k :
  extra_of metadata !! k
  = if decide (k ∈ known_fields) then None else metadata !! k.
Proof.
  unfold extra_of. case_decide as Hk.
  - rewrite map_lookup_filter_None_2; [done|]. right. intros v _ Hn. by apply Hn.
  - destruct (metadata !! k) as [v|] eqn:Hv.
    + by rewrite (map_lookup_filter_Some_2 _ _ k v).
    + rewrite map_lookup_filter_None_2; [done|]. by left.
Qed.

Lemma normalize_lastmod_lookup (base base' : gmap string (BaseVal datetime float)) k :
  normalize_lastmod fromisoformat base = Ok base' ->
  k <> "lastmod" -> base' !! k = base !! k.
Proof.
  unfold normalize_lastmod. intros H Hk.
  destruct (base !! "lastmod") as [[[| s | | |]|]|]; try (by injection H as <-).
  destruct (fromisoformat s) as [d|[]]; try done; injection H as <-;
    by rewrite lookup_insert_ne.
Qed.

(** X15. [from_raw] loses no metadata entry and duplicates none: when
    it returns, an entry under one of the five known keys is in [base]
    and not in [extra], every other entry is in [extra] and not in
    [base], and a key the raw metadata does not have is in neither.
    The values are the raw ones, except for [lastmod]: a string there
    is replaced by the parsed date, or by [None] when it is malformed
    (the [ValueError] is swallowed). *)
Theorem from_raw_partitions metadata base extra :
  from_raw metadata = Ok (base, extra) ->
  (forall k, k <> "lastmod" -> k ∈ known_fields ->
     base !! k = Raw <$> metadata !! k /\ extra !! k = None)
  /\ (forall k, k ∉ known_fields -> base !! k = None /\ extra !! k = metadata !! k)
  /\ (is_Some (base !! "lastmod") <-> is_Some (metadata !! "lastmod"))
  /\ extra !! "lastmod" = None
  /\ (forall s, metadata !! "lastmod" = Some (VStr s) ->
        match fromisoformat s with
        | Ok d => base !! "lastmod" = Some (Parsed d)
        | Raise _ => base !! "lastmod" = Some (Raw VNone)
        end)
  /\ (forall v, metadata !! "lastmod" = Some v -> (forall s, v <> VStr s) ->
        base !! "lastmod" = Some (Raw v)).
Proof.
  unfold App.from_raw. intros H.
  destruct (normalize_lastmod fromisoformat (base_of metadata)) as [b|e] eqn:Hn; [|done].
  cbn in H. injection H as <- <-.
  assert (Hl : @base_of datetime float metadata !! "lastmod" = Raw <$> metadata !! "lastmod").
  { rewrite base_of_lookup. by rewrite decide_True by (by vm_compute). }
  split; [|split; [|split; [|split; [|split]]]].
  - intros k Hk Hin. rewrite (normalize_lastmod_lookup _ _ _ Hn Hk), base_of_lookup,
      extra_of_lookup. by rewrite !decide_True.
  - intros k Hk. assert (k <> "lastmod") by (intros ->; apply Hk; by vm_compute).
    rewrite (normalize_lastmod_lookup _ _ _ Hn) by done.
    rewrite base_of_lookup, extra_of_lookup. by rewrite !decide_False.
  - unfold normalize_lastmod in Hn. rewrite Hl in Hn.
    destruct (metadata !! "lastmod") as [v|] eqn:Hv; cbn in Hn.
    + split; [eauto|]. intros _. destruct v; try (injection Hn as <-; rewrite Hl; by eauto).
      destruct (fromisoformat s) as [d|[]]; try done; injection Hn as <-;
        rewrite lookup_insert_eq; eauto.
    + injection Hn as <-. rewrite Hl. cbn. split; by intros [? ?].
  - rewrite extra_of_lookup. by rewrite decide_True by (by vm_compute).
  - intros s Hs. unfold normalize_lastmod in Hn. rewrite Hl, Hs in Hn. cbn in Hn.
    destruct (fromisoformat s) as [d|[]]; try done; injection Hn as <-;
      by rewrite lookup_insert_eq.
  - intros v Hv Hns. unfold normalize_lastmod in Hn. rewrite Hl, Hv in Hn. cbn in Hn.
    destruct v; try (injection Hn as <-; by rewrite Hl, Hv). by destruct (Hns s).
Qed.

End FromRawFacts.

(* ================================================================== *)
(** * Properties of [ChromaStore.build] *)
(* ================================================================== *)

Section BuildFacts.
Context {float : Type}.
Implicit Types (docs batch : list (Document float)).

Lemma range_from_bound fuel i stop step :
  Forall (fun j => i <= j < stop) (range_from fuel i stop step).
Proof.
  revert i. induction fuel as [|fuel IH]; intros i; [constructor|].
  cbn [range_from]. destruct (Nat.ltb_spec i stop); [|constructor].
  constructor; [lia|]. eapply Forall_impl; [apply IH|]. cbn. lia.
Qed.

Lemma range_from_concat docs fuel i (step : nat) :
  1 <= step -> length docs - i <= fuel ->
  concat (map (fun j => take step (drop j docs)) (range_from fuel i (length docs) step))
  = drop i docs.
Proof.
  intros Hs. revert i. induction fuel as [|fuel IH]; intros i Hf.
  - cbn. symmetry. apply drop_ge. lia.
  - cbn [range_from]. destruct (Nat.ltb_spec i (length docs)).
    + cbn [map concat]. rewrite IH by lia. rewrite <- drop_drop. apply take_drop.
    + cbn. symmetry. by apply drop_ge.
Qed.

Lemma range_from_length fuel i stop (step : nat) :
  1 <= step -> stop - i <= fuel ->
  stop - i <= length (range_from fuel i stop step) * step
  /\ length (range_from fuel i stop step) * step < stop - i + step.
Proof.
  intros Hs. revert i. induction fuel as [|fuel IH]; intros i Hf.
  - cbn. lia.
  - cbn [range_from]. destruct (Nat.ltb_spec i stop); [|cbn; lia].
    cbn [length]. destruct (IH (i + step)) as [H1 H2]; [lia|]. split; [lia|].
    destruct (Nat.le_gt_cases stop (i + step)); [|lia].
    replace (stop - (i + step)) with 0 in * by lia.
    assert (length (range_from fuel (i + step) stop step) = 0) by nia. nia.
Qed.

Lemma range0_pos total (batch_size : Z) :
  (1 <= batch_size)%Z ->
  range0 total batch_size = Ok (range_from total 0 total (Z.to_nat batch_size)).
Proof.
  intros H. unfold range0.
  replace (batch_size =? 0)%Z with false by (symmetry; apply Z.eqb_neq; lia).
  by replace (batch_size <? 0)%Z with false by (symmetry; apply Z.ltb_ge; lia).
Qed.

Lemma build_batches_cover_aux docs (batch_size : Z) :
  (1 <= batch_size)%Z ->
  concat (map (batch_at docs batch_size)
              (range_from (length docs) 0 (length docs) (Z.to_nat batch_size)))
  = docs.
Proof.
  intros Hb. unfold batch_at. rewrite range_from_concat by lia. apply drop_0.
Qed.


Variable Store : Type.
Variable from_documents : list (Document float) -> Result Store.
Variable add_documents : Store -> list (Document float) -> Result Store.
(** The documents of a collection, in insertion order. *)
Variable contents : Store -> list (Document float).

Local Abbreviation build := (build Store from_documents add_documents).
Local Abbreviation build_loop := (build_loop Store from_documents add_documents).

Hypothesis from_documents_contents :
  forall batch, exists st, from_documents batch = Ok st /\ contents st = batch.
Hypothesis add_documents_contents :
  forall st batch, exists st',
    add_documents st batch = Ok st' /\ contents st' = contents st ++ batch.

Lemma build_loop_contents docs (batch_size : Z) starts st :
  exists st', build_loop docs batch_size starts (Some st) = Ok (Some st')
    /\ contents st'
       = contents st ++ concat (map (batch_at docs batch_size) starts).
Proof.
  revert st. induction starts as [|i rest IH]; intros st.
  - exists st. split; [done|]. cbn. by rewrite app_nil_r.
  - cbn [ChromaStore.build_loop].
    destruct (add_documents_contents st (batch_at docs batch_size i)) as (s1 & -> & H1).
    cbn. destruct (IH s1) as (s2 & -> & H2). exists s2. split; [done|].
    rewrite H2, H1. cbn [map concat]. by rewrite app_assoc.
Qed.

(** X17. When the store takes every batch, [build] on a non-empty
    document list with a batch size of at least 1 returns a collection
    that holds the documents of the list, each once and in the order of
    the list, whatever the batch size. *)
Theorem build_stores_every_document docs (batch_size : Z) :
  (1 <= batch_size)%Z -> docs <> [] ->
  exists st, build docs batch_size = Ok (Some st) /\ contents st = docs.
Proof.
  intros Hb Hd. unfold ChromaStore.build. destruct docs as [|d docs']; [done|].
  set (docs := d :: docs') in *. rewrite range0_pos by done. cbn [mbind result_bind].
  pose proof (build_batches_cover_aux docs batch_size Hb) as Hc.
  destruct (range_from (length docs) 0 (length docs) (Z.to_nat batch_size))
    as [|i rest] eqn:Er.
  - cbn in Hc. subst docs. done.
  - cbn [ChromaStore.build_loop].
    destruct (from_documents_contents (batch_at docs batch_size i)) as (s1 & -> & H1).
    cbn. destruct (build_loop_contents docs batch_size rest s1) as (s2 & -> & H2).
    exists s2. split; [done|]. rewrite H2, H1. exact Hc.
Qed.

End BuildFacts.

Section BuildErrors.
Context {float : Type}.
Variable Store : Type.
Variable from_documents : list (Document float) -> Result Store.
Variable add_documents : Store -> list (Document float) -> Result Store.

(** X18. The edges of [build]: an empty document list builds nothing
    and returns [None] without calling the store; a batch size of 0
    raises [ValueError] (the step of [range]); a negative batch size
    embeds nothing and returns [None]; and an exception of the store on
    the first batch leaves [build] as it is, no collection returned. *)
Theorem build_edge_cases (docs : list (Document float)) (batch_size : Z) (e : Exn) :
  docs <> [] ->
  build Store from_documents add_documents [] batch_size = Ok None
  /\ build Store from_documents add_documents docs 0 = Raise ValueError
  /\ ((batch_size < 0)%Z ->
        build Store from_documents add_documents docs batch_size = Ok None)
  /\ ((1 <= batch_size)%Z ->
        from_documents (take (Z.to_nat batch_size) docs) = Raise e ->
        build Store from_documents add_documents docs batch_size = Raise e).
Proof.
  intros Hd. destruct docs as [|d docs']; [done|]. split; [reflexivity|].
  split; [reflexivity|]. split.
  - intros Hn. unfold ChromaStore.build, range0.
    replace (batch_size =? 0)%Z with false by (symmetry; apply Z.eqb_neq; lia).
    by replace (batch_size <? 0)%Z with true by (symmetry; apply Z.ltb_lt; lia).
  - intros Hb He. unfold ChromaStore.build. rewrite range0_pos by done.
    cbn [length range_from]. cbn [Nat.ltb Nat.leb mbind result_bind ChromaStore.build_loop].
    unfold batch_at. rewrite drop_0, He. reflexivity.
Qed.

End BuildErrors.

(* ================================================================== *)
(** * Properties of the manifest link pattern and of discovery *)
(* ================================================================== *)

Section LinkPattern.
Import ReGroups Discovery PyStr.

Lemma feed_opened a (opened closed : list string) :
  feed a (opened, closed) = (map (fun acc => acc +:+ String a "") opened, closed).
Proof. reflexivity. Qed.

Lemma map_append_empty (opened : list string) :
  map (fun acc => acc +:+ "") opened = opened.
Proof.
  induction opened as [|x l IH]; [done|]. simpl. by rewrite append_empty_r, IH.
Qed.

(** A run of [cls+] that succeeds took some prefix [w] of the text, all
    of it in the class, and the rest of the pattern matched after it. *)
Lemma plus_loop_sound c k opened closed s res :
  plus_loop (not_char c) k (opened, closed) s = Some res ->
  exists w s2, s = w +:+ s2 /\ contains_char c w = false
    /\ k (map (fun acc => acc +:+ w) opened, closed) s2 = Some res.
Proof.
  revert opened. induction s as [|b s IH]; intros opened H.
  - exists "", "". split; [done|]. split; [done|].
    simpl in H. by rewrite map_append_empty.
  - simpl in H. destruct (not_char c b) eqn:Eb.
    + destruct (plus_loop (not_char c) k (feed b (opened, closed)) s) as [r|] eqn:E.
      * injection H as <-. rewrite feed_opened in E. apply IH in E as (w & s2 & -> & Hw & Hk).
        exists (String b w), s2. split; [done|]. split.
        { simpl. unfold not_char in Eb. destruct (Ascii.eqb b c); [done|exact Hw]. }
        rewrite map_map in Hk. erewrite map_ext; [exact Hk|].
        intros acc. simpl. by rewrite append_snoc_cons.
      * exists "", (String b s). split; [done|]. split; [done|].
        by rewrite map_append_empty.
    + exists "", (String b s). split; [done|]. split; [done|].
      by rewrite map_append_empty.
Qed.

Lemma match_lit c k st s res :
  match_groups (GLit c :: k) st s = Some res ->
  exists s', s = String c s' /\ match_groups k (feed c st) s' = Some res.
Proof.
  simpl. destruct s as [|a s]; [done|]. destruct (Ascii.eqb_spec a c) as [->|]; [|done].
  intros H. by exists s.
Qed.

Lemma match_plus c k opened closed s res :
  match_groups (GPlus (not_char c) :: k) (opened, closed) s = Some res ->
  exists a w s2, s = String a (w +:+ s2) /\ contains_char c (String a w) = false
    /\ match_groups k (map (fun acc => acc +:+ String a w) opened, closed) s2 = Some res.
Proof.
  simpl. destruct s as [|a s]; [done|]. destruct (not_char c a) eqn:Ea; [|done].
  intros H. rewrite feed_opened in H. apply plus_loop_sound in H as (w & s2 & -> & Hw & Hk).
  exists a, w, s2. split; [done|]. split.
  { simpl. unfold not_char in Ea. destruct (Ascii.eqb a c); [done|exact Hw]. }
  rewrite map_map in Hk. erewrite map_ext; [exact Hk|].
  intros acc. simpl. by rewrite append_snoc_cons.
Qed.

Lemma match_open k opened closed s :
  match_groups (GOpen :: k) (opened, closed) s = match_groups k ("" :: opened, closed) s.
Proof. reflexivity. Qed.

Lemma match_close k acc opened closed s :
  match_groups (GClose :: k) (acc :: opened, closed) s
  = match_groups k (opened, closed ++ [acc]) s.
Proof. reflexivity. Qed.

(** A match of the link pattern is the text of a link. *)
Lemma llms_link_sound s r groups :
  match_groups LLMS_LINK ([], []) s = Some (r, groups) ->
  exists title mid,
    groups = [title; "/" +:+ mid +:+ ".md"]
    /\ s = link_text title ("/" +:+ mid +:+ ".md") +:+ r
    /\ title <> "" /\ contains_char "]" title = false
    /\ mid <> "" /\ contains_char ")" mid = false.
Proof.
  unfold LLMS_LINK. intros H.
  apply match_lit in H as (s1 & -> & H). apply match_lit in H as (s2 & -> & H).
  apply match_lit in H as (s3 & -> & H).
  rewrite !feed_opened, match_open in H. cbn [map] in H.
  apply match_plus in H as (a & w & s4 & -> & Hw & H).
  cbn [map] in H. rewrite match_close in H. cbn [app] in H.
  apply match_lit in H as (s5 & -> & H). apply match_lit in H as (s6 & -> & H).
  rewrite !feed_opened, match_open in H. cbn [map] in H.
  apply match_lit in H as (s7 & -> & H).
  rewrite feed_opened in H. cbn [map] in H.
  apply match_plus in H as (b & v & s8 & -> & Hv & H).
  cbn [map] in H.
  apply match_lit in H as (s9 & -> & H). apply match_lit in H as (s10 & -> & H).
  apply match_lit in H as (s11 & -> & H).
  rewrite !feed_opened in H. cbn [map] in H. rewrite match_close in H. cbn [app] in H.
  apply match_lit in H as (s12 & -> & H).
  rewrite feed_opened in H. cbn [match_groups map fst snd] in H. injection H as <- <-.
  exists (String a w), (String b v). split.
  { f_equal. f_equal. change ("" +:+ String a w) with (String a w).
    change (("" +:+ "/") +:+ String b v) with ("/" +:+ String b v).
    rewrite !string_append_assoc. reflexivity. }
  split.
  { unfold link_text. rewrite !string_append_assoc. reflexivity. }
  done.
Qed.


Lemma not_char_head c a w : contains_char c (String a w) = false ->
  not_char c a = true /\ contains_char c w = false.
Proof.
  simpl. unfold not_char. destruct (Ascii.eqb a c); [done|]. by intros ->.
Qed.

(** When the rest of the pattern fails after every prefix of a run, the
    loop fails. [s2] is empty or starts with the excluded character. *)
Lemma plus_loop_all_fail c k opened closed u s2 :
  contains_char c u = false ->
  (forall st, plus_loop (not_char c) k st s2 = k st s2) ->
  (forall u1 u2, u = u1 +:+ u2 ->
     k (map (fun acc => acc +:+ u1) opened, closed) (u2 +:+ s2) = None) ->
  plus_loop (not_char c) k (opened, closed) (u +:+ s2) = None.
Proof.
  intros Hu Hs2. revert opened. induction u as [|b u IH]; intros opened Hk.
  - change ("" +:+ s2) with s2. rewrite Hs2.
    specialize (Hk "" "" eq_refl). by rewrite map_append_empty in Hk.
  - apply not_char_head in Hu as [Hb Hu].
    change (String b u +:+ s2) with (String b (u +:+ s2)).
    cbn [plus_loop]. rewrite Hb, feed_opened, IH; [| exact Hu |].
    + specialize (Hk "" (String b u) eq_refl). by rewrite map_append_empty in Hk.
    + intros u1 u2 ->. rewrite map_map.
      specialize (Hk (String b u1) u2 eq_refl).
      erewrite map_ext; [exact Hk|]. intros acc. simpl. by rewrite append_snoc_cons.
Qed.

(** The greedy run takes [w +:+ u] and gives [u] back, one character at
    a time, when the rest of the pattern fails after every longer prefix
    and matches after [w]. *)
Lemma plus_loop_backtrack c k opened closed w u s2 res :
  contains_char c w = false -> contains_char c u = false ->
  (forall st, plus_loop (not_char c) k st s2 = k st s2) ->
  (forall u1 u2, u = u1 +:+ u2 -> u1 <> "" ->
     k (map (fun acc => acc +:+ (w +:+ u1)) opened, closed) (u2 +:+ s2) = None) ->
  k (map (fun acc => acc +:+ w) opened, closed) (u +:+ s2) = Some res ->
  plus_loop (not_char c) k (opened, closed) (w +:+ (u +:+ s2)) = Some res.
Proof.
  intros Hw Hu Hs2. revert opened. induction w as [|b w IH]; intros opened Hfail Hk.
  - change ("" +:+ (u +:+ s2)) with (u +:+ s2). rewrite map_append_empty in Hk.
    destruct u as [|b u].
    + change ("" +:+ s2) with s2 in *. by rewrite Hs2.
    + apply not_char_head in Hu as [Hb Hu].
      change (String b u +:+ s2) with (String b (u +:+ s2)) in *.
      cbn [plus_loop]. rewrite Hb, feed_opened, plus_loop_all_fail; [exact Hk| exact Hu | exact Hs2 |].
      intros u1 u2 ->. specialize (Hfail (String b u1) u2 eq_refl).
      rewrite map_map. erewrite map_ext; [apply Hfail; done|]. intros acc. simpl.
      by rewrite append_snoc_cons.
  - apply not_char_head in Hw as [Hb Hw].
    change (String b w +:+ (u +:+ s2)) with (String b (w +:+ (u +:+ s2))).
    cbn [plus_loop]. rewrite Hb, feed_opened, (IH Hw). { reflexivity. }
    + intros u1 u2 E Hne. rewrite map_map. specialize (Hfail u1 u2 E Hne).
      erewrite map_ext; [exact Hfail|]. intros acc. simpl.
      by rewrite append_snoc_cons.
    + rewrite map_map. erewrite map_ext; [exact Hk|]. intros acc. simpl.
      by rewrite append_snoc_cons.
Qed.

Lemma plus_loop_at_char c k st r : plus_loop (not_char c) k st (String c r) = k st (String c r).
Proof. simpl. unfold not_char. by rewrite Ascii.eqb_refl. Qed.


(** The run stops at the excluded character when the rest of the
    pattern matches there. *)
Lemma plus_loop_stop c k opened closed w r res :
  contains_char c w = false ->
  k (map (fun acc => acc +:+ w) opened, closed) (String c r) = Some res ->
  plus_loop (not_char c) k (opened, closed) (w +:+ String c r) = Some res.
Proof.
  intros Hw Hk.
  apply (plus_loop_backtrack c k opened closed w "" (String c r) res Hw eq_refl).
  - intros st. apply plus_loop_at_char.
  - intros [|x u1] u2 E Hne; [done|discriminate E].
  - exact Hk.
Qed.

Lemma match_lit_eq c k st s :
  match_groups (GLit c :: k) st (String c s) = match_groups k (feed c st) s.
Proof. simpl. by rewrite Ascii.eqb_refl. Qed.

Lemma match_plus_eq c k st a s :
  not_char c a = true ->
  match_groups (GPlus (not_char c) :: k) st (String a s)
  = plus_loop (not_char c) (match_groups k) (feed a st) s.
Proof. intros H. simpl. by rewrite H. Qed.

(** The text of a well-formed link, matched where it starts. *)
Lemma llms_link_complete title mid rest :
  title <> "" -> contains_char "]" title = false ->
  mid <> "" -> contains_char ")" mid = false ->
  match_groups LLMS_LINK ([], []) (link_text title ("/" +:+ mid +:+ ".md") +:+ rest)
  = Some (rest, [title; "/" +:+ mid +:+ ".md"]).
Proof.
  intros Ht Hnt Hm Hnm.
  destruct title as [|a w]; [done|]. destruct mid as [|b v]; [done|].
  apply not_char_head in Hnt as [Ha Hw]. apply not_char_head in Hnm as [Hb Hv].
  unfold link_text, LLMS_LINK. rewrite !string_append_assoc.
  change ("- [" +:+ String a w +:+ ?x) with (String "-" (String " " (String "[" (String a (w +:+ x))))).
  rewrite !match_lit_eq, !feed_opened, match_open. cbn [map].
  rewrite (match_plus_eq _ _ _ _ _ Ha), feed_opened. cbn [map].
  change ("](" +:+ ?x) with (String "]" (String "(" x)).
  apply plus_loop_stop; [exact Hw|]. cbn [map].
  rewrite match_close. cbn [app].
  rewrite !match_lit_eq, !feed_opened, match_open. cbn [map].
  change ("/" +:+ String b v +:+ ?x) with (String "/" (String b (v +:+ x))).
  rewrite match_lit_eq, feed_opened. cbn [map].
  rewrite (match_plus_eq _ _ _ _ _ Hb), feed_opened. cbn [map].
  change (")" +:+ rest) with (String ")" rest).
  apply plus_loop_backtrack; [exact Hv|reflexivity| | |].
  - intros st. apply plus_loop_at_char.
  - intros u1 u2 E Hne. destruct u1 as [|x1 u1]; [done|].
    injection E as <- E. destruct u1 as [|x2 u1].
    { change ("" +:+ u2) with u2 in E. subst u2. reflexivity. }
    injection E as <- E. destruct u1 as [|x3 u1].
    { change ("" +:+ u2) with u2 in E. subst u2. reflexivity. }
    injection E as <- E. destruct u1 as [|x4 u1]; [|discriminate E].
    change ("" +:+ u2) with u2 in E. subst u2. reflexivity.
  - change (".md" +:+ String ")" rest) with (String "." (String "m" (String "d" (String ")" rest)))).
    rewrite !match_lit_eq, !feed_opened. cbn [map]. rewrite match_close. cbn [app].
    rewrite match_lit_eq, feed_opened. cbn [match_groups map fst snd].
    f_equal. rewrite !string_append_assoc. reflexivity.
Qed.

(** X19. The manifest link pattern matches, at a position, exactly the
    text of a well-formed link: a title that is not empty and has no
    closing bracket and a path made of a slash, at least one character
    other than a closing parenthesis, and [.md]. The match ends where
    the link ends and its two groups are the title and the path. *)
Theorem llms_link_matches_exactly_links s r groups :
  match_groups LLMS_LINK ([], []) s = Some (r, groups) <->
  exists title md_path,
    well_formed_link title md_path
    /\ groups = [title; md_path] /\ s = link_text title md_path +:+ r.
Proof.
  split.
  - intros H. apply llms_link_sound in H as (title & mid & -> & -> & Ht & Hnt & Hm & Hnm).
    exists title, ("/" +:+ mid +:+ ".md"). split; [|done].
    split; [done|]. split; [done|]. by exists mid.
  - intros (title & md_path & (Ht & Hnt & mid & -> & Hm & Hnm) & -> & ->).
    by apply llms_link_complete.
Qed.

Lemma findall_scan_skip items w r :
  findall_scan items (w +:+ r) (String.length w) = findall_scan items r 0.
Proof.
  induction w as [|b w IH]; [reflexivity|].
  change (String b w +:+ r) with (String b (w +:+ r)). exact IH.
Qed.

Lemma findall_link title md_path rest :
  well_formed_link title md_path ->
  findall LLMS_LINK (link_text title md_path +:+ rest)
  = [title; md_path] :: findall LLMS_LINK rest.
Proof.
  intros (Ht & Hnt & mid & -> & Hm & Hnm). unfold findall.
  pose proof (llms_link_complete title mid rest Ht Hnt Hm Hnm) as H.
  remember (link_text title ("/" +:+ mid +:+ ".md")) as link eqn:El.
  destruct link as [|c link].
  { unfold link_text in El. discriminate El. }
  change (String c link +:+ rest) with (String c (link +:+ rest)) in *.
  cbn [findall_scan]. rewrite H. f_equal.
  cbn [String.length]. rewrite string_length_append.
  replace (S (String.length link + String.length rest) - String.length rest - 1)
    with (String.length link) by lia.
  apply findall_scan_skip.
Qed.

Lemma contains_char_cons c a w : contains_char c (String a w) = false ->
  Ascii.eqb a c = false /\ contains_char c w = false.
Proof. cbn [contains_char]. by destruct (Ascii.eqb a c). Qed.

Lemma match_lit_ne c k st a s :
  Ascii.eqb a c = false -> match_groups (GLit c :: k) st (String a s) = None.
Proof. intros H. cbn [match_groups]. by rewrite H. Qed.

(** No match starts inside a text without an opening bracket that is
    followed by nothing or by a link. *)
Lemma no_match_in_gap t r :
  contains_char "[" t = false ->
  (r = "" \/ exists r', r = "- [" +:+ r') ->
  t <> "" ->
  match_groups LLMS_LINK ([], []) (t +:+ r) = None.
Proof.
  intros Ht Hr Hne. destruct t as [|c1 t]; [done|]. clear Hne.
  change (String c1 t +:+ r) with (String c1 (t +:+ r)).
  unfold LLMS_LINK. apply contains_char_cons in Ht as [_ Ht].
  destruct (Ascii.eqb_spec c1 "-") as [->|N1].
  2:{ apply match_lit_ne. by apply Ascii.eqb_neq. }
  rewrite match_lit_eq.
  destruct t as [|c2 t].
  { change ("" +:+ r) with r. destruct Hr as [->|[r' ->]]; [done|].
    change ("- [" +:+ r') with (String "-" (String " " (String "[" r'))).
    by apply match_lit_ne. }
  change (String c2 t +:+ r) with (String c2 (t +:+ r)).
  apply contains_char_cons in Ht as [_ Ht].
  destruct (Ascii.eqb_spec c2 " ") as [->|N2].
  2:{ apply match_lit_ne. by apply Ascii.eqb_neq. }
  rewrite match_lit_eq.
  destruct t as [|c3 t].
  { change ("" +:+ r) with r. destruct Hr as [->|[r' ->]]; [done|].
    change ("- [" +:+ r') with (String "-" (String " " (String "[" r'))).
    by apply match_lit_ne. }
  change (String c3 t +:+ r) with (String c3 (t +:+ r)).
  apply contains_char_cons in Ht as [N3 _]. by apply match_lit_ne.
Qed.

Lemma findall_gap t r :
  contains_char "[" t = false ->
  (r = "" \/ exists r', r = "- [" +:+ r') ->
  findall LLMS_LINK (t +:+ r) = findall LLMS_LINK r.
Proof.
  intros Ht Hr. induction t as [|c t IH]; [reflexivity|].
  unfold findall. pose proof (no_match_in_gap (String c t) r Ht Hr) as H.
  change (String c t +:+ r) with (String c (t +:+ r)) in *.
  cbn [findall_scan]. rewrite H by done. apply IH.
  by apply contains_char_cons in Ht as [_ Ht].
Qed.

Lemma manifest_text_head lines :
  manifest_text lines = "" \/ exists r', manifest_text lines = "- [" +:+ r'.
Proof.
  destruct lines as [|l rest]; [by left|]. right. simpl. unfold link_text.
  rewrite !string_append_assoc. eauto.
Qed.

(** The matches of the pattern in a manifest of well-formed lines that
    follows a text without an opening bracket: one per line, in order. *)
Lemma findall_manifest preamble lines :
  contains_char "[" preamble = false ->
  Forall well_formed_line lines ->
  findall LLMS_LINK (preamble +:+ manifest_text lines)
  = map (fun l => [line_title l; line_path l]) lines.
Proof.
  intros Hp Hl. rewrite findall_gap; [|exact Hp|apply manifest_text_head].
  induction Hl as [|l rest [Hlink Hrest] _ IH]; [reflexivity|].
  cbn [manifest_text map]. rewrite findall_link by exact Hlink.
  f_equal. rewrite findall_gap; [exact IH|exact Hrest|apply manifest_text_head].
Qed.

End LinkPattern.

Section DiscoveryFacts.
Import ReGroups Discovery PyStr.
Context {datetime float : Type}.
Variable raise_for_status : Response -> Result unit.
Variable urljoin : string -> string -> string.
Variable urlparse_path : string -> string.
Variable HttpUrl : string -> Result string.

Local Abbreviation extract_pages :=
  (extract_pages_from_llms (datetime := datetime) (float := float)
     raise_for_status urljoin urlparse_path HttpUrl).
Local Abbreviation page_of :=
  (page_of_match (datetime := datetime) (float := float) urljoin urlparse_path HttpUrl).
Local Abbreviation loop :=
  (pages_loop (datetime := datetime) (float := float) urljoin urlparse_path HttpUrl).
Local Abbreviation web_url := (web_url_of urljoin).
Local Abbreviation sect := (section_of urlparse_path).

(** Every match reported by the scan is a match of the pattern at some
    position of the text. *)
Lemma findall_scan_sound items s skip g :
  g ∈ findall_scan items s skip ->
  exists pre s0 r, s = pre +:+ s0 /\ match_groups items ([], []) s0 = Some (r, g).
Proof.
  revert skip. induction s as [|c s IH]; intros skip H; [by apply elem_of_nil in H|].
  assert (forall n, g ∈ findall_scan items s n ->
            exists pre s0 r, String c s = pre +:+ s0
              /\ match_groups items ([], []) s0 = Some (r, g)) as Hrest.
  { intros n Hn. apply IH in Hn as (pre & s0 & r & -> & Hm).
    by exists (String c pre), s0, r. }
  cbn [findall_scan] in H. destruct skip as [|n]; [|by eapply Hrest].
  destruct (match_groups items ([], []) (String c s)) as [[r groups]|] eqn:E;
    [|by eapply Hrest].
  apply elem_of_cons in H as [->|H]; [|by eapply Hrest].
  by exists "", (String c s), r.
Qed.

Lemma split_first_no_sep c s : contains_char c (split_first c s) = false.
Proof.
  induction s as [|a s IH]; [done|]. cbn [split_first].
  destruct (Ascii.eqb a c) eqn:E; [done|]. cbn [contains_char]. by rewrite E.
Qed.

Lemma page_of_match_inv base_url m p :
  page_of base_url m = Ok p ->
  exists ttl md_path,
    m = [ttl; md_path]
    /\ HttpUrl (web_url base_url md_path) = Ok (url p)
    /\ HttpUrl (urljoin base_url md_path) = Ok (md_url p)
    /\ p = new_Page (url p) (md_url p) (Some ttl)
             (Some (sect (web_url base_url md_path))).
Proof.
  unfold page_of_match, make_Page.
  destruct m as [|ttl [|md_path [|x m]]]; try done.
  destruct (HttpUrl (web_url base_url md_path)) as [u|e] eqn:Eu; [|done].
  destruct (HttpUrl (urljoin base_url md_path)) as [v|e] eqn:Ev; [|done].
  intros [= <-]. by exists ttl, md_path.
Qed.

Lemma pages_loop_elem base_url matches pages p :
  loop base_url matches = Ok pages -> p ∈ pages ->
  exists m, m ∈ matches /\ page_of base_url m = Ok p.
Proof.
  revert pages. induction matches as [|m rest IH]; intros pages H Hp.
  - injection H as <-. by apply elem_of_nil in Hp.
  - cbn [pages_loop] in H.
    destruct (page_of base_url m) as [q|e] eqn:Eq; [|done].
    destruct (loop base_url rest) as [qs|e] eqn:Eqs; [|done].
    injection H as <-. apply elem_of_cons in Hp as [->|Hp].
    + exists m. split; [left|done].
    + destruct (IH qs eq_refl Hp) as (m' & Hm' & Hq). exists m'. split; [by right|done].
Qed.

Lemma extract_pages_inv got base_url pages p :
  extract_pages got base_url = Ok pages -> p ∈ pages ->
  exists resp, got = Ok resp /\ raise_for_status resp = Ok tt
    /\ loop base_url (findall LLMS_LINK (text resp)) = Ok pages.
Proof.
  unfold extract_pages_from_llms, safe_request. intros H Hp.
  destruct got as [resp|e]; cbn in H.
  2:{ injection H as <-. by apply elem_of_nil in Hp. }
  destruct (raise_for_status resp) as [[]|e] eqn:Er; cbn in H.
  2:{ injection H as <-. by apply elem_of_nil in Hp. }
  destruct (truthy_str (text resp)); cbn in H.
  2:{ injection H as <-. by apply elem_of_nil in Hp. }
  by exists resp.
Qed.

Lemma extract_pages_fresh got base_url pages p :
  extract_pages got base_url = Ok pages -> p ∈ pages ->
  md p = None /\ loaded p = false /\ scraped_at p = None /\ source p = "llms.txt".
Proof.
  intros H Hp. destruct (extract_pages_inv _ _ _ _ H Hp) as (resp & -> & _ & Hl).
  destruct (pages_loop_elem _ _ _ _ Hl Hp) as (m & Hm & Hq).
  apply page_of_match_inv in Hq as (ttl & md_path & -> & Hu & Hv & ->). done.
Qed.

(** X20. Every page [extract_pages_from_llms] returns comes from a
    well-formed link of the manifest body: its title is the link's
    title, its two URLs are the validated joins of the base with the
    link's path (without and with [.md]), its section has no slash, and
    it is a fresh page: no markdown, not loaded, no timestamps, no
    priority, source [llms.txt]. *)
Theorem extract_pages_are_fresh_links got base_url pages p :
  extract_pages got base_url = Ok pages -> p ∈ pages ->
  exists resp ttl md_path pre post,
    got = Ok resp
    /\ text resp = pre +:+ link_text ttl md_path +:+ post
    /\ well_formed_link ttl md_path
    /\ HttpUrl (web_url base_url md_path) = Ok (url p)
    /\ HttpUrl (urljoin base_url md_path) = Ok (md_url p)
    /\ title p = Some ttl
    /\ section p = Some (sect (web_url base_url md_path))
    /\ contains_char "/" (sect (web_url base_url md_path)) = false
    /\ md p = None /\ loaded p = false /\ scraped_at p = None
    /\ lastmod p = None /\ priority p = None /\ source p = "llms.txt".
Proof.
  intros H Hp. destruct (extract_pages_inv _ _ _ _ H Hp) as (resp & -> & _ & Hl).
  destruct (pages_loop_elem _ _ _ _ Hl Hp) as (m & Hm & Hq).
  apply page_of_match_inv in Hq as (ttl & md_path & -> & Hu & Hv & Ep).
  apply findall_scan_sound in Hm as (pre & s0 & r & Es & Hm).
  apply llms_link_sound in Hm as (t & mid & [= <- ->] & -> & Ht & Hnt & Hmid & Hnm).
  exists resp, ttl, ("/" +:+ mid +:+ ".md"), pre, r.
  split; [done|]. split; [exact Es|]. split.
  { split; [done|]. split; [done|]. by exists mid. }
  split; [exact Hu|]. split; [exact Hv|].
  rewrite Ep. cbn. split; [done|]. split; [done|].
  split; [apply split_first_no_sep|done].
Qed.

(** X21. A manifest made of well-formed link lines, after a preamble
    without an opening bracket and with no opening bracket between the
    links, gives one page per line, in the order of the lines, when the
    request succeeds and every URL joined to the base validates. *)
Theorem extract_pages_one_page_per_line
    (norm : string -> string) resp base_url preamble lines :
  raise_for_status resp = Ok tt ->
  text resp = preamble +:+ manifest_text lines ->
  contains_char "[" preamble = false ->
  Forall well_formed_line lines ->
  (forall path, HttpUrl (urljoin base_url path) = Ok (norm (urljoin base_url path))) ->
  extract_pages (Ok resp) base_url
  = Ok (map (fun l =>
               new_Page (norm (web_url base_url (line_path l)))
                 (norm (urljoin base_url (line_path l)))
                 (Some (line_title l))
                 (Some (sect (web_url base_url (line_path l))))) lines).
Proof.
  intros Hr Ht Hp Hl Hu. unfold extract_pages_from_llms, safe_request. cbn.
  rewrite Hr. cbn. rewrite Ht, findall_manifest by done.
  assert (loop base_url (map (fun l => [line_title l; line_path l]) lines)
          = Ok (map (fun l =>
               new_Page (norm (web_url base_url (line_path l)))
                 (norm (urljoin base_url (line_path l)))
                 (Some (line_title l))
                 (Some (sect (web_url base_url (line_path l))))) lines)) as Hloop.
  { clear Hl Ht. induction lines as [|l rest IH]; [done|].
    cbn [map pages_loop]. rewrite IH. unfold page_of_match, make_Page.
    unfold web_url_of. by rewrite !Hu. }
  destruct (truthy_str (preamble +:+ manifest_text lines)) eqn:E; cbn; [exact Hloop|].
  destruct lines as [|l rest]; [done|].
  destruct preamble; cbn in E; [|done]. unfold link_text in E. done.
Qed.

End DiscoveryFacts.

(* ================================================================== *)
(** * Properties of [DocCrawler.crawl] *)
(* ================================================================== *)

Section CrawlFacts.
Import Discovery Crawler.
Context {datetime float : Type}.
Variable raise_for_status : Response -> Result unit.
Variable ET_fromstring : string -> Result ET.Element.
Variable date_parser_parse : string -> Result datetime.
Variable float_of_str : string -> Result float.
Variable urljoin : string -> string -> string.
Variable urlparse_path : string -> string.
Variable HttpUrl : string -> Result string.
Implicit Types (p : Page datetime float) (l : list (Page datetime float))
  (meta : gmap string (SitemapEntry datetime float))
  (store : gmap nat (Page datetime float)).

Local Abbreviation extract_pages :=
  (extract_pages_from_llms (datetime := datetime) (float := float)
     raise_for_status urljoin urlparse_path HttpUrl).
Local Abbreviation extract_meta :=
  (extract_metadata_from_sitemap raise_for_status ET_fromstring
     date_parser_parse float_of_str).
Local Abbreviation crawl :=
  (crawl raise_for_status ET_fromstring date_parser_parse float_of_str
     urljoin urlparse_path HttpUrl).

(** Reconciling the objects of a fresh list is reconciling each value. *)
Lemma merge_fresh_store meta l :
  foldl (merge_at meta) (map_seq 0 l) (seq 0 (length l))
  = map_seq 0 (merge_page meta <$> l).
Proof.
  apply map_eq. intros a. rewrite merge_foldl_lookup, !lookup_map_seq_0, list_lookup_fmap.
  case_decide as Ha; [done|].
  rewrite elem_of_seq in Ha. rewrite lookup_ge_None_2 by lia. done.
Qed.

(** Reading the selected objects of a fresh list back is filtering the
    values. *)
Lemma omap_filter_seq (f : Page datetime float -> bool) pre l :
  omap (fun a => (pre ++ l) !! a)
    (filter (fun a => (f <$> (pre ++ l) !! a) = Some true) (seq (length pre) (length l)))
  = filter (fun p => f p = true) l.
Proof.
  revert pre. induction l as [|x l IH]; intros pre; [reflexivity|].
  cbn [length seq]. rewrite !filter_cons. cbn beta. rewrite list_lookup_middle by done. cbn [fmap option_fmap option_map].
  specialize (IH (pre ++ [x])). rewrite length_app, Nat.add_1_r, <- app_assoc in IH.
  cbn [app] in IH.
  destruct (f x) eqn:Ex.
  - rewrite decide_True by done. rewrite (decide_True (P := true = true)) by done.
    cbn [omap list_omap]. rewrite list_lookup_middle by done. f_equal. exact IH.
  - rewrite decide_False by done. rewrite (decide_False (P := false = true)) by done.
    exact IH.
Qed.

Lemma filter_all {A} (P : A -> Prop) `{forall x, Decision (P x)} (xs : list A) :
  Forall P xs -> filter P xs = xs.
Proof.
  induction 1 as [|x xs Hx _ IH]; [done|]. by rewrite filter_cons, decide_True, IH.
Qed.

Lemma omap_seq l : omap (fun a => l !! a) (seq 0 (length l)) = l.
Proof.
  pose proof (omap_filter_seq (fun _ => true) [] l) as H. cbn [app length] in H.
  rewrite (filter_all _ l) in H by (by apply Forall_forall).
  rewrite filter_all in H; [exact H|].
  apply Forall_forall. intros a Ha. apply elem_of_seq in Ha.
  destruct (lookup_lt_is_Some_2 l a) as [x Hx]; [lia|]. by rewrite Hx.
Qed.

Lemma omap_pointwise {A B} (f g : A -> option B) (xs : list A) :
  (forall a, f a = g a) -> omap f xs = omap g xs.
Proof.
  intros E. apply list_omap_ext. induction xs; constructor; auto.
Qed.

(** The store of the objects of a fresh list. *)
Local Abbreviation heap l := (map_seq 0 l : gmap nat (Page datetime float)).

(** [crawl] when both extractors return. *)
Lemma crawl_ok base_url got_llms got_sitemap include l meta :
  extract_pages got_llms base_url = Ok l ->
  extract_meta got_sitemap = Ok meta ->
  let store := heap (merge_page meta <$> l) in
  crawl base_url got_llms got_sitemap include
  = Ok (match include with
        | Some (s :: secs) => keep_sections (s :: secs) store (seq 0 (length l))
        | _ => seq 0 (length l)
        end, store).
Proof.
  intros Hl Hm store. unfold Crawler.crawl. rewrite Hl, Hm. cbn.
  unfold merge_pages_with_sitemap. by rewrite merge_fresh_store.
Qed.

Lemma merge_page_fetch_fields meta p :
  md (merge_page meta p) = md p /\ loaded (merge_page meta p) = loaded p
  /\ scraped_at (merge_page meta p) = scraped_at p
  /\ section (merge_page meta p) = section p.
Proof. unfold merge_page. by destruct (meta !! url p). Qed.

Lemma fresh_store_unloaded got_llms base_url l meta a p :
  extract_pages got_llms base_url = Ok l ->
  heap (merge_page meta <$> l) !! a = Some p ->
  md p = None /\ loaded p = false /\ scraped_at p = None.
Proof.
  intros Hl Hp. rewrite lookup_map_seq_0, list_lookup_fmap in Hp.
  destruct (l !! a) as [q|] eqn:Hq; [|done]. injection Hp as <-.
  destruct (merge_page_fetch_fields meta q) as (-> & -> & -> & _).
  destruct (extract_pages_fresh _ _ _ _ _ _ _ q Hl) as (? & ? & ? & _); [|done].
  by eapply list_elem_of_lookup_2.
Qed.

(** X22. When the manifest gives the pages [l] and the sitemap the
    mapping [meta], [crawl] creates one object per page of [l],
    reconciled with [meta], and returns them in order: all of them when
    [include_sections] is [None] or empty, otherwise those whose section
    is one of the list. The list names no object twice, and every object
    is metadata only: no markdown, not loaded, no fetch time. *)
Theorem crawl_selects_reconciled_pages base_url got_llms got_sitemap include l meta :
  extract_pages got_llms base_url = Ok l ->
  extract_meta got_sitemap = Ok meta ->
  exists pages store,
    crawl base_url got_llms got_sitemap include = Ok (pages, store)
    /\ NoDup pages
    /\ omap (fun a => store !! a) pages
       = match include with
         | Some (s :: secs) =>
             filter (fun p => in_sections (s :: secs) p = true) (merge_page meta <$> l)
         | _ => merge_page meta <$> l
         end
    /\ (forall a p, store !! a = Some p ->
          md p = None /\ loaded p = false /\ scraped_at p = None).
Proof.
  intros Hl Hm. eexists _, _. split; [by apply crawl_ok|].
  assert (forall secs, omap (fun a => heap (merge_page meta <$> l) !! a)
            (keep_sections secs (heap (merge_page meta <$> l)) (seq 0 (length l)))
          = filter (fun p => in_sections secs p = true) (merge_page meta <$> l)) as Hsel.
  { intros secs. unfold keep_sections.
    pose proof (omap_filter_seq (in_sections secs) [] (merge_page meta <$> l)) as H.
    cbn [app length] in H. rewrite length_fmap in H. rewrite <- H.
    erewrite list_filter_iff; [apply omap_pointwise|].
    - intros a. apply lookup_map_seq_0.
    - intros a. by rewrite lookup_map_seq_0. }
  assert (omap (fun a => heap (merge_page meta <$> l) !! a) (seq 0 (length l))
          = merge_page meta <$> l) as Hall.
  { pose proof (omap_seq (merge_page meta <$> l)) as H. rewrite length_fmap in H.
    etrans; [|exact H]. apply omap_pointwise. intros a. apply lookup_map_seq_0. }
  split; [|split].
  - destruct include as [[|s secs]|]; try apply NoDup_seq.
    apply NoDup_filter, NoDup_seq.
  - destruct include as [[|s secs]|]; [exact Hall|apply Hsel|exact Hall].
  - intros a p Hp. by eapply fresh_store_unloaded.
Qed.

Lemma merge_page_empty p : merge_page (∅ : gmap string (SitemapEntry datetime float)) p = p.
Proof. unfold merge_page. by rewrite lookup_empty. Qed.


(** X24. When the manifest cannot be fetched, or its body is empty,
    [crawl] creates no page object and returns the empty list, whatever
    the sitemap holds and whatever sections are asked for, as long as
    the sitemap itself does not make it raise. *)
Theorem crawl_without_manifest base_url got_llms got_sitemap include meta :
  (safe_request raise_for_status got_llms = None
   \/ safe_request raise_for_status got_llms = Some "") ->
  extract_meta got_sitemap = Ok meta ->
  crawl base_url got_llms got_sitemap include = Ok ([], ∅).
Proof.
  intros Hg Hm.
  assert (extract_pages got_llms base_url = Ok []) as Hl.
  { unfold extract_pages_from_llms. by destruct Hg as [-> | ->]. }
  rewrite (crawl_ok _ _ _ _ _ _ Hl Hm). cbn. by destruct include as [[|s secs]|].
Qed.

End CrawlFacts.

(* ================================================================== *)
(** * Properties of [bootstrap_chroma] *)
(* ================================================================== *)

Section ChunkTrace.
Context {datetime float : Type}.
Variable isoformat : datetime -> string.
Variable header_split_text : string -> list (Document float).
Variable recursive_split_documents : list (Document float) -> list (Document float).

(** A chunk of [chunk_pages] holds every entry of the metadata of one
    page of the list, the chunk index apart. *)
Lemma chunk_pages_elem_metadata (pages : list (Page datetime float)) limit d :
  d ∈ (chunk_pages isoformat header_split_text recursive_split_documents pages limit).1 ->
  exists page, page ∈ pages
    /\ forall k v, k <> "chunk_index" -> to_metadata isoformat page !! k = Some v ->
         Chunker.metadata d !! k = Some v.
Proof.
  rewrite chunk_pages_docs. intros H.
  destruct (chunk_pages_loop_elem _ _ _ _ _ _ _ H) as (page & Hp & Hd).
  destruct (page_chunks_elem _ _ _ _ _ Hd) as (body & Hb & Hne & Hd').
  destruct body as [|c body]; [done|].
  cbn [Chunker.chunk truthy_str negb fst] in Hd'.
  destruct (elem_of_chunk_loop _ _ _ _ Hd') as (doc & i & sub & _ & _ & ->).
  exists page. split; [done|]. intros k v Hk Hm.
  cbn [set_chunk_index metadata_update Chunker.metadata default].
  rewrite lookup_insert_ne by done. by apply lookup_union_Some_l.
Qed.

End ChunkTrace.

Section BootstrapFacts.
Import Discovery Crawler PopulateStore.
Context {datetime float : Type}.
Variable isoformat : datetime -> string.
Variable raise_for_status : Response -> Result unit.
Variable ET_fromstring : string -> Result ET.Element.
Variable date_parser_parse : string -> Result datetime.
Variable float_of_str : string -> Result float.
Variable urljoin : string -> string -> string.
Variable urlparse_path : string -> string.
Variable HttpUrl : string -> Result string.
Variable BeautifulSoup : string -> Result Bs4.Node.
Variable soup_str : Bs4.Node -> string.
Variable header_split_text : string -> list (Document float).
Variable recursive_split_documents : list (Document float) -> list (Document float).
Variable Store : Type.
Variable from_documents : list (Document float) -> Result Store.
Variable add_documents : Store -> list (Document float) -> Result Store.
Variable new_ChromaStore : Result unit.
Implicit Types (p : Page datetime float) (store : gmap nat (Page datetime float))
  (pages : list nat).

Local Abbreviation crawl :=
  (crawl raise_for_status ET_fromstring date_parser_parse float_of_str
     urljoin urlparse_path HttpUrl).
Local Abbreviation clean_fn :=
  (Some (clean_markdown_content BeautifulSoup soup_str)).
Local Abbreviation scrape_loop session_get clock :=
  (scrape_loop (datetime := datetime) (float := float)
     raise_for_status clean_fn session_get clock).
Local Abbreviation chunk_pages :=
  (chunk_pages isoformat header_split_text recursive_split_documents).
Local Abbreviation bootstrap_chunks :=
  (bootstrap_chunks isoformat raise_for_status ET_fromstring date_parser_parse
     float_of_str urljoin urlparse_path HttpUrl BeautifulSoup soup_str
     header_split_text recursive_split_documents).
Local Abbreviation bootstrap_chroma :=
  (bootstrap_chroma isoformat raise_for_status ET_fromstring date_parser_parse
     float_of_str urljoin urlparse_path HttpUrl BeautifulSoup soup_str
     header_split_text recursive_split_documents Store from_documents
     add_documents new_ChromaStore).

(** The chunks of the pipeline, from what [crawl] returned. *)
Lemma bootstrap_chunks_eq base_url got_llms got_sitemap session_get clock pages store :
  crawl base_url got_llms got_sitemap (Some SECTIONS) = Ok (pages, store) ->
  let store' := (scrape_loop session_get clock None 0 pages store).1 in
  bootstrap_chunks base_url got_llms got_sitemap session_get clock
  = Ok (chunk_pages (omap (fun a => store' !! a) (keep_loaded store' pages)) None).1.
Proof.
  intros H store'. unfold PopulateStore.bootstrap_chunks. rewrite H. cbn.
  unfold scrape. subst store'.
  destruct (scrape_loop session_get clock None 0 pages store) as [st log]. cbn.
  by destruct (chunk_pages _ None).
Qed.

(** What [crawl] returns for the two sections: every object named is a
    page of one of them, as discovery made it. *)
Lemma crawl_sections_inv base_url got_llms got_sitemap pages store a :
  crawl base_url got_llms got_sitemap (Some SECTIONS) = Ok (pages, store) ->
  a ∈ pages ->
  exists q s, store !! a = Some q /\ section q = Some s /\ s ∈ SECTIONS
    /\ source q = "llms.txt".
Proof.
  intros H Ha.
  destruct (extract_pages_from_llms (datetime := datetime) (float := float)
              raise_for_status urljoin urlparse_path HttpUrl
              got_llms base_url) as [l|e] eqn:Hl.
  2:{ unfold Crawler.crawl in H. by rewrite Hl in H. }
  destruct (extract_metadata_from_sitemap raise_for_status ET_fromstring
              date_parser_parse float_of_str got_sitemap) as [meta|e] eqn:Hm.
  2:{ unfold Crawler.crawl in H. by rewrite Hl, Hm in H. }
  rewrite (crawl_ok _ _ _ _ _ _ _ _ _ _ _ _ _ Hl Hm) in H. cbn zeta in H.
  unfold SECTIONS in H at 1. injection H as <- <-.
  apply list_elem_of_filter in Ha as [Hsec _].
  rewrite lookup_map_seq_0, list_lookup_fmap in Hsec |- *.
  destruct (l !! a) as [q|] eqn:Hq; [|done]. cbn in Hsec. injection Hsec as Hsec.
  unfold in_sections in Hsec.
  destruct (section (merge_page meta q)) as [s|] eqn:Hs; [|done].
  apply bool_decide_eq_true in Hsec.
  exists (merge_page meta q), s. split; [done|]. split; [done|]. split; [done|].
  apply list_elem_of_lookup_2 in Hq.
  destruct (extract_pages_fresh _ _ _ _ _ _ _ q Hl Hq) as (_ & _ & _ & Hsrc).
  unfold merge_page. by destruct (meta !! url q).
Qed.

Lemma crawl_store_unloaded base_url got_llms got_sitemap include pages store a p :
  crawl base_url got_llms got_sitemap include = Ok (pages, store) ->
  store !! a = Some p -> loaded p = false.
Proof.
  intros H Hp.
  destruct (extract_pages_from_llms (datetime := datetime) (float := float)
              raise_for_status urljoin urlparse_path HttpUrl
              got_llms base_url) as [l|e] eqn:Hl.
  2:{ unfold Crawler.crawl in H. by rewrite Hl in H. }
  destruct (extract_metadata_from_sitemap raise_for_status ET_fromstring
              date_parser_parse float_of_str got_sitemap) as [meta|e] eqn:Hm.
  2:{ unfold Crawler.crawl in H. by rewrite Hl, Hm in H. }
  rewrite (crawl_ok _ _ _ _ _ _ _ _ _ _ _ _ _ Hl Hm) in H. cbn zeta in H.
  injection H as _ <-.
  eapply fresh_store_unloaded; [exact Hl|exact Hp].
Qed.

(** When every fetch fails, no page of the store ends up loaded. *)
Lemma scrape_loop_all_fail session_get clock limit i pages store :
  (forall j, raised (fetch_content raise_for_status (session_get j) clean_fn) = true) ->
  (forall a p, store !! a = Some p -> loaded p = false) ->
  forall a p, (scrape_loop session_get clock limit i pages store).1 !! a = Some p ->
    loaded p = false.
Proof.
  intros Hfail. revert i store. induction pages as [|b pages IH]; intros i store Hst a p.
  - cbn. apply Hst.
  - rewrite scrape_loop_step. destruct (limit_and_ge limit i); [apply Hst|].
    apply IH. clear a p. intros a p. destruct (decide (a = b)) as [->|Hne].
    + destruct (store !! b) as [q|] eqn:Hq.
      * rewrite (load_at_lookup _ _ _ _ _ _ _ q) by done. intros [= <-].
        by rewrite load_loaded_raised, Hfail.
      * unfold load_at. rewrite Hq. cbn. by rewrite Hq.
    + rewrite load_at_lookup_ne by done. apply Hst.
Qed.

Lemma filter_none {A} (P : A -> Prop) `{forall x, Decision (P x)} (xs : list A) :
  Forall (fun x => ~ P x) xs -> filter P xs = [].
Proof.
  induction 1 as [|x xs Hx _ IH]; [done|]. by rewrite filter_cons, decide_False, IH.
Qed.

(** X25. Every chunk [bootstrap_chroma] hands to the vector store comes
    from a page that was fetched successfully and belongs to one of the
    two sections asked for: its metadata says [loaded = True], names one
    of the sections [proxies] and [advanced-proxy-solutions], and names
    [llms.txt] as its source. *)
Theorem bootstrap_chunks_are_loaded_and_selected
    base_url got_llms got_sitemap session_get clock chunks d :
  bootstrap_chunks base_url got_llms got_sitemap session_get clock = Ok chunks ->
  d ∈ chunks ->
  Chunker.metadata d !! "loaded" = Some (VBool true)
  /\ Chunker.metadata d !! "source" = Some (VStr "llms.txt")
  /\ exists s, s ∈ SECTIONS /\ Chunker.metadata d !! "section" = Some (VStr s).
Proof.
  intros H Hd.
  destruct (crawl base_url got_llms got_sitemap (Some SECTIONS)) as [[pages store]|e] eqn:Hc.
  2:{ unfold PopulateStore.bootstrap_chunks in H. by rewrite Hc in H. }
  rewrite (bootstrap_chunks_eq _ _ _ _ _ _ _ Hc) in H. injection H as <-.
  apply chunk_pages_elem_metadata in Hd as (page & Hp & Hmeta).
  apply list_elem_of_omap in Hp as (a & Ha & Hpa).
  apply list_elem_of_filter in Ha as [Hloaded Ha].
  rewrite Hpa in Hloaded. injection Hloaded as Hloaded.
  destruct (crawl_sections_inv _ _ _ _ _ _ Hc Ha) as (q & s & Hq & Hs & Hin & Hsrc).
  destruct (scrape_loop_frame raise_for_status clean_fn session_get clock None 0
              pages store a q Hq) as (p' & Hp' & Hsame).
  rewrite Hpa in Hp'. injection Hp' as <-.
  destruct Hsame as (_ & _ & _ & Esec & Esrc & _).
  split; [|split].
  - apply Hmeta; [done|]. unfold to_metadata. rewrite Hloaded. by simplify_map_eq.
  - apply Hmeta; [done|]. unfold to_metadata. rewrite Esrc, Hsrc. by simplify_map_eq.
  - exists s. split; [done|]. apply Hmeta; [done|]. unfold to_metadata.
    rewrite Esec, Hs. by simplify_map_eq.
Qed.


End BootstrapFacts.



(* ================================================================== *)
(** * The further properties on the sample data *)
(* ================================================================== *)

Section MoreInstances.
Import Samples SiteSamples Discovery Crawler PopulateStore.

Local Abbreviation rfs := StandIns.raise_for_status.
Local Abbreviation hs := (@StandIns.header_split_text string).
Local Abbreviation rs := (@StandIns.recursive_split_documents string 10 2).
Local Abbreviation parse := (fun md : string => Ok (StandIns.BeautifulSoup md)).
Local Abbreviation extract_meta :=
  (@extract_metadata_from_sitemap string string rfs StandIns.ET_fromstring
     StandIns.date_parser_parse StandIns.float_of_str).
Local Abbreviation extract_pages :=
  (@extract_pages_from_llms string string rfs SiteStandIns.urljoin
     SiteStandIns.urlparse_path SiteStandIns.HttpUrl).
Local Abbreviation crawl :=
  (@crawl string string rfs StandIns.ET_fromstring StandIns.date_parser_parse
     StandIns.float_of_str SiteStandIns.urljoin SiteStandIns.urlparse_path
     SiteStandIns.HttpUrl).
Local Abbreviation bootstrap_chunks :=
  (@bootstrap_chunks string string StandIns.isoformat rfs StandIns.ET_fromstring
     StandIns.date_parser_parse StandIns.float_of_str SiteStandIns.urljoin
     SiteStandIns.urlparse_path SiteStandIns.HttpUrl parse
     StandIns.soup_str hs rs).
Local Abbreviation bootstrap_chroma :=
  (@bootstrap_chroma string string StandIns.isoformat rfs StandIns.ET_fromstring
     StandIns.date_parser_parse StandIns.float_of_str SiteStandIns.urljoin
     SiteStandIns.urlparse_path SiteStandIns.HttpUrl parse
     StandIns.soup_str hs rs (list (Document string))
     SiteStandIns.from_documents SiteStandIns.add_documents (Ok tt)).
Local Abbreviation llms_ok := (Ok (mkResponse 200 llms_txt)).
Local Abbreviation sitemap_ok := (Ok (mkResponse 200 site_sitemap)).

Lemma chunk_keeps_window_texts_witness :
  map page_content (chunk hs rs two_sections None).1
  = ["# A" +:+ nl +:+ "alpha "; "a beta gam"; "amma"; "# B" +:+ nl +:+ "beta"]
  /\ length (chunk hs rs two_sections None).1 = 4.
Proof.
  destruct (chunk_keeps_window_texts hs rs two_sections None ltac:(discriminate))
    as [H1 H2].
  split; [rewrite H1|rewrite H2]; vm_compute; reflexivity.
Defined.

Lemma chunk_metadata_inherits_page_witness :
  exists d, d ∈ (chunk hs rs two_sections
                   (Some (to_metadata StandIns.isoformat fetched_page))).1
    /\ Chunker.metadata d !! "url" = Some (VStr "https://docs.example/intro").
Proof.
  set (docs := (chunk hs rs two_sections
                  (Some (to_metadata StandIns.isoformat fetched_page))).1).
  assert (exists d rest, docs = d :: rest) as (d & rest & E) by (vm_compute; eauto).
  assert (d ∈ docs) as Hin by (rewrite E; left).
  exists d. split; [exact Hin|].
  destruct (chunk_metadata_inherits_page hs rs two_sections _ d Hin)
    as (doc & i & sub & _ & _ & _ & _ & Hkeep & _).
  apply Hkeep; [discriminate|]. vm_compute. reflexivity.
Defined.

Lemma chunk_pages_chunk_names_its_page_witness :
  exists d, d ∈ (chunk_pages StandIns.isoformat hs rs [fetched_page] None).1
    /\ Chunker.metadata d !! "url" = Some (VStr "https://docs.example/intro")
    /\ Chunker.metadata d !! "loaded" = Some (VBool true).
Proof.
  set (docs := (chunk_pages StandIns.isoformat hs rs [fetched_page] None).1).
  assert (exists d rest, docs = d :: rest) as (d & rest & E) by (vm_compute; eauto).
  assert (d ∈ docs) as Hin by (rewrite E; left).
  exists d. split; [exact Hin|].
  destruct (chunk_pages_chunk_names_its_page StandIns.isoformat hs rs [fetched_page]
              None d Hin) as (page & body & Hp & _ & _ & Hurl & _ & _ & Hl & _).
  apply list_elem_of_singleton in Hp. subst page. split; [exact Hurl|exact Hl].
Defined.

(** The sitemap covers the first of two pages. *)
Lemma merge_overwrites_from_entry_witness :
  let store := <[1 := fresh_page "a"]> (<[2 := fresh_page "b"]> ∅) in
  (merge_pages_with_sitemap [1; 2] sitemap_meta store).2 !! 1
  = Some (merge_page sitemap_meta (fresh_page "a"))
  /\ lastmod (merge_page sitemap_meta (fresh_page "a")) = Some "2024-01-02".
Proof.
  intros store.
  destruct (merge_overwrites_from_entry [1; 2] sitemap_meta store 1 (fresh_page "a")
              eq_refl) as (_ & H & _).
  split; [apply H; left|reflexivity].
Defined.

Lemma extract_metadata_keys_witness :
  exists body root url_tag,
    safe_request rfs (Ok (mkResponse 200 sitemap_two_entries)) = Some body
    /\ body <> ""
    /\ StandIns.ET_fromstring body = Ok root
    /\ url_tag ∈ ET.findall (namespace_of (ET.tag root)) "url" root
    /\ entry_key (namespace_of (ET.tag root)) url_tag = Some "https://docs.example/b".
Proof.
  apply (extract_metadata_keys rfs StandIns.ET_fromstring StandIns.date_parser_parse
           StandIns.float_of_str (Ok (mkResponse 200 sitemap_two_entries))
           (<["https://docs.example/a" := mkEntry (Some "2024-01-02") (Some "0.8")]>
              (<["https://docs.example/b" := mkEntry None None]> ∅))).
  - vm_compute. reflexivity.
  - apply elem_of_dom. eexists. vm_compute. reflexivity.
Defined.

Lemma standin_float_raises_ValueError s e :
  StandIns.float_of_str s = Raise e -> e = ValueError.
Proof. unfold StandIns.float_of_str. destruct (_ && _); congruence. Qed.

(** A url entry without a [loc]: the function raises. *)
Lemma extract_metadata_raises_on_missing_loc_witness :
  extract_meta (Ok (mkResponse 200 sitemap_without_loc)) = Raise AttributeError.
Proof.
  destruct (extract_metadata_raises_on_missing_loc rfs StandIns.ET_fromstring
              StandIns.date_parser_parse StandIns.float_of_str
              standin_float_raises_ValueError
              (mkResponse 200 sitemap_without_loc)
              (ET.mkElement "urlset" None
                 [ET.mkElement "url" None [ET.mkElement "lastmod" (Some "2024-01-02") []]])
              eq_refl ltac:(discriminate) ltac:(vm_compute; reflexivity)) as [H _].
  apply H. apply Exists_cons_hd. reflexivity.
Defined.

Lemma namespace_of_root_tag_witness :
  namespace_of (ET.qualified (Some "http://www.sitemaps.org/schemas/sitemap/0.9") "urlset")
  = Some "http://www.sitemaps.org/schemas/sitemap/0.9"
  /\ namespace_of "urlset" = None.
Proof.
  destruct (namespace_of_root_tag "http://www.sitemaps.org/schemas/sitemap/0.9"
              "urlset" "loc" "urlset" eq_refl eq_refl eq_refl) as (H1 & _ & H3 & _).
  split; [exact H1|exact H3].
Defined.

Lemma from_raw_partitions_witness :
  exists base extra,
    from_raw StandIns.date_parser_parse raw_metadata = Ok (base, extra)
    /\ base !! "lastmod" = Some (Parsed "2024-01-02")
    /\ base !! "title" = None
    /\ extra !! "title" = Some (VStr "A").
Proof.
  destruct (from_raw StandIns.date_parser_parse raw_metadata) as [[base extra]|e] eqn:E.
  2:{ vm_compute in E. discriminate E. }
  exists base, extra. split; [reflexivity|].
  destruct (from_raw_partitions StandIns.date_parser_parse raw_metadata base extra E)
    as (_ & Hother & _ & _ & Hdate & _).
  split; [exact (Hdate "2024-01-02" eq_refl)|].
  apply Hother. apply (bool_decide_unpack _). vm_compute. exact I.
Defined.


Lemma build_stores_every_document_witness :
  exists st, build (list (Document string)) SiteStandIns.from_documents
               SiteStandIns.add_documents five_docs 2 = Ok (Some st)
             /\ st = five_docs.
Proof.
  apply (build_stores_every_document (list (Document string))
           SiteStandIns.from_documents SiteStandIns.add_documents (fun st => st)).
  - intros batch. exists batch. split; reflexivity.
  - intros st batch. exists (st ++ batch). split; reflexivity.
  - lia.
  - discriminate.
Defined.

Lemma build_edge_cases_witness :
  build (list (Document string)) SiteStandIns.from_documents
    SiteStandIns.add_documents five_docs 0 = Raise ValueError
  /\ build (list (Document string)) SiteStandIns.from_documents
       SiteStandIns.add_documents five_docs (-3) = Ok None.
Proof.
  destruct (build_edge_cases (list (Document string)) SiteStandIns.from_documents
              SiteStandIns.add_documents five_docs (-3) Timeout ltac:(discriminate))
    as (_ & H2 & H3 & _).
  split; [exact H2|apply H3; lia].
Defined.

(** The first page of the sample manifest. *)
Lemma extract_pages_are_fresh_links_witness :
  exists resp ttl md_path pre post,
    llms_ok = Ok resp
    /\ text resp = pre +:+ link_text ttl md_path +:+ post
    /\ well_formed_link ttl md_path
    /\ SiteStandIns.HttpUrl (web_url_of SiteStandIns.urljoin base_url md_path)
       = Ok "https://docs.example/proxies/intro"
    /\ SiteStandIns.HttpUrl (SiteStandIns.urljoin base_url md_path)
       = Ok "https://docs.example/proxies/intro.md"
    /\ Some "Intro" = Some ttl.
Proof.
  destruct (extract_pages_are_fresh_links rfs SiteStandIns.urljoin
              SiteStandIns.urlparse_path SiteStandIns.HttpUrl llms_ok base_url
              discovered_pages
              (new_Page "https://docs.example/proxies/intro"
                 "https://docs.example/proxies/intro.md" (Some "Intro") (Some "proxies"))
              ltac:(vm_compute; reflexivity) ltac:(left))
    as (resp & ttl & md_path & pre & post & H1 & H2 & H3 & H4 & H5 & H6 & _).
  exists resp, ttl, md_path, pre, post. done.
Defined.

Lemma well_formed_line_intro ttl mid rest :
  ttl <> "" -> contains_char "]" ttl = false ->
  mid <> "" -> contains_char ")" mid = false ->
  contains_char "[" rest = false ->
  well_formed_line (mkLine ttl ("/" +:+ mid +:+ ".md") rest).
Proof.
  intros H1 H2 H3 H4 H5. split; [|exact H5]. split; [exact H1|]. split; [exact H2|].
  by exists mid.
Qed.

Lemma llms_lines_well_formed : Forall well_formed_line llms_lines.
Proof.
  unfold llms_lines.
  constructor; [|constructor; [|constructor; [|constructor]]].
  - by apply (well_formed_line_intro "Intro" "proxies/intro").
  - by apply (well_formed_line_intro "Plans" "billing/plans").
  - by apply (well_formed_line_intro "ISP" "proxies/isp").
Qed.

(** The sample manifest: three lines, three pages. *)
Lemma extract_pages_one_page_per_line_witness :
  extract_pages llms_ok base_url = Ok discovered_pages.
Proof.
  rewrite (extract_pages_one_page_per_line rfs SiteStandIns.urljoin
             SiteStandIns.urlparse_path SiteStandIns.HttpUrl (fun u => u)
             (mkResponse 200 llms_txt) base_url ("# Docs" +:+ nl +:+ nl) llms_lines
             eq_refl eq_refl eq_refl llms_lines_well_formed
             (fun path => eq_refl)).
  vm_compute. reflexivity.
Defined.

(** The crawl of the sample site for the two sections returns the first
    and the third page, the first with the date of the sitemap. *)
Lemma crawl_selects_reconciled_pages_witness :
  exists pages store,
    crawl base_url llms_ok sitemap_ok (Some SECTIONS) = Ok (pages, store)
    /\ NoDup pages
    /\ omap (fun a => store !! a) pages
       = filter (fun p => in_sections SECTIONS p = true)
           (merge_page site_meta <$> discovered_pages)
    /\ length (omap (fun a => store !! a) pages) = 2.
Proof.
  destruct (crawl_selects_reconciled_pages rfs StandIns.ET_fromstring
              StandIns.date_parser_parse StandIns.float_of_str SiteStandIns.urljoin
              SiteStandIns.urlparse_path SiteStandIns.HttpUrl base_url llms_ok
              sitemap_ok (Some SECTIONS) discovered_pages site_meta
              ltac:(vm_compute; reflexivity) ltac:(vm_compute; reflexivity))
    as (pages & store & H1 & H2 & H3 & _).
  exists pages, store. split; [exact H1|]. split; [exact H2|]. split; [exact H3|].
  rewrite H3. vm_compute. reflexivity.
Defined.


(** The manifest cannot be reached. *)
Lemma crawl_without_manifest_witness :
  crawl base_url (Raise ConnectionError) sitemap_ok (Some SECTIONS) = Ok ([], ∅).
Proof.
  apply (crawl_without_manifest rfs StandIns.ET_fromstring StandIns.date_parser_parse
           StandIns.float_of_str SiteStandIns.urljoin SiteStandIns.urlparse_path
           SiteStandIns.HttpUrl base_url (Raise ConnectionError) sitemap_ok
           (Some SECTIONS) site_meta).
  - left. reflexivity.
  - vm_compute. reflexivity.
Defined.

(** The sample site, the first page request succeeding. *)
Lemma bootstrap_chunks_are_loaded_and_selected_witness :
  exists chunks d,
    bootstrap_chunks base_url llms_ok sitemap_ok first_succeeds clock = Ok chunks
    /\ d ∈ chunks
    /\ Chunker.metadata d !! "loaded" = Some (VBool true)
    /\ Chunker.metadata d !! "source" = Some (VStr "llms.txt")
    /\ exists s, s ∈ SECTIONS /\ Chunker.metadata d !! "section" = Some (VStr s).
Proof.
  destruct (bootstrap_chunks base_url llms_ok sitemap_ok first_succeeds clock)
    as [chunks|e] eqn:E.
  2:{ vm_compute in E. discriminate E. }
  assert (exists d rest, chunks = d :: rest) as (d & rest & Ec).
  { vm_compute in E. injection E as <-. eauto. }
  assert (d ∈ chunks) as Hin by (rewrite Ec; left).
  exists chunks, d. split; [reflexivity|]. split; [exact Hin|].
  exact (bootstrap_chunks_are_loaded_and_selected StandIns.isoformat rfs
           StandIns.ET_fromstring StandIns.date_parser_parse StandIns.float_of_str
           SiteStandIns.urljoin SiteStandIns.urlparse_path SiteStandIns.HttpUrl
           parse StandIns.soup_str hs rs base_url llms_ok sitemap_ok
           first_succeeds clock chunks d E Hin).
Defined.


End MoreInstances.
